(** * code_graph_rag: Java structure extraction, resolution and graph loading

    A shallow embedding of the repository's pipeline:
    - [PyStr]: the Python string operations the code relies on;
    - [Cypher]: the property-graph store and the shapes of Cypher
      statement the loaders send to it;
    - [Model]: the JSON project model exchanged between the phases;
    - [JavaAstV2]: [java_ast_v2.py] (extraction and relationship resolution);
    - [JavaAst]: the resolver of [java_ast.py];
    - [Analyzer]: the tree-sitter variant, [java_ast_analyzer.py];
    - [GraphUpsertV2], [Graph]: the loaders [graph_upsert_v2.py], [graph.py].

    Definitions come first, theorems follow. *)

From Stdlib Require Import String Ascii List Bool Arith Lia.
From stdpp Require Import base tactics option list strings gmap sets sorting.

Local Open Scope string_scope.
Local Open Scope list_scope.

(* ===================================================================== *)
(** ** Python strings *)
(* ===================================================================== *)

Module PyStr.

(** Truthiness of a value that is either [None] or a [str]. *)
Definition truthy (o : option string) : bool :=
  match o with
  | Some s => negb (String.eqb s "")
  | None => false
  end.

(** [x if x else ""] *)
Definition or_empty (o : option string) : string :=
  if truthy o then default "" o else "".

(** [s.split(c)] for a one-character separator. *)
Fixpoint split (c : ascii) (s : string) : list string :=
  match s with
  | EmptyString => [EmptyString]
  | String a s' =>
      if Ascii.eqb a c then EmptyString :: split c s'
      else match split c s' with
           | h :: t => String a h :: t
           | [] => [String a EmptyString]
           end
  end.

(** [sep.join(l)] *)
Fixpoint join (sep : string) (l : list string) : string :=
  match l with
  | [] => ""
  | [x] => x
  | x :: t => x +:+ sep +:+ join sep t
  end.

(** [s.endswith(t)] *)
Definition endswith (s t : string) : bool :=
  Nat.leb (String.length t) (String.length s)
  && String.eqb (substring (String.length s - String.length t)
                           (String.length t) s) t.

(** [os.path.basename(p)] on a POSIX path: what follows the last slash. *)
Definition basename (p : string) : string :=
  List.last (split "/"%char p) "".

(** [sorted(xs)] on strings: code-point order. *)
Definition str_le (a b : string) : Prop := Is_true (String.leb a b).

Definition sorted (xs : list string) : list string := merge_sort str_le xs.

(** [s.startswith(t)] *)
Definition startswith (s t : string) : bool := String.prefix t s.

(** [c in s] for a one-character [c]. *)
Fixpoint contains (c : ascii) (s : string) : bool :=
  match s with
  | EmptyString => false
  | String a s' => Ascii.eqb a c || contains c s'
  end.

(** [os.path.join(a, b)] on a POSIX system. *)
Definition os_path_join (a b : string) : string :=
  if startswith b "/" then b
  else if String.eqb a "" || endswith a "/" then a +:+ b
  else a +:+ "/" +:+ b.

End PyStr.

(* ===================================================================== *)
(** ** The graph store and its statements *)
(* ===================================================================== *)

Module Cypher.

Definition props := list (string * string).

Record node := Node { nid : nat; nlabel : string; nprops : props }.
Record rel := Rel { rsrc : nat; rtype : string; rdst : nat }.

(** The store hands out fresh node identities from a counter which a
    deletion does not rewind. *)
Record store := Store { nodes : list node; rels : list rel; next_id : nat }.

Definition empty : store := Store [] [] 0.

#[global] Instance node_eq_dec : EqDecision node.
Proof. solve_decision. Defined.
#[global] Instance rel_eq_dec : EqDecision rel.
Proof. solve_decision. Defined.

(** A node pattern [(x:Label {k1: v1, ...})]; the label is optional. *)
Record pattern := Pat { plabel : option string; pprops : props }.

Definition prop_get (k : string) (ps : props) : option string :=
  snd <$> List.find (fun kv => String.eqb (fst kv) k) ps.

Definition matches (p : pattern) (n : node) : bool :=
  match plabel p with
  | Some l => String.eqb (nlabel n) l
  | None => true
  end
  && forallb (fun kv => bool_decide (prop_get (fst kv) (nprops n) = Some (snd kv)))
             (pprops p).

Definition match_nodes (p : pattern) (g : store) : list nat :=
  map nid (List.filter (matches p) (nodes g)).

(** The statements used by the loaders:
    - [MATCH (n) DETACH DELETE n];
    - [CREATE (x:L {...})];
    - [MERGE (x:L {...})];
    - [MATCH (a ...) MATCH (b ...) MERGE (a)-[:T]->(b)];
    - [MATCH (a ...) MERGE (b:L {...}) MERGE (a)-[:T]->(b)]. *)
Inductive query :=
| DetachDeleteAll
| Create (l : string) (ps : props)
| Merge (l : string) (ps : props)
| MatchMergeRel (a : pattern) (t : string) (b : pattern)
| MatchMergeNodeRel (a : pattern) (l : string) (ps : props) (t : string).

Definition create_node (l : string) (ps : props) (g : store) : store :=
  Store (nodes g ++ [Node (next_id g) l ps]) (rels g) (S (next_id g)).

Definition merge_node (l : string) (ps : props) (g : store) : store :=
  match match_nodes (Pat (Some l) ps) g with
  | [] => create_node l ps g
  | _ :: _ => g
  end.

Definition add_rel (rs : list rel) (r : rel) : list rel :=
  if decide (r ∈ rs) then rs else rs ++ [r].

Definition rows (xs ys : list nat) (t : string) : list rel :=
  flat_map (fun a => map (fun b => Rel a t b) ys) xs.

Definition merge_rels (xs ys : list nat) (t : string) (g : store) : store :=
  Store (nodes g) (fold_left add_rel (rows xs ys t) (rels g)) (next_id g).

Definition exec (g : store) (q : query) : store :=
  match q with
  | DetachDeleteAll => Store [] [] (next_id g)
  | Create l ps => create_node l ps g
  | Merge l ps => merge_node l ps g
  | MatchMergeRel a t b => merge_rels (match_nodes a g) (match_nodes b g) t g
  | MatchMergeNodeRel a l ps t =>
      match match_nodes a g with
      | [] => g
      | xs =>
          let g' := merge_node l ps g in
          merge_rels xs (match_nodes (Pat (Some l) ps) g') t g'
      end
  end.

Definition run (qs : list query) (g : store) : store := fold_left exec qs g.

(** Renaming of node identities, and graphs equal up to such a renaming. *)
Definition rename_node (f : nat -> nat) (n : node) : node :=
  Node (f (nid n)) (nlabel n) (nprops n).
Definition rename_rel (f : nat -> nat) (r : rel) : rel :=
  Rel (f (rsrc r)) (rtype r) (f (rdst r)).

Definition isomorphic (g1 g2 : store) : Prop :=
  exists f : nat -> nat,
    (forall a b, In a (map nid (nodes g1)) -> In b (map nid (nodes g1)) ->
                 f a = f b -> a = b)
    /\ nodes g2 = map (rename_node f) (nodes g1)
    /\ rels g2 = map (rename_rel f) (rels g1).

Definition shift (k : nat) (g : store) : store :=
  Store (map (rename_node (fun i => k + i)) (nodes g))
        (map (rename_rel (fun i => k + i)) (rels g))
        (k + next_id g).

(** Observations on a store. *)
Definition nodes_with (p : pattern) (g : store) : list node :=
  List.filter (matches p) (nodes g).

(** The label and the properties of the node a statement can create. *)
Definition creates (q : query) : option (string * props) :=
  match q with
  | Create l ps | Merge l ps | MatchMergeNodeRel _ l ps _ => Some (l, ps)
  | DetachDeleteAll | MatchMergeRel _ _ _ => None
  end.

Definition deletes (q : query) : bool :=
  match q with
  | DetachDeleteAll => true
  | _ => false
  end.

(** Some node of the store matches the pattern. *)
Definition present (p : pattern) (g : store) : Prop :=
  exists n, In n (nodes g) /\ matches p n = true.

(** Some relationship of type [t] goes from a node matching [a] to a node
    matching [b]. *)
Definition linked (a : pattern) (t : string) (b : pattern) (g : store) : Prop :=
  exists x y,
    In x (nodes g) /\ matches a x = true
    /\ In y (nodes g) /\ matches b y = true
    /\ In (Rel (nid x) t (nid y)) (rels g).

(** The type of the relationships a statement can create. *)
Definition links (q : query) : option string :=
  match q with
  | MatchMergeRel _ t _ | MatchMergeNodeRel _ _ _ t => Some t
  | DetachDeleteAll | Create _ _ | Merge _ _ => None
  end.

(** The pattern asks no more than label [l] and properties [ps] give. *)
Definition weaker (p : pattern) (l : string) (ps : props) : Prop :=
  (plabel p = None \/ plabel p = Some l) /\ incl (pprops p) ps.

(** Statement [q] leaves a node that matches [p]. *)
Definition makes (q : query) (p : pattern) : Prop :=
  exists l ps,
    (q = Merge l ps \/ q = Create l ps)
    /\ List.NoDup (map fst ps) /\ weaker p l ps.

(** In the sequence [qs], statement [qa] is sent before an occurrence of [q]. *)
Definition sent_before (qa q : query) (qs : list query) : Prop :=
  exists a b, qs = a ++ q :: b /\ In qa a.

(** What a MERGE compares: the label and the property map of a node. *)
Definition tag (n : node) : string * props := (nlabel n, nprops n).

(** No statement of the sequence deletes. *)
Definition keeps (qs : list query) : Prop :=
  forallb (fun q => negb (deletes q)) qs = true.

(** The two patterns and the type of the relationships a statement can
    create. *)
Definition ends (q : query) : option (pattern * string * pattern) :=
  match q with
  | MatchMergeRel a t b => Some (a, t, b)
  | MatchMergeNodeRel a l ps t => Some (a, t, Pat (Some l) ps)
  | DetachDeleteAll | Create _ _ | Merge _ _ => None
  end.

End Cypher.

(* ===================================================================== *)
(** ** The project model (the JSON document between the phases) *)
(* ===================================================================== *)

Module Model.

Record param_info := ParamInfo { param_name : string; param_type : option string }.

Record method_info := MethodInfo {
  method_name : string;
  return_type : option string;
  parameters : list param_info;
  documentation : option string;
  description : option string;
  body : option string
}.

Record field_info := FieldInfo { field_name : string; field_type : string }.

Record class_info := ClassInfo {
  class_name : string;
  class_extends : option string;
  class_implements : list string;
  class_methods : list method_info;
  class_fields : list field_info
}.

Record interface_info := InterfaceInfo {
  interface_name : string;
  interface_extends : list string;
  interface_methods : list method_info
}.

(** [{'type': ..., 'target': ..., 'file': ...}]; the key [file] is optional. *)
Record dependency := Dependency {
  dep_type : string;
  dep_target : string;
  dep_file : option string
}.

#[global] Instance dependency_eq_dec : EqDecision dependency.
Proof. solve_decision. Defined.

(** A declaration record.  [dependencies] is [None] until the resolver
    stores the key. *)
Record file_record := FileRecord {
  path : string;
  package : option string;
  imports : list string;
  classes : list class_info;
  interfaces : list interface_info;
  dependencies : option (list dependency)
}.

(** A file maps to a declaration record or to [{'path': p, 'error': e}]. *)
Inductive file_info :=
| Parsed (r : file_record)
| Failed (p : string) (e : string).

(** ['error' in file_info] *)
Definition has_error (fi : file_info) : bool :=
  match fi with Parsed _ => false | Failed _ _ => true end.

(** [file_info.get(key)] and [file_info.get(key, [])]. *)
Definition get_package (fi : file_info) : option string :=
  match fi with Parsed r => package r | Failed _ _ => None end.
Definition get_imports (fi : file_info) : list string :=
  match fi with Parsed r => imports r | Failed _ _ => [] end.
Definition get_classes (fi : file_info) : list class_info :=
  match fi with Parsed r => classes r | Failed _ _ => [] end.
Definition get_interfaces (fi : file_info) : list interface_info :=
  match fi with Parsed r => interfaces r | Failed _ _ => [] end.
Definition get_dependencies (fi : file_info) : list dependency :=
  match fi with Parsed r => default [] (dependencies r) | Failed _ _ => [] end.

(** [file_info['dependencies'] = deps] *)
Definition set_dependencies (r : file_record) (deps : list dependency) : file_record :=
  FileRecord (path r) (package r) (imports r) (classes r) (interfaces r) (Some deps).

(** The [files] mapping, in insertion order, and the whole document. *)
Definition files_map := list (string * file_info).

Record project_structure := ProjectStructure {
  project_path : string;
  files : files_map
}.

(** [f"{package}.{name}" if package else name] *)
Definition full_name (pkg : option string) (name : string) : string :=
  if PyStr.truthy pkg then default "" pkg +:+ "." +:+ name else name.

(** The entries of the mapping that hold a declaration record. *)
Definition parsed_only (fs : files_map) : files_map :=
  List.filter (fun entry => negb (has_error (snd entry))) fs.

(** The simple names of the types a record declares. *)
Definition declared_types (fi : file_info) : list string :=
  map class_name (get_classes fi) ++ map interface_name (get_interfaces fi).

End Model.

(* ===================================================================== *)
(** ** java_ast_v2.py *)
(* ===================================================================== *)

Module JavaAstV2.
Import Model.

(** *** The javalang syntax tree, as far as the extractor reads it *)

Record FormalParameter := { fp_name : string; fp_type : string }.

(** [return_type] is [None] for a method declared without one. *)
Record MethodDeclaration := {
  md_name : string;
  md_return_type : option string;
  md_parameters : list FormalParameter;
  md_documentation : option string;
  md_position : option nat
}.

Record FieldDeclaration := { fd_type : string; fd_declarators : list string }.

Record ClassDeclaration := {
  cd_name : string;
  cd_extends : option string;
  cd_implements : list string;
  cd_fields : list FieldDeclaration;
  cd_methods : list MethodDeclaration
}.

Record InterfaceDeclaration := {
  id_name : string;
  id_extends : list string;
  id_methods : list MethodDeclaration
}.

Inductive TypeDeclaration :=
| TClass (c : ClassDeclaration)
| TInterface (i : InterfaceDeclaration)
| TOther.

(** [types] lists the declarations in the order of
    [tree.filter(javalang.tree.TypeDeclaration)]. *)
Record CompilationUnit := {
  cu_package : option string;
  cu_imports : list string;
  cu_types : list TypeDeclaration
}.

Section Extractor.
(** [extract_method_body] only cuts the body text out of the source and
    [generate_method_description] asks the text-generation service; both
    produce free text and are kept abstract. *)
Variable extract_method_body : string -> MethodDeclaration -> option string.
Variable generate_method_description :
  string -> option string -> option string -> string.

Definition extract_parameter (p : FormalParameter) : param_info :=
  ParamInfo (fp_name p) (Some (fp_type p)).

Definition extract_method (source_code : option string) (m : MethodDeclaration)
  : method_info :=
  let method_documentation := md_documentation m in
  let method_code :=
    if PyStr.truthy source_code
    then extract_method_body (default "" source_code) m
    else None in
  let description :=
    generate_method_description (md_name m) method_documentation method_code in
  MethodInfo (md_name m)
             (md_return_type m)
             (map extract_parameter (md_parameters m))
             method_documentation
             (Some description)
             method_code.

Definition extract_fields (fs : list FieldDeclaration) : list field_info :=
  flat_map (fun f => map (fun d => FieldInfo d (fd_type f)) (fd_declarators f)) fs.

Definition extract_class (source_code : option string) (c : ClassDeclaration)
  : class_info :=
  ClassInfo (cd_name c) (cd_extends c) (cd_implements c)
            (map (extract_method source_code) (cd_methods c))
            (extract_fields (cd_fields c)).

Definition extract_interface (source_code : option string) (i : InterfaceDeclaration)
  : interface_info :=
  InterfaceInfo (id_name i) (id_extends i)
                (map (extract_method source_code) (id_methods i)).

(** [extract_ast_info], with the caller's [ast_info['path'] = file_path]
    folded in. *)
Definition extract_ast_info (tree : CompilationUnit) (source_code : option string)
  (file_path : string) : file_record :=
  FileRecord file_path
             (cu_package tree)
             (cu_imports tree)
             (flat_map (fun t => match t with
                                 | TClass c => [extract_class source_code c]
                                 | _ => []
                                 end) (cu_types tree))
             (flat_map (fun t => match t with
                                 | TInterface i => [extract_interface source_code i]
                                 | _ => []
                                 end) (cu_types tree))
             None.

(** [javalang.parse.parse]: a tree, or the text of the exception raised. *)
Variable parse : string -> CompilationUnit + string.

(** [process_java_file]; [source] is what reading the file gave: its
    text, or the text of the exception raised. *)
Definition process_java_file (file_path : string) (source : string + string)
  : file_info :=
  match source with
  | inl source_code =>
      match parse source_code with
      | inl tree => Parsed (extract_ast_info tree (Some source_code) file_path)
      | inr e => Failed file_path e
      end
  | inr e => Failed file_path e
  end.
End Extractor.

(** *** analyze_relationships *)

(** The names one record registers, in registration order: for each class
    the qualified then the short name, then the same for each interface. *)
Definition registered_names (fi : file_info) : list string :=
  flat_map (fun c => [full_name (get_package fi) (class_name c); class_name c])
           (get_classes fi)
  ++ flat_map (fun i => [full_name (get_package fi) (interface_name i);
                         interface_name i])
              (get_interfaces fi).

Definition register (file_path : string) (class_map : gmap string string)
  (names : list string) : gmap string string :=
  fold_left (fun m k => <[k := file_path]> m) names class_map.

(** One turn of the loop that fills [class_map]. *)
Definition index_step (class_map : gmap string string) (entry : string * file_info)
  : gmap string string :=
  let '(file_path, file_info) := entry in
  if has_error file_info then class_map
  else register file_path class_map (registered_names file_info).

Definition build_class_map (fs : files_map) : gmap string string :=
  fold_left index_step fs ∅.

(** The loop over [class_map.keys()] that sets [is_internal]. *)
Definition is_internal (class_map : gmap string string) (import_path : string) : bool :=
  existsb (fun class_name =>
             PyStr.endswith import_path class_name
             || bool_decide (class_name ∈ PyStr.split "."%char import_path))
          (map fst (map_to_list class_map)).

Definition import_dependencies (class_map : gmap string string)
  (import_path : string) : list dependency :=
  if is_internal class_map import_path || bool_decide (is_Some (class_map !! import_path))
  then [Dependency "import" import_path (class_map !! import_path)]
  else [].

Definition class_dependencies (class_map : gmap string string) (c : class_info)
  : list dependency :=
  (if PyStr.truthy (class_extends c)
   then let e := default "" (class_extends c) in
        [Dependency "extends" e (class_map !! e)]
   else [])
  ++ map (fun i => Dependency "implements" i (class_map !! i)) (class_implements c).

Definition file_dependencies (class_map : gmap string string) (fi : file_info)
  : list dependency :=
  flat_map (import_dependencies class_map) (get_imports fi)
  ++ flat_map (class_dependencies class_map) (get_classes fi).

Definition analyze_relationships (fs : files_map) : files_map :=
  let class_map := build_class_map fs in
  map (fun '(file_path, file_info) =>
         match file_info with
         | Failed _ _ => (file_path, file_info)
         | Parsed r =>
             (file_path,
              Parsed (set_dependencies r (file_dependencies class_map file_info)))
         end) fs.

(** *** find_java_files *)

(** What [os.walk(project_path)] yields: for each directory its path, the
    names of its sub-directories and the names of its files. *)
Definition walk_result := list (string * list string * list string).

Definition find_java_files (walk : walk_result) : list string :=
  flat_map (fun '(root, dirs, files) =>
              map (PyStr.os_path_join root)
                  (List.filter (fun file => PyStr.endswith file ".java") files))
           walk.

End JavaAstV2.

(* ===================================================================== *)
(** ** java_ast.py: the first resolver *)
(* ===================================================================== *)

Module JavaAst.
Import Model.

(** Only classes are entered in the map. *)
Definition registered_names (fi : file_info) : list string :=
  flat_map (fun c => [full_name (get_package fi) (class_name c); class_name c])
           (get_classes fi).

Definition index_step (class_map : gmap string string) (entry : string * file_info)
  : gmap string string :=
  let '(file_path, file_info) := entry in
  if has_error file_info then class_map
  else JavaAstV2.register file_path class_map (registered_names file_info).

Definition build_class_map (fs : files_map) : gmap string string :=
  fold_left index_step fs ∅.

Definition import_dependencies (class_map : gmap string string)
  (import_path : string) : list dependency :=
  [Dependency "import" import_path (class_map !! import_path)].

Definition file_dependencies (class_map : gmap string string) (fi : file_info)
  : list dependency :=
  flat_map (import_dependencies class_map) (get_imports fi)
  ++ flat_map (JavaAstV2.class_dependencies class_map) (get_classes fi).

Definition analyze_relationships (fs : files_map) : files_map :=
  let class_map := build_class_map fs in
  map (fun '(file_path, file_info) =>
         match file_info with
         | Failed _ _ => (file_path, file_info)
         | Parsed r =>
             (file_path,
              Parsed (set_dependencies r (file_dependencies class_map file_info)))
         end) fs.

End JavaAst.

(* ===================================================================== *)
(** ** java_ast_analyzer.py: the tree-sitter variant *)
(* ===================================================================== *)

Module Analyzer.

(** A tree-sitter node: its type, the source text it spans
    ([get_node_text]) and its children. *)
#[warnings="-register-all"]
Inductive ts_node := TsNode (type : string) (text : string) (children : list ts_node).

Definition node_type (n : ts_node) : string := let 'TsNode t _ _ := n in t.
Definition get_node_text (n : ts_node) : string := let 'TsNode _ s _ := n in s.
Definition node_children (n : ts_node) : list ts_node := let 'TsNode _ _ c := n in c.

(** [next((c for c in n.children if c.type in types), None)] *)
Definition first_child (types : list string) (n : ts_node) : option ts_node :=
  List.find (fun c => bool_decide (node_type c ∈ types)) (node_children n).

Definition children_of_type (t : string) (n : ts_node) : list ts_node :=
  List.filter (fun c => String.eqb (node_type c) t) (node_children n).

Record param_info := ParamInfo { param_name : string; param_type : string }.

Record method_info := MethodInfo {
  method_name : string;
  return_type : option string;
  parameters : list param_info;
  body : option string;
  referenced_objects : list string
}.

Record field_info := FieldInfo { field_name : string; field_type : option string }.

Record class_info := ClassInfo {
  class_name : string;
  class_extends : option string;
  class_implements : list string;
  class_fields : list field_info;
  class_methods : list method_info
}.

Record object_reference := ObjectReference {
  ref_class : string;
  ref_method : string;
  referenced_object : string
}.

(** What [analyze_object_references] stores in place of a reference. *)
Record resolved_reference := ResolvedReference {
  from_class : string;
  from_method : string;
  to_class : string;
  to_file : string
}.

(** The second loop of [analyze_object_references] on one file, given the
    class map its first loop built. *)
Definition resolve_object_references (class_map : gmap string string)
  (refs : list object_reference) : list resolved_reference :=
  flat_map (fun ref =>
    let ref_obj := referenced_object ref in
    match class_map !! ref_obj with
    | Some file_path =>
        [ResolvedReference (ref_class ref) (ref_method ref) ref_obj file_path]
    | None => []
    end) refs.

Definition primitives : gset string :=
  {[ "int"; "long"; "double"; "float"; "boolean"; "char"; "byte"; "short";
     "void"; "String" ]}.

Definition new_pattern : string := "new\s+([A-Za-z][A-Za-z0-9_]*)\s*\(".
Definition static_pattern : string :=
  "([A-Za-z][A-Za-z0-9_]*)\s*\.\s*[A-Za-z][A-Za-z0-9_]*\s*\(".
Definition var_pattern : string :=
  "([A-Za-z][A-Za-z0-9_]*)\s+[a-z][A-Za-z0-9_]*\s*[=;]".

Section References.
(** [re.findall(pattern, text)] for a pattern with one group: the text
    captured at each match. *)
Variable findall : string -> string -> list string.

Definition find_object_references (method_body : option string) : list string :=
  if negb (PyStr.truthy method_body) then []
  else
    let text := default "" method_body in
    let new_objects := findall new_pattern text in
    let static_calls := findall static_pattern text in
    let var_declarations := findall var_pattern text in
    let ref_objects : gset string :=
      list_to_set (new_objects ++ static_calls ++ var_declarations) in
    List.filter (fun obj => bool_decide (obj ∉ primitives)) (elements ref_objects).

Definition extract_method_parameters (method_node : ts_node) : list param_info :=
  match first_child ["formal_parameters"] method_node with
  | Some formal_parameters =>
      flat_map (fun child =>
        let type_node :=
          first_child ["type_identifier"; "array_type"; "primitive_type"] child in
        let name_node := first_child ["identifier"] child in
        match name_node, type_node with
        | Some n, Some t =>
            if PyStr.truthy (Some (get_node_text n))
               && PyStr.truthy (Some (get_node_text t))
            then [ParamInfo (get_node_text n) (get_node_text t)] else []
        | _, _ => []
        end) (children_of_type "formal_parameter" formal_parameters)
  | None => []
  end.

Definition extract_method_body (method_node : ts_node) : option string :=
  get_node_text <$> first_child ["block"] method_node.

Definition extract_class_methods (class_node : ts_node) : list method_info :=
  flat_map (fun child =>
    flat_map (fun body_child =>
      let return_type :=
        get_node_text <$>
          first_child ["type_identifier"; "void_type"; "primitive_type"] body_child in
      match first_child ["identifier"] body_child with
      | Some name_node =>
          let method_body := extract_method_body body_child in
          [MethodInfo (get_node_text name_node)
                      return_type
                      (extract_method_parameters body_child)
                      method_body
                      (find_object_references method_body)]
      | None => []
      end) (children_of_type "method_declaration" child))
    (children_of_type "class_body" class_node).

Definition extract_class_fields (class_node : ts_node) : list field_info :=
  flat_map (fun child =>
    flat_map (fun body_child =>
      let field_type :=
        get_node_text <$>
          first_child ["type_identifier"; "primitive_type"] body_child in
      flat_map (fun n =>
        match first_child ["identifier"] n with
        | Some name_node => [FieldInfo (get_node_text name_node) field_type]
        | None => []
        end) (children_of_type "variable_declarator" body_child))
      (children_of_type "field_declaration" child))
    (children_of_type "class_body" class_node).

Definition extract_class_extends (class_node : ts_node) : option string :=
  match first_child ["superclass"] class_node with
  | Some extends_clause =>
      get_node_text <$> first_child ["type_identifier"] extends_clause
  | None => None
  end.

Definition extract_class_implements (class_node : ts_node) : list string :=
  match first_child ["interfaces"] class_node with
  | Some implements_clause =>
      map get_node_text (children_of_type "type_identifier" implements_clause)
  | None => []
  end.

(** The class branch of [extract_ast_info]: the class record and the
    references it appends to [info['object_references']]. *)
Definition class_object_references (c : class_info) : list object_reference :=
  flat_map (fun m =>
    flat_map (fun ref_obj =>
      if negb (String.eqb ref_obj (class_name c))
      then [ObjectReference (class_name c) (method_name m) ref_obj]
      else []) (referenced_objects m))
    (class_methods c).

Definition extract_class (node : ts_node) : option class_info :=
  match first_child ["identifier"] node with
  | Some name_node =>
      Some (ClassInfo (get_node_text name_node)
                      (extract_class_extends node)
                      (extract_class_implements node)
                      (extract_class_fields node)
                      (extract_class_methods node))
  | None => None
  end.

Definition extract_classes (root_node : ts_node) : list class_info :=
  flat_map (fun node => match extract_class node with
                        | Some c => [c]
                        | None => []
                        end)
           (children_of_type "class_declaration" root_node).

(** [info['object_references']] as [extract_ast_info] leaves it. *)
Definition extract_object_references (root_node : ts_node) : list object_reference :=
  flat_map class_object_references (extract_classes root_node).
End References.

End Analyzer.

(* ===================================================================== *)
(** ** graph_upsert_v2.py: CodeAnalyzerGraphLoader *)
(* ===================================================================== *)

(** No statement's result is read back by the loaders, so a loader is the
    sequence of statements it sends; [Cypher.run] executes it. *)

Module GraphUpsertV2.
Import Model Cypher.

Definition by_name (l : string) (name : string) : pattern :=
  Pat (Some l) [("name", name)].
Definition by_path (file_path : string) : pattern :=
  Pat (Some "File") [("path", file_path)].
Definition by_full_name (l : option string) (full : string) : pattern :=
  Pat l [("fullName", full)].
Definition by_id (l : string) (id : string) : pattern :=
  Pat (Some l) [("id", id)].

Definition _clear_database : list query := [DetachDeleteAll].

Definition _create_project (project_name project_path : string) : list query :=
  [Create "Project" [("name", project_name); ("path", project_path)]].

Definition _create_package (package_name : string) : list query :=
  [Merge "Package" [("name", package_name)]].

Definition _create_package_hierarchy (packages : gset string) : list query :=
  flat_map (fun package =>
    let parts := PyStr.split "."%char package in
    flat_map (fun i =>
      let parent_package := PyStr.join "." (firstn i parts) in
      let child_package := PyStr.join "." (firstn (i + 1) parts) in
      if PyStr.truthy (Some parent_package) && PyStr.truthy (Some child_package)
      then [MatchMergeRel (by_name "Package" parent_package) "CONTAINS"
                          (by_name "Package" child_package)]
      else [])
      (seq 1 (length parts - 1)))
    (PyStr.sorted (elements packages)).

Definition _create_file (file_name file_path : string) (package_name : option string)
  : list query :=
  [Merge "File" [("name", file_name); ("path", file_path)]]
  ++ (if PyStr.truthy package_name
      then [MatchMergeRel (by_name "Package" (default "" package_name)) "CONTAINS"
                          (by_path file_path)]
      else [])
  ++ [MatchMergeRel (Pat (Some "Project") []) "CONTAINS" (by_path file_path)].

Definition _create_import (import_name : string) : list query :=
  [Merge "Import" [("name", import_name)]].

Definition _create_file_imports_relationship (file_path import_name : string)
  : list query :=
  [MatchMergeRel (by_path file_path) "IMPORTS" (by_name "Import" import_name)].

Record class_properties := ClassProperties {
  cp_name : string; cp_fullName : string; cp_extends : string
}.

Definition _create_class (properties : class_properties)
  (package_name : option string) (file_path : string) : list query :=
  [Merge "Class" [("name", cp_name properties);
                  ("fullName", cp_fullName properties);
                  ("extends", cp_extends properties)]]
  ++ (if PyStr.truthy package_name
      then [MatchMergeRel (by_name "Package" (default "" package_name)) "CONTAINS"
                          (by_full_name (Some "Class") (cp_fullName properties))]
      else [])
  ++ [MatchMergeRel (by_path file_path) "CONTAINS"
                    (by_full_name (Some "Class") (cp_fullName properties))].

Record field_properties := FieldProperties {
  fp_name : string; fp_type : string; fp_class_name : string
}.

Definition field_id (class_full_name : string) (properties : field_properties) : string :=
  class_full_name +:+ "." +:+ fp_name properties.

Definition _create_field (properties : field_properties) (class_full_name : string)
  : list query :=
  [Merge "Field" [("name", fp_name properties);
                  ("type", fp_type properties);
                  ("id", field_id class_full_name properties);
                  ("class_name", class_full_name)];
   MatchMergeRel (by_full_name (Some "Class") class_full_name) "HAS_FIELD"
                 (by_id "Field" (field_id class_full_name properties))].

Record interface_properties := InterfaceProperties {
  ip_name : string; ip_fullName : string
}.

Definition _create_interface (properties : interface_properties)
  (package_name : option string) (file_path : string) : list query :=
  [Merge "Interface" [("name", ip_name properties);
                      ("fullName", ip_fullName properties)]]
  ++ (if PyStr.truthy package_name
      then [MatchMergeRel (by_name "Package" (default "" package_name)) "CONTAINS"
                          (by_full_name (Some "Interface") (ip_fullName properties))]
      else [])
  ++ [MatchMergeRel (by_path file_path) "CONTAINS"
                    (by_full_name (Some "Interface") (ip_fullName properties))].

Record method_properties := MethodProperties {
  mp_name : string;
  mp_returnType : string;
  mp_documentation : string;
  mp_description : string;
  mp_body : string;
  mp_parent_name : string
}.

Definition method_id (properties : method_properties) : string :=
  mp_parent_name properties +:+ "." +:+ mp_name properties.

Definition method_node_props (properties : method_properties) : props :=
  [("name", mp_name properties);
   ("id", method_id properties);
   ("returnType", mp_returnType properties);
   ("documentation", mp_documentation properties);
   ("description", mp_description properties);
   ("body", mp_body properties);
   ("parent_name", mp_parent_name properties)].

(** [_create_method]: its statements; it returns [method_id properties]. *)
Definition _create_method (properties : method_properties) : list query :=
  [Merge "Method" (method_node_props properties);
   MatchMergeRel (by_full_name None (mp_parent_name properties)) "DECLARES"
                 (by_id "Method" (method_id properties))].

Record param_properties := ParamProperties {
  pp_name : string; pp_type : string; pp_method_id : string
}.

Definition param_id (method_id : string) (properties : param_properties) : string :=
  method_id +:+ "." +:+ pp_name properties.

Definition _create_parameter (properties : param_properties) (method_id : string)
  : list query :=
  [Merge "Parameter" [("name", pp_name properties);
                      ("type", pp_type properties);
                      ("id", param_id method_id properties);
                      ("method_id", method_id)];
   MatchMergeRel (by_id "Method" method_id) "HAS_PARAMETER"
                 (by_id "Parameter" (param_id method_id properties))].

Definition _create_extends_relationship (child_full_name parent_name : string)
  : list query :=
  [MatchMergeRel (by_full_name None child_full_name) "EXTENDS"
                 (Pat None [("name", parent_name)])].

Definition _create_implements_relationship (class_full_name interface_name : string)
  : list query :=
  [MatchMergeRel (by_full_name (Some "Class") class_full_name) "IMPLEMENTS"
                 (by_name "Interface" interface_name)].

Definition _create_file_depends_on_relationship (source_file target_file : string)
  : list query :=
  [MatchMergeRel (by_path source_file) "DEPENDS_ON" (by_path target_file)].

(** *** load_project *)

Definition load_parameters (method_id : string) (ps : list param_info) : list query :=
  flat_map (fun param_info =>
    _create_parameter
      (ParamProperties (param_name param_info)
                       (PyStr.or_empty (param_type param_info))
                       method_id)
      method_id) ps.

(** The properties built for a method of a class or of an interface; the
    two branches differ only in the default of the [.get], which the
    guard that follows absorbs. *)
Definition build_method_properties (parent_name : string) (method_info : method_info)
  : method_properties :=
  MethodProperties (method_name method_info)
                   (if PyStr.truthy (return_type method_info)
                    then default "" (return_type method_info) else "void")
                   (PyStr.or_empty (documentation method_info))
                   (PyStr.or_empty (description method_info))
                   (PyStr.or_empty (body method_info))
                   parent_name.

Definition load_methods (parent_name : string) (ms : list method_info) : list query :=
  flat_map (fun method_info =>
    let properties := build_method_properties parent_name method_info in
    _create_method properties
    ++ load_parameters (method_id properties) (parameters method_info)) ms.

Definition load_class (package : option string) (file_path : string)
  (class_info : class_info) : list query :=
  let full_class_name := full_name package (class_name class_info) in
  let extends := class_extends class_info in
  _create_class (ClassProperties (class_name class_info) full_class_name
                                 (PyStr.or_empty extends))
                package file_path
  ++ flat_map (fun field_info =>
       _create_field (FieldProperties (field_name field_info)
                                      (field_type field_info) full_class_name)
                     full_class_name) (class_fields class_info)
  ++ load_methods full_class_name (class_methods class_info)
  ++ (if PyStr.truthy extends
      then _create_extends_relationship full_class_name (default "" extends)
      else [])
  ++ flat_map (_create_implements_relationship full_class_name)
              (class_implements class_info).

Definition load_interface (package : option string) (file_path : string)
  (interface_info : interface_info) : list query :=
  let full_interface_name := full_name package (interface_name interface_info) in
  _create_interface (InterfaceProperties (interface_name interface_info)
                                         full_interface_name)
                    package file_path
  ++ load_methods full_interface_name (interface_methods interface_info)
  ++ flat_map (_create_extends_relationship full_interface_name)
              (interface_extends interface_info).

Definition load_file (entry : string * file_info) : list query :=
  let '(file_path, file_info) := entry in
  let package := get_package file_info in
  _create_file (PyStr.basename file_path) file_path package
  ++ flat_map (fun import_stmt =>
       _create_import import_stmt
       ++ _create_file_imports_relationship file_path import_stmt)
       (get_imports file_info)
  ++ flat_map (load_class package file_path) (get_classes file_info)
  ++ flat_map (load_interface package file_path) (get_interfaces file_info).

Definition declared_packages (fs : files_map) : list string :=
  flat_map (fun '(_, file_info) =>
    if PyStr.truthy (get_package file_info)
    then [default "" (get_package file_info)] else []) fs.

Definition load_dependencies (entry : string * file_info) : list query :=
  let '(file_path, file_info) := entry in
  flat_map (fun dependency =>
    if String.eqb (dep_type dependency) "import" && PyStr.truthy (dep_file dependency)
    then _create_file_depends_on_relationship file_path
                                              (default "" (dep_file dependency))
    else []) (get_dependencies file_info).

Definition load_project (project_data : project_structure) : list query :=
  _clear_database
  ++ _create_project (PyStr.basename (project_path project_data))
                     (project_path project_data)
  ++ flat_map _create_package (declared_packages (files project_data))
  ++ _create_package_hierarchy (list_to_set (declared_packages (files project_data)))
  ++ flat_map load_file (files project_data)
  ++ flat_map load_dependencies (files project_data).

(** The store after a load. *)
Definition loaded (project_data : project_structure) (g : store) : store :=
  run (load_project project_data) g.

(** The statements that follow the reset. *)
Definition statements (project_data : project_structure) : list query :=
  tl (load_project project_data).

(** In store [g], every method of [ms] is declared by its owner [full] and
    has each of its parameters. *)
Definition methods_linked (full : string) (ms : list method_info) (g : store) : Prop :=
  forall m, In m ms ->
    let properties := build_method_properties full m in
    linked (by_full_name None full) "DECLARES"
           (by_id "Method" (method_id properties)) g
    /\ forall pi, In pi (parameters m) ->
         linked (by_id "Method" (method_id properties)) "HAS_PARAMETER"
                (by_id "Parameter"
                   (method_id properties +:+ "." +:+ param_name pi)) g.

End GraphUpsertV2.

(* ===================================================================== *)
(** ** graph.py: JavaProjectGraphLoader *)
(* ===================================================================== *)

Module Graph.
Import Model Cypher.

Definition _create_file (file_name file_path : string) (package_name : option string)
  : list query :=
  [Merge "File" [("name", file_name); ("path", file_path)]]
  ++ (if PyStr.truthy package_name
      then [MatchMergeRel (GraphUpsertV2.by_name "Package" (default "" package_name))
                          "CONTAINS" (GraphUpsertV2.by_path file_path)]
      else []).

Definition _create_class (class_name full_class_name : string)
  (package_name : option string) (file_path : string) : list query :=
  [Merge "Class" [("name", class_name); ("fullName", full_class_name)]]
  ++ (if PyStr.truthy package_name
      then [MatchMergeRel (GraphUpsertV2.by_name "Package" (default "" package_name))
                          "CONTAINS"
                          (GraphUpsertV2.by_full_name (Some "Class") full_class_name)]
      else [])
  ++ [MatchMergeRel (GraphUpsertV2.by_path file_path) "CONTAINS"
                    (GraphUpsertV2.by_full_name (Some "Class") full_class_name)].

Definition _create_interface (interface_name full_interface_name : string)
  (package_name : option string) (file_path : string) : list query :=
  [Merge "Interface" [("name", interface_name); ("fullName", full_interface_name)]]
  ++ (if PyStr.truthy package_name
      then [MatchMergeRel (GraphUpsertV2.by_name "Package" (default "" package_name))
                          "CONTAINS"
                          (GraphUpsertV2.by_full_name (Some "Interface")
                                                      full_interface_name)]
      else [])
  ++ [MatchMergeRel (GraphUpsertV2.by_path file_path) "CONTAINS"
                    (GraphUpsertV2.by_full_name (Some "Interface")
                                                full_interface_name)].

(** [return_type] is replaced by ["void"] only when it is [None]. *)
Definition _create_method (method_name : string) (return_type : option string)
  (parent_full_name : string) : list query :=
  let method_id := parent_full_name +:+ "." +:+ method_name in
  [Merge "Method" [("name", method_name); ("id", method_id);
                   ("returnType", default "void" return_type)];
   MatchMergeRel (GraphUpsertV2.by_full_name None parent_full_name) "DECLARES"
                 (GraphUpsertV2.by_id "Method" method_id)].

Definition _create_import_relationship (file_path import_target : string)
  : list query :=
  [MatchMergeNodeRel (GraphUpsertV2.by_path file_path)
                     "Import" [("name", import_target)] "IMPORTS"].

Definition load_class (package : option string) (file_path : string)
  (class_info : class_info) : list query :=
  let full_class_name := full_name package (class_name class_info) in
  let extends := class_extends class_info in
  _create_class (class_name class_info) full_class_name package file_path
  ++ flat_map (fun method_info =>
       _create_method (method_name method_info) (return_type method_info)
                      full_class_name) (class_methods class_info)
  ++ (if PyStr.truthy extends
      then GraphUpsertV2._create_extends_relationship full_class_name
                                                      (default "" extends)
      else [])
  ++ flat_map (GraphUpsertV2._create_implements_relationship full_class_name)
              (class_implements class_info).

Definition load_interface (package : option string) (file_path : string)
  (interface_info : interface_info) : list query :=
  let full_interface_name := full_name package (interface_name interface_info) in
  _create_interface (interface_name interface_info) full_interface_name
                    package file_path
  ++ flat_map (fun method_info =>
       _create_method (method_name method_info) (return_type method_info)
                      full_interface_name) (interface_methods interface_info)
  ++ flat_map (GraphUpsertV2._create_extends_relationship full_interface_name)
              (interface_extends interface_info).

(** Every loop of this loader starts with [if 'error' in file_info: continue]. *)
Definition load_file (entry : string * file_info) : list query :=
  let '(file_path, file_info) := entry in
  if has_error file_info then []
  else
    let package := get_package file_info in
    _create_file (PyStr.basename file_path) file_path package
    ++ flat_map (load_class package file_path) (get_classes file_info)
    ++ flat_map (load_interface package file_path) (get_interfaces file_info).

Definition declared_packages (fs : files_map) : list string :=
  flat_map (fun '(_, file_info) =>
    if has_error file_info then []
    else if PyStr.truthy (get_package file_info)
         then [default "" (get_package file_info)] else []) fs.

Definition load_imports (entry : string * file_info) : list query :=
  let '(file_path, file_info) := entry in
  if has_error file_info then []
  else
    flat_map (fun dependency =>
      if String.eqb (dep_type dependency) "import"
      then _create_import_relationship file_path (dep_target dependency)
      else []) (get_dependencies file_info).

Definition load_project (project_data : project_structure) : list query :=
  GraphUpsertV2._clear_database
  ++ GraphUpsertV2._create_project (PyStr.basename (project_path project_data))
                                   (project_path project_data)
  ++ flat_map GraphUpsertV2._create_package (declared_packages (files project_data))
  ++ GraphUpsertV2._create_package_hierarchy
       (list_to_set (declared_packages (files project_data)))
  ++ flat_map load_file (files project_data)
  ++ flat_map load_imports (files project_data).

Definition loaded (project_data : project_structure) (g : store) : store :=
  run (load_project project_data) g.

End Graph.

(* ===================================================================== *)
(** ** Sample projects *)
(* ===================================================================== *)

Module Samples.
Import Model Cypher.

Definition parsed (file_path : string) (pkg : option string) (imps : list string)
  (cls : list class_info) (ifs : list interface_info) : string * file_info :=
  (file_path, Parsed (FileRecord file_path pkg imps cls ifs None)).

(** The project as the v2 pipeline hands it to the loader. *)
Definition project (fs : files_map) : project_structure :=
  ProjectStructure "/src/demo" (JavaAstV2.analyze_relationships fs).

(** [A.java]: class [A] in package [p] implementing [I];
    [B.java]: interface [I] in package [p]. *)
Definition A_java := parsed "A.java" (Some "p") [] [ClassInfo "A" None ["I"] [] []] [].
Definition B_java := parsed "B.java" (Some "p") [] [] [InterfaceInfo "I" [] []].

(** One file, declared in package [a.b.c]. *)
Definition C_java := parsed "a/b/c/C.java" (Some "a.b.c") [] [ClassInfo "C" None [] [] []] [].

(** Three files declaring [a], [a.b] and [a.b.c]. *)
Definition P1_java := parsed "a/P1.java" (Some "a") [] [] [].
Definition P2_java := parsed "a/b/P2.java" (Some "a.b") [] [] [].

(** A file that did not parse. *)
Definition Bad_java : string * file_info :=
  ("Bad.java", Failed "/src/demo/Bad.java" "JavaSyntaxError").

(** A class with two methods named [f]: [int f()] and [void f(int x)]. *)
Definition f_int : method_info :=
  MethodInfo "f" (Some "int") [] None (Some "") (Some "return 1;").
Definition f_void : method_info :=
  MethodInfo "f" None [ParamInfo "x" (Some "int")] None (Some "") (Some "").
Definition Over_java :=
  parsed "Over.java" (Some "p") [] [ClassInfo "Over" None [] [f_int; f_void] []] [].

(** [Y.java] declares [com.x.Y]; [G.java] imports it and [java.util.List]. *)
Definition Y_java :=
  parsed "com/x/Y.java" (Some "com.x") [] [ClassInfo "Y" None [] [] []] [].
Definition G_java :=
  parsed "com/z/G.java" (Some "com.z") ["com.x.Y"; "java.util.List"]
         [ClassInfo "G" None [] [] []] [].

(** [H.java] imports a nested type of [com.x.Y], which no file declares. *)
Definition H_record : file_record :=
  FileRecord "H.java" None ["com.x.Y.Inner"] [] [] None.
Definition H_java : string * file_info := ("H.java", Parsed H_record).

(** [I.java] declares the interface [com.x.I]; [K.java] imports it. *)
Definition I_java :=
  parsed "com/x/I.java" (Some "com.x") [] [] [InterfaceInfo "I" [] []].
Definition K_record : file_record :=
  FileRecord "K.java" None ["com.x.I"] [] [] None.
Definition K_java : string * file_info := ("K.java", Parsed K_record).

(** A file whose only import names nothing of the project. *)
Definition L_java := parsed "L.java" None ["java.util.List"] [ClassInfo "L" None [] [] []] [].

(** A method declared without a return type, as javalang reports it. *)
Definition run_decl : JavaAstV2.MethodDeclaration :=
  {| JavaAstV2.md_name := "run";
     JavaAstV2.md_return_type := None;
     JavaAstV2.md_parameters := [];
     JavaAstV2.md_documentation := None;
     JavaAstV2.md_position := Some 3 |}.

Definition no_body (_ : string) (_ : JavaAstV2.MethodDeclaration) : option string := None.
Definition no_description (_ : string) (_ _ : option string) : string :=
  "no description".

(** A store holding class [p.A] and two nodes named [Base]: an interface
    and the project itself. *)
Definition base_store : store :=
  Store [Node 0 "Project" [("name", "Base"); ("path", "/src/Base")];
         Node 1 "Class" [("name", "A"); ("fullName", "p.A"); ("extends", "Base")];
         Node 2 "Interface" [("name", "Base"); ("fullName", "q.Base")]]
        [] 3.

(** A stand-in for [re.findall] that reports the same captures for every
    pattern, and a class [Job] whose method [go] has a body. *)
Definition sample_findall (_ _ : string) : list string :=
  ["Job"; "String"; "Worker"; "Job"; "int"; "Worker"].

Definition job_class : Analyzer.ts_node :=
  Analyzer.TsNode "class_declaration" "class Job { void go() { new Worker(); } }"
    [Analyzer.TsNode "identifier" "Job" [];
     Analyzer.TsNode "class_body" "{ void go() { new Worker(); } }"
       [Analyzer.TsNode "method_declaration" "void go() { new Worker(); }"
          [Analyzer.TsNode "void_type" "void" [];
           Analyzer.TsNode "identifier" "go" [];
           Analyzer.TsNode "formal_parameters" "()" [];
           Analyzer.TsNode "block" "{ new Worker(); }" []]]].

Definition job_tree : Analyzer.ts_node :=
  Analyzer.TsNode "program" "class Job { void go() { new Worker(); } }" [job_class].

(** A method declaration whose single parameter has a type node of another
    kind than the three [extract_method_parameters] looks for. *)
Definition items_parameter : Analyzer.ts_node :=
  Analyzer.TsNode "formal_parameter" "List<String> items"
    [Analyzer.TsNode "generic_type" "List<String>" [];
     Analyzer.TsNode "identifier" "items" []].

Definition items_parameters : Analyzer.ts_node :=
  Analyzer.TsNode "formal_parameters" "(List<String> items)"
    [Analyzer.TsNode "(" "(" []; items_parameter; Analyzer.TsNode ")" ")" []].

Definition add_all_method : Analyzer.ts_node :=
  Analyzer.TsNode "method_declaration" "void addAll(List<String> items) { }"
    [Analyzer.TsNode "void_type" "void" [];
     Analyzer.TsNode "identifier" "addAll" [];
     items_parameters;
     Analyzer.TsNode "block" "{ }" []].

(** [Sub.java] declares class [p.Sub] extending [Base]; [Base.java] declares
    class [p.Base]. *)
Definition Sub_java :=
  parsed "Sub.java" (Some "p") [] [ClassInfo "Sub" (Some "Base") [] [] []] [].
Definition Base_java :=
  parsed "Base.java" (Some "p") [] [ClassInfo "Base" None [] [] []] [].

End Samples.

(* ===================================================================== *)
(** * Properties *)
(* ===================================================================== *)

(** Case analysis on membership in a list of statements built with [++],
    [flat_map] and conditionals. *)
Ltac split_in :=
  repeat match goal with
  | H : In _ (_ ++ _) |- _ => apply in_app_or in H; destruct H as [H|H]
  | H : In _ (flat_map _ _) |- _ =>
      apply in_flat_map in H; destruct H as (? & ? & H)
  | H : In _ (if ?b then _ else _) |- _ => destruct b
  | H : In _ (_ :: _) |- _ => destruct H as [<-|H]
  | H : In _ [] |- _ => destruct H
  end.

(** ** The store: renaming of identities *)

Section StoreFacts.
Import Cypher.

Lemma run_app qs1 qs2 g : run (qs1 ++ qs2) g = run qs2 (run qs1 g).
Proof. unfold run. apply fold_left_app. Qed.

Lemma filter_map_comm {A B} (f : A -> B) (P : B -> bool) (l : list A) :
  List.filter P (map f l) = map f (List.filter (fun x => P (f x)) l).
Proof.
  induction l as [|x l IH]; simpl; [reflexivity|].
  destruct (P (f x)); simpl; now rewrite IH.
Qed.

Lemma matches_rename f p n : matches p (rename_node f n) = matches p n.
Proof. reflexivity. Qed.

Lemma match_nodes_shift k p g :
  match_nodes p (shift k g) = map (fun i => k + i) (match_nodes p g).
Proof.
  unfold match_nodes, shift; simpl.
  rewrite filter_map_comm, !map_map. reflexivity.
Qed.

Lemma rename_rel_inj k r1 r2 :
  rename_rel (fun i => k + i) r1 = rename_rel (fun i => k + i) r2 -> r1 = r2.
Proof.
  destruct r1, r2; unfold rename_rel; simpl.
  intros [= H1 H2 H3]. f_equal; [lia | assumption | lia].
Qed.

Lemma add_rel_shift k rs r :
  add_rel (map (rename_rel (fun i => k + i)) rs) (rename_rel (fun i => k + i) r)
  = map (rename_rel (fun i => k + i)) (add_rel rs r).
Proof.
  unfold add_rel.
  destruct (decide (r ∈ rs)) as [Hin|Hnin].
  - rewrite decide_True; [reflexivity|].
    apply list_elem_of_In, in_map, list_elem_of_In, Hin.
  - rewrite decide_False.
    + now rewrite map_app.
    + intros Hin. apply list_elem_of_In, in_map_iff in Hin.
      destruct Hin as (r' & Heq & Hin). apply rename_rel_inj in Heq. subst r'.
      apply Hnin, list_elem_of_In, Hin.
Qed.

Lemma fold_add_rel_shift k new rs :
  fold_left add_rel (map (rename_rel (fun i => k + i)) new)
            (map (rename_rel (fun i => k + i)) rs)
  = map (rename_rel (fun i => k + i)) (fold_left add_rel new rs).
Proof.
  revert rs. induction new as [|r new IH]; intros rs; simpl; [reflexivity|].
  rewrite add_rel_shift. apply IH.
Qed.

Lemma rows_shift k xs ys t :
  rows (map (fun i => k + i) xs) (map (fun i => k + i) ys) t
  = map (rename_rel (fun i => k + i)) (rows xs ys t).
Proof.
  unfold rows. induction xs as [|x xs IH]; simpl; [reflexivity|].
  rewrite IH, map_app, !map_map. reflexivity.
Qed.

Lemma merge_rels_shift k xs ys t g :
  merge_rels (map (fun i => k + i) xs) (map (fun i => k + i) ys) t (shift k g)
  = shift k (merge_rels xs ys t g).
Proof.
  unfold merge_rels, shift; simpl.
  now rewrite rows_shift, fold_add_rel_shift.
Qed.

Lemma create_node_shift k l ps g :
  create_node l ps (shift k g) = shift k (create_node l ps g).
Proof.
  unfold create_node, shift; simpl. rewrite map_app. simpl.
  f_equal. lia.
Qed.

Lemma merge_node_shift k l ps g :
  merge_node l ps (shift k g) = shift k (merge_node l ps g).
Proof.
  unfold merge_node. rewrite match_nodes_shift.
  destruct (match_nodes (Pat (Some l) ps) g); simpl;
    [apply create_node_shift | reflexivity].
Qed.

Lemma exec_shift k g q : exec (shift k g) q = shift k (exec g q).
Proof.
  destruct q as [|l ps|l ps|a t b|a l ps t]; simpl.
  - unfold shift; simpl. reflexivity.
  - apply create_node_shift.
  - apply merge_node_shift.
  - rewrite !match_nodes_shift. apply merge_rels_shift.
  - rewrite match_nodes_shift.
    destruct (match_nodes a g) as [|x xs] eqn:Hm; simpl; [reflexivity|].
    rewrite merge_node_shift, match_nodes_shift.
    change (k + x :: map (fun i => k + i) xs) with (map (fun i => k + i) (x :: xs)).
    apply merge_rels_shift.
Qed.

Lemma run_shift k qs g : run qs (shift k g) = shift k (run qs g).
Proof.
  revert g. induction qs as [|q qs IH]; intros g; simpl; [reflexivity|].
  unfold run in *. simpl. rewrite exec_shift. apply IH.
Qed.

Lemma run_after_reset qs g :
  run (DetachDeleteAll :: qs) g = shift (next_id g) (run (DetachDeleteAll :: qs) empty).
Proof.
  unfold run; simpl. fold (run qs (Store [] [] (next_id g))).
  fold (run qs (Store [] [] 0)). rewrite <- run_shift.
  unfold shift; simpl. now rewrite Nat.add_0_r.
Qed.

Lemma shift_isomorphic a b g : isomorphic (shift a g) (shift b g).
Proof.
  exists (fun i => i - a + b). split; [|split].
  - unfold shift; simpl. intros x y Hx Hy Heq.
    rewrite map_map in Hx, Hy. apply in_map_iff in Hx, Hy.
    destruct Hx as (nx & <- & _), Hy as (ny & <- & _). simpl in *. lia.
  - unfold shift; simpl. rewrite map_map. apply map_ext.
    intros n. unfold rename_node; simpl. f_equal. lia.
  - unfold shift; simpl. rewrite map_map. apply map_ext.
    intros r. unfold rename_rel; simpl. f_equal; lia.
Qed.
End StoreFacts.

(** ** Reload *)

(** C8. Idempotence of load: whatever the store holds, a load leaves a graph
    that depends on the model only; loading the same model again into the
    store the first load left gives an isomorphic graph, with the same nodes
    and edges up to the identities the store hands out. *)
Theorem load_twice_isomorphic (project_data : Model.project_structure)
  (g1 g2 : Cypher.store) :
  Cypher.isomorphic (GraphUpsertV2.loaded project_data g1)
                    (GraphUpsertV2.loaded project_data g2)
  /\ Cypher.isomorphic
       (GraphUpsertV2.loaded project_data g1)
       (GraphUpsertV2.loaded project_data (GraphUpsertV2.loaded project_data g1)).
Proof.
  assert (Hany : forall ga gb,
             Cypher.isomorphic (GraphUpsertV2.loaded project_data ga)
                               (GraphUpsertV2.loaded project_data gb)).
  { intros ga gb. unfold GraphUpsertV2.loaded, GraphUpsertV2.load_project.
    unfold GraphUpsertV2._clear_database. simpl app.
    rewrite (run_after_reset _ ga), (run_after_reset _ gb).
    apply shift_isomorphic. }
  split; apply Hany.
Qed.

(** ** The store: merging relationships *)

Section MergeFacts.
Import Cypher.

Lemma add_rel_keeps rs r r0 : In r0 rs -> In r0 (add_rel rs r).
Proof.
  unfold add_rel. destruct (decide (r ∈ rs)); [tauto|].
  intros H. apply in_or_app. now left.
Qed.

Lemma add_rel_adds rs r : In r (add_rel rs r).
Proof.
  unfold add_rel. destruct (decide (r ∈ rs)) as [H|H].
  - now apply list_elem_of_In.
  - apply in_or_app. right. now left.
Qed.

Lemma add_rel_present rs r : In r rs -> add_rel rs r = rs.
Proof.
  intros H. unfold add_rel. rewrite decide_True; [reflexivity|].
  now apply list_elem_of_In.
Qed.

Lemma fold_add_rel_keeps new rs r0 :
  In r0 rs -> In r0 (fold_left add_rel new rs).
Proof.
  revert rs. induction new as [|r new IH]; intros rs H; simpl; [assumption|].
  apply IH, add_rel_keeps, H.
Qed.

Lemma fold_add_rel_adds new rs r0 :
  In r0 new -> In r0 (fold_left add_rel new rs).
Proof.
  revert rs. induction new as [|r new IH]; intros rs H; simpl; [destruct H|].
  destruct H as [->|H].
  - apply fold_add_rel_keeps, add_rel_adds.
  - now apply IH.
Qed.

Lemma fold_add_rel_present new rs :
  (forall r, In r new -> In r rs) -> fold_left add_rel new rs = rs.
Proof.
  induction new as [|r new IH]; intros H; simpl; [reflexivity|].
  rewrite add_rel_present by (apply H; now left).
  apply IH. intros r' Hr'. apply H. now right.
Qed.

Lemma in_rows xs ys t x y : In x xs -> In y ys -> In (Rel x t y) (rows xs ys t).
Proof.
  intros Hx Hy. unfold rows. apply in_flat_map. exists x. split; [assumption|].
  now apply in_map.
Qed.

Lemma rows_nil_r xs t : rows xs [] t = [].
Proof. unfold rows. induction xs; simpl; auto. Qed.

Lemma merge_rels_nodes xs ys t g : nodes (merge_rels xs ys t g) = nodes g.
Proof. reflexivity. Qed.

Lemma merge_rels_links xs ys t g x y :
  In x xs -> In y ys -> In (Rel x t y) (rels (merge_rels xs ys t g)).
Proof. intros Hx Hy. simpl. apply fold_add_rel_adds, in_rows; assumption. Qed.

Lemma merge_rels_no_target xs t g : merge_rels xs [] t g = g.
Proof. unfold merge_rels. rewrite rows_nil_r. now destruct g. Qed.

Lemma merge_rels_no_source ys t g : merge_rels [] ys t g = g.
Proof. unfold merge_rels. now destruct g. Qed.

(** Merging the same rows a second time changes nothing. *)
Lemma merge_rels_again xs ys t g :
  merge_rels xs ys t (merge_rels xs ys t g) = merge_rels xs ys t g.
Proof.
  unfold merge_rels at 1. simpl.
  rewrite fold_add_rel_present; [reflexivity|].
  intros r Hr. now apply fold_add_rel_adds.
Qed.
End MergeFacts.

(** ** EXTENDS by name *)

(** What the EXTENDS statement does: the loader sends it for every class
    with a raw extends target and for every extends target of an interface;
    the statement creates no node, links every node carrying the child's
    fullName to every node whose name is the target, whatever its label, and
    leaves the store as it was when no node has that name. *)
Lemma extends_links_by_name (g : Cypher.store) (child parent : string) :
  let g' := Cypher.run (GraphUpsertV2._create_extends_relationship child parent) g in
  (forall pkg file_path c,
      PyStr.truthy (Model.class_extends c) = true ->
      incl (GraphUpsertV2._create_extends_relationship
              (Model.full_name pkg (Model.class_name c))
              (default "" (Model.class_extends c)))
           (GraphUpsertV2.load_class pkg file_path c))
  /\ (forall pkg file_path i e,
         In e (Model.interface_extends i) ->
         incl (GraphUpsertV2._create_extends_relationship
                 (Model.full_name pkg (Model.interface_name i)) e)
              (GraphUpsertV2.load_interface pkg file_path i))
  /\ Cypher.nodes g' = Cypher.nodes g
  /\ Forall (fun x =>
       Forall (fun y => In (Cypher.Rel x "EXTENDS" y) (Cypher.rels g'))
              (Cypher.match_nodes (Cypher.Pat None [("name", parent)]) g))
       (Cypher.match_nodes (Cypher.Pat None [("fullName", child)]) g)
  /\ (Cypher.match_nodes (Cypher.Pat None [("name", parent)]) g = [] -> g' = g).
Proof.
  cbv zeta. split; [|split; [|split; [|split]]].
  - intros pkg file_path c He q Hq. unfold GraphUpsertV2.load_class.
    cbv zeta. rewrite He.
    apply in_or_app; right. apply in_or_app; right. apply in_or_app; right.
    apply in_or_app; left. exact Hq.
  - intros pkg file_path i e He q Hq. unfold GraphUpsertV2.load_interface.
    cbv zeta. apply in_or_app; right. apply in_or_app; right.
    apply in_flat_map. exists e. split; assumption.
  - reflexivity.
  - apply List.Forall_forall. intros x Hx. apply List.Forall_forall. intros y Hy.
    unfold GraphUpsertV2._create_extends_relationship, Cypher.run. simpl fold_left.
    apply merge_rels_links; assumption.
  - intros Hnone. unfold GraphUpsertV2._create_extends_relationship, Cypher.run.
    simpl fold_left. unfold GraphUpsertV2.by_full_name.
    rewrite Hnone. apply merge_rels_no_target.
Qed.

Lemma extends_links_by_name_witness :
  Cypher.rels (Cypher.run (GraphUpsertV2._create_extends_relationship "p.A" "Base")
                          Samples.base_store)
  = [Cypher.Rel 1 "EXTENDS" 0; Cypher.Rel 1 "EXTENDS" 2]
  /\ Cypher.run (GraphUpsertV2._create_extends_relationship "p.A" "Missing")
                Samples.base_store
     = Samples.base_store.
Proof.
  split.
  - reflexivity.
  - apply (extends_links_by_name Samples.base_store "p.A" "Missing"). reflexivity.
Defined.

(** ** Lexical object references *)

Section ReferenceFacts.
Import Analyzer.
Variable findall : string -> string -> list string.

Lemma primitives_spec (x : string) :
  x ∈ primitives <->
  In x ["int"; "long"; "double"; "float"; "boolean"; "char"; "byte"; "short";
        "void"; "String"].
Proof.
  unfold primitives. rewrite !elem_of_union, !elem_of_singleton. simpl.
  intuition congruence.
Qed.

Lemma find_object_references_NoDup body :
  List.NoDup (find_object_references findall body).
Proof.
  unfold find_object_references.
  destruct (negb (PyStr.truthy body)); [constructor|].
  apply List.NoDup_filter, NoDup_ListNoDup, NoDup_elements.
Qed.

Lemma find_object_references_no_primitive body :
  Forall (fun obj => obj ∉ primitives) (find_object_references findall body).
Proof.
  unfold find_object_references.
  destruct (negb (PyStr.truthy body)); [constructor|].
  apply List.Forall_forall. intros obj Hobj.
  apply filter_In in Hobj. destruct Hobj as [_ Hobj].
  now apply bool_decide_eq_true in Hobj.
Qed.

(** What the extractor keeps of the captures: exactly the captured names
    outside the exclusion set. *)
Lemma find_object_references_spec body obj :
  PyStr.truthy body = true ->
  (In obj (find_object_references findall body) <->
   (In obj (findall new_pattern (default "" body))
    \/ In obj (findall static_pattern (default "" body))
    \/ In obj (findall var_pattern (default "" body)))
   /\ obj ∉ primitives).
Proof.
  intros Hb. unfold find_object_references. rewrite Hb. simpl negb. cbv iota zeta.
  rewrite filter_In, bool_decide_eq_true, <- list_elem_of_In, elem_of_elements,
    elem_of_list_to_set, list_elem_of_In, !in_app_iff.
  tauto.
Qed.

Lemma class_object_references_not_self c :
  Forall (fun r => referenced_object r <> ref_class r) (class_object_references c).
Proof.
  unfold class_object_references.
  apply List.Forall_forall. intros r Hr.
  apply in_flat_map in Hr. destruct Hr as (m & _ & Hr).
  apply in_flat_map in Hr. destruct Hr as (ref_obj & _ & Hr).
  destruct (String.eqb ref_obj (class_name c)) eqn:He; simpl in Hr; [destruct Hr|].
  destruct Hr as [<-|[]]. simpl. now apply String.eqb_neq.
Qed.
End ReferenceFacts.

(** C10. For every method body the lexical extractor returns a
    duplicate-free list that holds no name of the exclusion set (int, long,
    double, float, boolean, char, byte, short, void, String), whatever the
    regular-expression matches are; and no object reference recorded for a
    class names the class itself, neither as [extract_ast_info] records it
    nor as [analyze_object_references] rewrites it. *)
Theorem object_references_sound (findall : string -> string -> list string)
  (method_body : option string) (root_node : Analyzer.ts_node) :
  List.NoDup (Analyzer.find_object_references findall method_body)
  /\ Forall (fun obj => (obj ∉ Analyzer.primitives)
                        /\ ~ In obj ["int"; "long"; "double"; "float"; "boolean";
                                     "char"; "byte"; "short"; "void"; "String"])
            (Analyzer.find_object_references findall method_body)
  /\ Forall (fun r => Analyzer.referenced_object r <> Analyzer.ref_class r)
            (Analyzer.extract_object_references findall root_node)
  /\ (forall class_map : gmap string string,
         Forall (fun r => Analyzer.to_class r <> Analyzer.from_class r)
                (Analyzer.resolve_object_references class_map
                   (Analyzer.extract_object_references findall root_node))).
Proof.
  assert (Hrefs : Forall (fun r => Analyzer.referenced_object r <> Analyzer.ref_class r)
                         (Analyzer.extract_object_references findall root_node)).
  { unfold Analyzer.extract_object_references.
    apply List.Forall_forall. intros r Hr.
    apply in_flat_map in Hr. destruct Hr as (c & _ & Hr).
    pose proof (class_object_references_not_self c) as Hc.
    rewrite List.Forall_forall in Hc. now apply Hc. }
  split; [apply find_object_references_NoDup|split; [|split; [exact Hrefs|]]].
  - eapply List.Forall_impl; [|apply find_object_references_no_primitive].
    intros obj Hobj. split; [exact Hobj|]. now rewrite <- primitives_spec.
  - intros class_map. unfold Analyzer.resolve_object_references.
    apply List.Forall_forall. intros r Hr.
    apply in_flat_map in Hr. destruct Hr as (ref & Href & Hr).
    rewrite List.Forall_forall in Hrefs. specialize (Hrefs ref Href).
    destruct (class_map !! Analyzer.referenced_object ref); [|destruct Hr].
    destruct Hr as [<-|[]]. exact Hrefs.
Qed.

Example object_references_sample :
  Analyzer.extract_object_references Samples.sample_findall Samples.job_tree
  = [Analyzer.ObjectReference "Job" "go" "Worker"].
Proof. vm_compute. reflexivity. Qed.

(** ** The project index and the resolver *)

Section ResolverFacts.
Import Model JavaAstV2.

Lemma register_lookup file_path names (m : gmap string string) k :
  register file_path m names !! k
  = if in_dec string_dec k names then Some file_path else m !! k.
Proof.
  revert m. induction names as [|k0 names IH]; intros m; [reflexivity|].
  change (register file_path m (k0 :: names))
    with (register file_path (<[k0 := file_path]> m) names).
  rewrite IH.
  destruct (in_dec string_dec k names) as [Hr|Hr];
    destruct (in_dec string_dec k (k0 :: names)) as [Hc|Hc]; try reflexivity.
  - exfalso. apply Hc. now right.
  - destruct Hc as [->|Hc]; [apply lookup_insert_eq|contradiction].
  - apply lookup_insert_ne. intros ->. apply Hc. now left.
Qed.

Lemma register_lookup_in file_path names (m : gmap string string) k :
  In k names -> register file_path m names !! k = Some file_path.
Proof.
  intros Hin. rewrite register_lookup.
  destruct (in_dec string_dec k names); [reflexivity|contradiction].
Qed.

Lemma register_lookup_out file_path names (m : gmap string string) k :
  ~ In k names -> register file_path m names !! k = m !! k.
Proof.
  intros Hout. rewrite register_lookup.
  destruct (in_dec string_dec k names); [contradiction|reflexivity].
Qed.

Lemma build_class_map_fold fs :
  build_class_map fs = fold_left index_step fs ∅.
Proof. reflexivity. Qed.

Lemma index_untouched post (m : gmap string string) k :
  (forall p fi, In (p, fi) post -> ~ In k (registered_names fi)) ->
  fold_left index_step post m !! k = m !! k.
Proof.
  revert m. induction post as [|[p fi] post IH]; intros m Hpost; [reflexivity|].
  simpl. rewrite IH by (intros p' fi' Hin; apply (Hpost p' fi'); now right).
  unfold index_step. simpl. destruct (has_error fi); [reflexivity|].
  apply register_lookup_out, (Hpost p fi). now left.
Qed.

Lemma declared_type_registered fi t :
  In t (declared_types fi) ->
  In (full_name (get_package fi) t) (registered_names fi).
Proof.
  unfold declared_types, registered_names. rewrite !in_app_iff, !in_map_iff.
  intros [(c & <- & Hc)|(i & <- & Hi)]; [left|right];
    apply in_flat_map; eexists; (split; [eassumption|now left]).
Qed.

(** The index sends a registered name to the last file that registers it. *)
Lemma build_class_map_last pre p r post k :
  In k (registered_names (Parsed r)) ->
  (forall p' fi, In (p', fi) post -> ~ In k (registered_names fi)) ->
  build_class_map (pre ++ (p, Parsed r) :: post) !! k = Some p.
Proof.
  intros Hk Hpost. rewrite build_class_map_fold, fold_left_app. simpl.
  rewrite index_untouched by assumption.
  now apply register_lookup_in.
Qed.

Lemma analyze_relationships_parsed fs p r :
  In (p, Parsed r) fs ->
  In (p, Parsed (set_dependencies r
                   (file_dependencies (build_class_map fs) (Parsed r))))
     (analyze_relationships fs).
Proof.
  intros Hin. unfold analyze_relationships. cbv zeta.
  apply in_map_iff. exists (p, Parsed r). split; [reflexivity|assumption].
Qed.

Lemma import_dependency_iff cm fi d :
  In d (file_dependencies cm fi) -> dep_type d = "import" ->
  exists imp, In imp (get_imports fi) /\ d = Dependency "import" imp (cm !! imp)
              /\ (is_internal cm imp = true \/ is_Some (cm !! imp)).
Proof.
  unfold file_dependencies. rewrite in_app_iff, !in_flat_map.
  intros [(imp & Himp & Hd)|(c & _ & Hd)] Hty.
  - exists imp. unfold import_dependencies in Hd.
    destruct (is_internal cm imp) eqn:Hi; simpl in Hd.
    + destruct Hd as [<-|[]]. auto.
    + destruct (bool_decide (is_Some (cm !! imp))) eqn:Hs; simpl in Hd; [|destruct Hd].
      destruct Hd as [<-|[]]. apply bool_decide_eq_true in Hs. auto.
  - exfalso. unfold class_dependencies in Hd. rewrite in_app_iff, in_map_iff in Hd.
    destruct Hd as [Hd|(i & <- & _)]; [|discriminate Hty].
    destruct (PyStr.truthy (class_extends c)); simpl in Hd; [|destruct Hd].
    destruct Hd as [<-|[]]. discriminate Hty.
Qed.

Lemma import_dependency_in cm fi imp :
  In imp (get_imports fi) ->
  is_internal cm imp = true \/ is_Some (cm !! imp) ->
  In (Dependency "import" imp (cm !! imp)) (file_dependencies cm fi).
Proof.
  intros Himp Hok. unfold file_dependencies. apply in_or_app. left.
  apply in_flat_map. exists imp. split; [assumption|].
  unfold import_dependencies.
  destruct Hok as [->|Hs]; [now left|].
  rewrite (bool_decide_eq_true_2 _ Hs), orb_true_r. now left.
Qed.
End ResolverFacts.

(** C7, as stated, fails on the heuristic resolver: [L.java] imports
    [java.util.List], which resolves to nothing, and its dependency list
    comes out empty: the import has no record at all. *)
Lemma unresolved_import_omitted :
  JavaAstV2.analyze_relationships [Samples.L_java]
  = [("L.java",
      Model.Parsed (Model.FileRecord "L.java" None ["java.util.List"]
                      [Model.ClassInfo "L" None [] [] []] [] (Some [])))].
Proof. vm_compute. reflexivity. Qed.

(** C7, amended. Resolution is a total function of the files, and each
    resolver stores for a parsed entry the dependency list computed from its
    index.  In the heuristic resolver ([java_ast_v2.py],
    [java_ast_analyzer.py]) an import that resolves to no indexed name has a
    record of type "import" with the raw target and no file exactly when it
    passes the internal-import test (it ends with an indexed name, or an
    indexed name is one of its dot-separated segments), and no import record
    for it carries a file.  In the first resolver ([java_ast.py]) every
    import of the entry has its record in the stored list, whatever either
    index holds for it; the record carries what the index of that resolver
    holds for the import, hence no file when the import is not indexed, and
    it is the only import record for that target. *)
Theorem unresolved_import_record (fs : Model.files_map) (p : string)
  (r : Model.file_record) (imp : string) :
  In (p, Model.Parsed r) fs ->
  In imp (Model.imports r) ->
  let deps := JavaAstV2.file_dependencies (JavaAstV2.build_class_map fs)
                                          (Model.Parsed r) in
  let deps1 := JavaAst.file_dependencies (JavaAst.build_class_map fs)
                                         (Model.Parsed r) in
  In (p, Model.Parsed (Model.set_dependencies r deps))
     (JavaAstV2.analyze_relationships fs)
  /\ (JavaAstV2.build_class_map fs !! imp = None ->
      (In (Model.Dependency "import" imp None) deps
       <-> JavaAstV2.is_internal (JavaAstV2.build_class_map fs) imp = true)
      /\ (forall d, In d deps -> Model.dep_type d = "import" ->
                    Model.dep_target d = imp -> Model.dep_file d = None))
  /\ In (p, Model.Parsed (Model.set_dependencies r deps1))
        (JavaAst.analyze_relationships fs)
  /\ In (Model.Dependency "import" imp (JavaAst.build_class_map fs !! imp)) deps1
  /\ (JavaAst.build_class_map fs !! imp = None ->
      In (Model.Dependency "import" imp None) deps1)
  /\ (forall d, In d deps1 -> Model.dep_type d = "import" ->
                Model.dep_target d = imp ->
                d = Model.Dependency "import" imp
                      (JavaAst.build_class_map fs !! imp)).
Proof.
  intros Hin Himp deps deps1.
  assert (Hrec : In (Model.Dependency "import" imp
                       (JavaAst.build_class_map fs !! imp)) deps1).
  { unfold deps1, JavaAst.file_dependencies. apply in_or_app. left.
    apply in_flat_map. exists imp. split; [assumption|now left]. }
  split; [|split; [|split; [|split; [|split]]]].
  - now apply analyze_relationships_parsed.
  - intros Hnone. split; [split|].
    + intros Hd. apply import_dependency_iff in Hd; [|reflexivity].
      destruct Hd as (imp' & _ & [= <-] & [Hi|Hs]); [assumption|].
      rewrite Hnone in Hs. now destruct Hs.
    + intros Hi. rewrite <- Hnone. apply import_dependency_in; auto.
    + intros d Hd Hty Htg. apply import_dependency_iff in Hd; [|assumption].
      destruct Hd as (imp' & _ & -> & _). simpl in Htg. subst imp'. exact Hnone.
  - unfold JavaAst.analyze_relationships. cbv zeta.
    apply in_map_iff. exists (p, Model.Parsed r). split; [reflexivity|assumption].
  - exact Hrec.
  - intros Hnone. rewrite <- Hnone. exact Hrec.
  - intros d Hd Hty Htg. unfold deps1, JavaAst.file_dependencies in Hd.
    apply in_app_or in Hd. destruct Hd as [Hd|Hd].
    + apply in_flat_map in Hd. destruct Hd as (imp' & _ & [<-|[]]).
      simpl in Htg. now subst imp'.
    + exfalso. apply in_flat_map in Hd. destruct Hd as (c & _ & Hd).
      unfold JavaAstV2.class_dependencies in Hd.
      rewrite in_app_iff, in_map_iff in Hd.
      destruct Hd as [Hd|(i & <- & _)]; [|discriminate Hty].
      destruct (PyStr.truthy (Model.class_extends c)); simpl in Hd; [|destruct Hd].
      destruct Hd as [<-|[]]. discriminate Hty.
Qed.

Lemma unresolved_import_record_witness :
  In (Model.Dependency "import" "com.x.Y.Inner" None)
     (JavaAstV2.file_dependencies
        (JavaAstV2.build_class_map [Samples.Y_java; Samples.H_java])
        (Model.Parsed Samples.H_record))
  /\ In ("H.java",
         Model.Parsed
           (Model.set_dependencies Samples.H_record
              (JavaAst.file_dependencies
                 (JavaAst.build_class_map [Samples.Y_java; Samples.H_java])
                 (Model.Parsed Samples.H_record))))
        (JavaAst.analyze_relationships [Samples.Y_java; Samples.H_java])
  /\ In (Model.Dependency "import" "com.x.Y.Inner" None)
        (JavaAst.file_dependencies
           (JavaAst.build_class_map [Samples.Y_java; Samples.H_java])
           (Model.Parsed Samples.H_record)).
Proof.
  assert (H1 : In ("H.java", Model.Parsed Samples.H_record)
                  [Samples.Y_java; Samples.H_java]) by (right; now left).
  assert (H2 : In "com.x.Y.Inner" (Model.imports Samples.H_record)) by now left.
  destruct (unresolved_import_record _ _ _ _ H1 H2)
    as (_ & Hv2 & Hentry & _ & Hv1 & _).
  split; [|split].
  - apply Hv2; vm_compute; reflexivity.
  - exact Hentry.
  - apply Hv1. vm_compute. reflexivity.
Defined.

(** ** The return-type sentinel *)

(** C4, as stated, fails on the extractor: for a method declared without a
    return type the extracted record holds no return type at all, not the
    sentinel. *)
Lemma extracted_return_type_is_null :
  Model.return_type
    (JavaAstV2.extract_method Samples.no_body Samples.no_description
                              (Some "class T { void run() {} }") Samples.run_decl)
  = None.
Proof. reflexivity. Qed.

Lemma returnType_never_empty (parent_name : string) (mi : Model.method_info) :
  GraphUpsertV2.mp_returnType (GraphUpsertV2.build_method_properties parent_name mi)
  <> "".
Proof.
  unfold GraphUpsertV2.build_method_properties. simpl.
  destruct (Model.return_type mi) as [s|]; simpl; [|discriminate].
  destruct (String.eqb s "") eqn:He; simpl; [discriminate|].
  now apply String.eqb_neq.
Qed.

(** C4, amended. For a method declared without a return type the extractor
    records a null return type; the sentinel is put in by the loaders: the
    Method node they merge for that record carries returnType "void". *)
Theorem return_type_sentinel
  (extract_method_body : string -> JavaAstV2.MethodDeclaration -> option string)
  (generate_method_description : string -> option string -> option string -> string)
  (source_code : option string) (m : JavaAstV2.MethodDeclaration)
  (parent_name : string) :
  JavaAstV2.md_return_type m = None ->
  let mi := JavaAstV2.extract_method extract_method_body generate_method_description
                                     source_code m in
  let properties := GraphUpsertV2.build_method_properties parent_name mi in
  Model.return_type mi = None
  /\ GraphUpsertV2.mp_returnType properties = "void"
  /\ In (Cypher.Merge "Method" (GraphUpsertV2.method_node_props properties))
        (GraphUpsertV2.load_methods parent_name [mi])
  /\ Cypher.prop_get "returnType" (GraphUpsertV2.method_node_props properties)
     = Some "void"
  /\ In (Cypher.Merge "Method"
           [("name", Model.method_name mi);
            ("id", parent_name +:+ "." +:+ Model.method_name mi);
            ("returnType", "void")])
        (Graph._create_method (Model.method_name mi) (Model.return_type mi)
                              parent_name).
Proof.
  intros Hnone mi properties.
  assert (Hmi : Model.return_type mi = None) by exact Hnone.
  assert (Hp : GraphUpsertV2.mp_returnType properties = "void").
  { unfold properties, GraphUpsertV2.build_method_properties. simpl.
    now rewrite Hnone. }
  split; [exact Hmi|]. split; [exact Hp|]. split; [|split].
  - simpl. now left.
  - unfold properties, mi, GraphUpsertV2.build_method_properties,
      GraphUpsertV2.method_node_props, Cypher.prop_get. simpl.
    now rewrite Hnone.
  - unfold Graph._create_method. rewrite Hmi. simpl. now left.
Qed.

Lemma return_type_sentinel_witness :
  Cypher.prop_get "returnType"
    (GraphUpsertV2.method_node_props
       (GraphUpsertV2.build_method_properties "p.T"
          (JavaAstV2.extract_method Samples.no_body Samples.no_description
                                    (Some "class T { void run() {} }")
                                    Samples.run_decl)))
  = Some "void".
Proof.
  apply (return_type_sentinel Samples.no_body Samples.no_description
                              (Some "class T { void run() {} }") Samples.run_decl
                              "p.T").
  reflexivity.
Defined.

(** ** Members sharing a name *)

Section MemberFacts.
Import Cypher.

Lemma prop_get_in (ps : props) k v :
  List.NoDup (map fst ps) -> In (k, v) ps -> prop_get k ps = Some v.
Proof.
  unfold prop_get. induction ps as [|[k0 v0] ps IH]; intros Hnd Hin; [destruct Hin|].
  simpl in *. inversion Hnd as [|? ? Hk0 Hnd']; subst.
  destruct Hin as [[= -> ->]|Hin].
  - now rewrite String.eqb_refl.
  - destruct (String.eqb k0 k) eqn:He; [|now apply IH].
    apply String.eqb_eq in He. subst k0. exfalso. apply Hk0.
    apply in_map_iff. now exists (k, v).
Qed.

Lemma matches_own_pattern i l (ps : props) :
  List.NoDup (map fst ps) -> matches (Pat (Some l) ps) (Node i l ps) = true.
Proof.
  intros Hnd. unfold matches. simpl. rewrite String.eqb_refl. simpl.
  apply forallb_forall. intros [k v] Hin. apply bool_decide_eq_true. simpl.
  now apply prop_get_in.
Qed.

Lemma match_nodes_length p g : length (match_nodes p g) = length (nodes_with p g).
Proof. unfold match_nodes, nodes_with. apply length_map. Qed.

(** After a MERGE the pattern has a match: the nodes it had, or the one
    node just created. *)
Lemma merge_node_count l ps g :
  List.NoDup (map fst ps) ->
  length (nodes_with (Pat (Some l) ps) (merge_node l ps g))
  = Nat.max 1 (length (nodes_with (Pat (Some l) ps) g)).
Proof.
  intros Hnd. unfold merge_node.
  destruct (match_nodes (Pat (Some l) ps) g) as [|x xs] eqn:Hm.
  - assert (Hn : nodes_with (Pat (Some l) ps) g = []).
    { apply length_zero_iff_nil. rewrite <- match_nodes_length, Hm. reflexivity. }
    rewrite Hn. unfold nodes_with in *. simpl.
    rewrite List.filter_app, Hn. simpl.
    now rewrite matches_own_pattern.
  - rewrite <- match_nodes_length, Hm. simpl. lia.
Qed.

Lemma merge_node_again l ps g :
  List.NoDup (map fst ps) -> merge_node l ps (merge_node l ps g) = merge_node l ps g.
Proof.
  intros Hnd. unfold merge_node at 1.
  destruct (match_nodes (Pat (Some l) ps) (merge_node l ps g)) eqn:Hm; [|reflexivity].
  apply (f_equal (@length nat)) in Hm.
  rewrite match_nodes_length, merge_node_count in Hm by assumption.
  simpl in Hm. lia.
Qed.

(** A MERGE of a node followed by a MERGE of relationships, sent twice. *)
Lemma merge_and_link_twice l ps a t b g :
  List.NoDup (map fst ps) ->
  run ([Merge l ps; MatchMergeRel a t b] ++ [Merge l ps; MatchMergeRel a t b]) g
  = run [Merge l ps; MatchMergeRel a t b] g.
Proof.
  intros Hnd. unfold run. simpl.
  set (g1 := merge_node l ps g).
  set (g2 := merge_rels (match_nodes a g1) (match_nodes b g1) t g1).
  assert (Hsame : merge_node l ps g2 = g2).
  { unfold merge_node.
    change (match_nodes (Pat (Some l) ps) g2) with (match_nodes (Pat (Some l) ps) g1).
    destruct (match_nodes (Pat (Some l) ps) g1) eqn:Hm; [|reflexivity].
    apply (f_equal (@length nat)) in Hm. unfold g1 in Hm.
    rewrite match_nodes_length, merge_node_count in Hm by assumption.
    simpl in Hm. lia. }
  rewrite Hsame.
  change (match_nodes a g2) with (match_nodes a g1).
  change (match_nodes b g2) with (match_nodes b g1).
  apply merge_rels_again.
Qed.

Lemma merge_and_link_count l ps a t b g :
  List.NoDup (map fst ps) ->
  length (nodes_with (Pat (Some l) ps)
            (run ([Merge l ps; MatchMergeRel a t b]
                  ++ [Merge l ps; MatchMergeRel a t b]) g))
  = Nat.max 1 (length (nodes_with (Pat (Some l) ps) g)).
Proof.
  intros Hnd. rewrite merge_and_link_twice by assumption.
  unfold run. simpl.
  change (nodes_with (Pat (Some l) ps)
            (merge_rels (match_nodes a (merge_node l ps g))
                        (match_nodes b (merge_node l ps g)) t (merge_node l ps g)))
    with (nodes_with (Pat (Some l) ps) (merge_node l ps g)).
  now apply merge_node_count.
Qed.

Ltac distinct_keys :=
  simpl; repeat (constructor; [simpl; intuition discriminate|]); constructor.

Lemma method_keys_distinct m :
  List.NoDup (map fst (GraphUpsertV2.method_node_props m)).
Proof. distinct_keys. Qed.

Lemma field_keys_distinct (a b c d : string) :
  List.NoDup (map fst [("name", a); ("type", b); ("id", c); ("class_name", d)]).
Proof. distinct_keys. Qed.

Lemma parameter_keys_distinct (a b c d : string) :
  List.NoDup (map fst [("name", a); ("type", b); ("id", c); ("method_id", d)]).
Proof. distinct_keys. Qed.
End MemberFacts.

(** Two members of one owner that share the simple name and agree on every
    stored property collapse: sending the statements of the member a second
    time leaves the store as the first time left it, and of the nodes
    carrying these properties there is one, unless the store held more
    before. *)
Lemma member_collapse (g : Cypher.store)
  (m : GraphUpsertV2.method_properties)
  (f : GraphUpsertV2.field_properties) (class_full_name : string)
  (p : GraphUpsertV2.param_properties) (method_id : string) :
  (Cypher.run (GraphUpsertV2._create_method m ++ GraphUpsertV2._create_method m) g
   = Cypher.run (GraphUpsertV2._create_method m) g
   /\ length (Cypher.nodes_with
                (Cypher.Pat (Some "Method") (GraphUpsertV2.method_node_props m))
                (Cypher.run (GraphUpsertV2._create_method m
                             ++ GraphUpsertV2._create_method m) g))
      = Nat.max 1 (length (Cypher.nodes_with
                             (Cypher.Pat (Some "Method")
                                         (GraphUpsertV2.method_node_props m)) g)))
  /\ (Cypher.run (GraphUpsertV2._create_field f class_full_name
                  ++ GraphUpsertV2._create_field f class_full_name) g
      = Cypher.run (GraphUpsertV2._create_field f class_full_name) g
      /\ length (Cypher.nodes_with
                   (Cypher.Pat (Some "Field")
                      [("name", GraphUpsertV2.fp_name f);
                       ("type", GraphUpsertV2.fp_type f);
                       ("id", GraphUpsertV2.field_id class_full_name f);
                       ("class_name", class_full_name)])
                   (Cypher.run (GraphUpsertV2._create_field f class_full_name
                                ++ GraphUpsertV2._create_field f class_full_name) g))
         = Nat.max 1 (length (Cypher.nodes_with
                                (Cypher.Pat (Some "Field")
                                   [("name", GraphUpsertV2.fp_name f);
                                    ("type", GraphUpsertV2.fp_type f);
                                    ("id", GraphUpsertV2.field_id class_full_name f);
                                    ("class_name", class_full_name)]) g)))
  /\ (Cypher.run (GraphUpsertV2._create_parameter p method_id
                  ++ GraphUpsertV2._create_parameter p method_id) g
      = Cypher.run (GraphUpsertV2._create_parameter p method_id) g
      /\ length (Cypher.nodes_with
                   (Cypher.Pat (Some "Parameter")
                      [("name", GraphUpsertV2.pp_name p);
                       ("type", GraphUpsertV2.pp_type p);
                       ("id", GraphUpsertV2.param_id method_id p);
                       ("method_id", method_id)])
                   (Cypher.run (GraphUpsertV2._create_parameter p method_id
                                ++ GraphUpsertV2._create_parameter p method_id) g))
         = Nat.max 1 (length (Cypher.nodes_with
                                (Cypher.Pat (Some "Parameter")
                                   [("name", GraphUpsertV2.pp_name p);
                                    ("type", GraphUpsertV2.pp_type p);
                                    ("id", GraphUpsertV2.param_id method_id p);
                                    ("method_id", method_id)]) g))).
Proof.
  split; [|split]; split.
  - apply merge_and_link_twice, method_keys_distinct.
  - apply merge_and_link_count, method_keys_distinct.
  - apply merge_and_link_twice, field_keys_distinct.
  - apply merge_and_link_count, field_keys_distinct.
  - apply merge_and_link_twice, parameter_keys_distinct.
  - apply merge_and_link_count, parameter_keys_distinct.
Qed.

(** ** Loads that miss what the specification expects *)

(** C1. Package hierarchy: for the single observed package [a.b.c] the
    loader sends the two CONTAINS statements of the chain, but it has merged
    a Package node for [a.b.c] only; the statements match no parent, and the
    load ends without the nodes [a] and [a.b] and without any edge between
    packages. *)
Theorem package_ancestors_missing :
  GraphUpsertV2._create_package_hierarchy {[ "a.b.c" ]}
  = [Cypher.MatchMergeRel (GraphUpsertV2.by_name "Package" "a") "CONTAINS"
                          (GraphUpsertV2.by_name "Package" "a.b");
     Cypher.MatchMergeRel (GraphUpsertV2.by_name "Package" "a.b") "CONTAINS"
                          (GraphUpsertV2.by_name "Package" "a.b.c")]
  /\ GraphUpsertV2.loaded (Samples.project [Samples.C_java]) Cypher.empty
     = Cypher.Store
         [Cypher.Node 0 "Project" [("name", "demo"); ("path", "/src/demo")];
          Cypher.Node 1 "Package" [("name", "a.b.c")];
          Cypher.Node 2 "File" [("name", "C.java"); ("path", "a/b/c/C.java")];
          Cypher.Node 3 "Class" [("name", "C"); ("fullName", "a.b.c.C");
                                 ("extends", "")]]
         [Cypher.Rel 1 "CONTAINS" 2; Cypher.Rel 0 "CONTAINS" 2;
          Cypher.Rel 1 "CONTAINS" 3; Cypher.Rel 2 "CONTAINS" 3]
         4.
Proof. split; vm_compute; reflexivity. Qed.

(** When every prefix is itself the package of some file, the chain is there. *)
Example package_chain_when_declared :
  let g := GraphUpsertV2.loaded
             (Samples.project [Samples.C_java; Samples.P2_java; Samples.P1_java])
             Cypher.empty in
  Cypher.nodes_with (Cypher.Pat (Some "Package") []) g
  = [Cypher.Node 1 "Package" [("name", "a.b.c")];
     Cypher.Node 2 "Package" [("name", "a.b")];
     Cypher.Node 3 "Package" [("name", "a")]]
  /\ In (Cypher.Rel 3 "CONTAINS" 2) (Cypher.rels g)
  /\ In (Cypher.Rel 2 "CONTAINS" 1) (Cypher.rels g).
Proof. vm_compute. intuition. Qed.

(** C2. Failure isolation: the resolver leaves the error record as it is and
    enters nothing in the index for it, but [CodeAnalyzerGraphLoader] merges
    a File node for its path and links the project to it;
    [JavaProjectGraphLoader], which tests for the error key, creates
    nothing for it. *)
Theorem failed_file_is_loaded :
  JavaAstV2.analyze_relationships [Samples.Bad_java] = [Samples.Bad_java]
  /\ JavaAstV2.build_class_map [Samples.Bad_java] = ∅
  /\ GraphUpsertV2.loaded (Samples.project [Samples.Bad_java]) Cypher.empty
     = Cypher.Store
         [Cypher.Node 0 "Project" [("name", "demo"); ("path", "/src/demo")];
          Cypher.Node 1 "File" [("name", "Bad.java"); ("path", "Bad.java")]]
         [Cypher.Rel 0 "CONTAINS" 1]
         2
  /\ Graph.loaded (Samples.project [Samples.Bad_java]) Cypher.empty
     = Cypher.Store
         [Cypher.Node 0 "Project" [("name", "demo"); ("path", "/src/demo")]]
         [] 1.
Proof. repeat split; vm_compute; reflexivity. Qed.

(** C3. The two-file scenario: both type nodes are there in either order of
    the files, but the IMPLEMENTS statement of [p.A] is sent while [A.java]
    is loaded; with [A.java] first no Interface node named [I] exists yet
    and no IMPLEMENTS relationship is ever created, with [B.java] first it
    is. *)
Theorem implements_depends_on_file_order :
  let gAB := GraphUpsertV2.loaded (Samples.project [Samples.A_java; Samples.B_java])
                                  Cypher.empty in
  let gBA := GraphUpsertV2.loaded (Samples.project [Samples.B_java; Samples.A_java])
                                  Cypher.empty in
  let implements r := String.eqb (Cypher.rtype r) "IMPLEMENTS" in
  Cypher.match_nodes (GraphUpsertV2.by_full_name (Some "Class") "p.A") gAB = [3]
  /\ Cypher.match_nodes (GraphUpsertV2.by_full_name (Some "Interface") "p.I") gAB = [5]
  /\ List.filter implements (Cypher.rels gAB) = []
  /\ Cypher.match_nodes (GraphUpsertV2.by_full_name (Some "Class") "p.A") gBA = [5]
  /\ Cypher.match_nodes (GraphUpsertV2.by_full_name (Some "Interface") "p.I") gBA = [3]
  /\ List.filter implements (Cypher.rels gBA) = [Cypher.Rel 5 "IMPLEMENTS" 3].
Proof. vm_compute. repeat split; reflexivity. Qed.

(** C5. Member collapse: class [p.Over] declares [int f()] and
    [void f(int x)].  Both loaders merge a Method node on every property
    they store, so the two methods do not collapse: the load leaves two
    Method nodes carrying the id [p.Over.f].  The relationship statements
    look a method up by this id alone, so the one Parameter node, [x] of the
    second method, is linked by HAS_PARAMETER from both Method nodes. *)
Theorem overloads_share_an_id :
  let g := GraphUpsertV2.loaded (Samples.project [Samples.Over_java])
                                Cypher.empty in
  let g1 := Graph.loaded (Samples.project [Samples.Over_java]) Cypher.empty in
  let has_parameter r := String.eqb (Cypher.rtype r) "HAS_PARAMETER" in
  Cypher.nodes_with (GraphUpsertV2.by_id "Method" "p.Over.f") g
  = [Cypher.Node 4 "Method"
       [("name", "f"); ("id", "p.Over.f"); ("returnType", "int");
        ("documentation", ""); ("description", ""); ("body", "return 1;");
        ("parent_name", "p.Over")];
     Cypher.Node 5 "Method"
       [("name", "f"); ("id", "p.Over.f"); ("returnType", "void");
        ("documentation", ""); ("description", ""); ("body", "");
        ("parent_name", "p.Over")]]
  /\ Cypher.nodes_with (Cypher.Pat (Some "Parameter") []) g
     = [Cypher.Node 6 "Parameter"
          [("name", "x"); ("type", "int"); ("id", "p.Over.f.x");
           ("method_id", "p.Over.f")]]
  /\ List.filter has_parameter (Cypher.rels g)
     = [Cypher.Rel 4 "HAS_PARAMETER" 6; Cypher.Rel 5 "HAS_PARAMETER" 6]
  /\ Cypher.nodes_with (GraphUpsertV2.by_id "Method" "p.Over.f") g1
     = [Cypher.Node 4 "Method"
          [("name", "f"); ("id", "p.Over.f"); ("returnType", "int")];
        Cypher.Node 5 "Method"
          [("name", "f"); ("id", "p.Over.f"); ("returnType", "void")]].
Proof. vm_compute. repeat split; reflexivity. Qed.

(** C9. By-name EXTENDS: [Sub.java] declares class [p.Sub] extending
    [Base] and [Base.java] declares class [p.Base].  The EXTENDS statement
    of [p.Sub] is sent while [Sub.java] is loaded and matches the parent by
    name among the nodes the store holds at that moment.  With [Sub.java]
    first no node named [Base] exists yet and nothing sends the statement
    again: the load ends with the node [p.Sub], a node named [Base] and no
    EXTENDS relationship, in both loaders; with [Base.java] first the
    relationship is there. *)
Theorem extends_depends_on_file_order :
  let sub_first := Samples.project [Samples.Sub_java; Samples.Base_java] in
  let base_first := Samples.project [Samples.Base_java; Samples.Sub_java] in
  let child := GraphUpsertV2.by_full_name None "p.Sub" in
  let parent := Cypher.Pat None [("name", "Base")] in
  let extends r := String.eqb (Cypher.rtype r) "EXTENDS" in
  Cypher.match_nodes child (GraphUpsertV2.loaded sub_first Cypher.empty) = [3]
  /\ Cypher.match_nodes parent (GraphUpsertV2.loaded sub_first Cypher.empty) = [5]
  /\ List.filter extends
       (Cypher.rels (GraphUpsertV2.loaded sub_first Cypher.empty)) = []
  /\ Cypher.match_nodes child (GraphUpsertV2.loaded base_first Cypher.empty) = [5]
  /\ Cypher.match_nodes parent (GraphUpsertV2.loaded base_first Cypher.empty) = [3]
  /\ List.filter extends
       (Cypher.rels (GraphUpsertV2.loaded base_first Cypher.empty))
     = [Cypher.Rel 5 "EXTENDS" 3]
  /\ Cypher.match_nodes child (Graph.loaded sub_first Cypher.empty) = [3]
  /\ Cypher.match_nodes parent (Graph.loaded sub_first Cypher.empty) = [5]
  /\ List.filter extends (Cypher.rels (Graph.loaded sub_first Cypher.empty)) = []
  /\ List.filter extends (Cypher.rels (Graph.loaded base_first Cypher.empty))
     = [Cypher.Rel 5 "EXTENDS" 3].
Proof. vm_compute. repeat split; reflexivity. Qed.

(** ** Where nodes come from *)

Section OriginFacts.
Import Cypher.

Lemma exec_node_origin g q n :
  In n (nodes (exec g q)) ->
  In n (nodes g) \/ creates q = Some (nlabel n, nprops n).
Proof.
  destruct q as [|l ps|l ps|a t b|a l ps t]; simpl.
  - intros [].
  - intros H. apply in_app_or in H. destruct H as [H|[<-|[]]]; auto.
  - unfold merge_node. destruct (match_nodes (Pat (Some l) ps) g); simpl; auto.
    intros H. apply in_app_or in H. destruct H as [H|[<-|[]]]; auto.
  - auto.
  - destruct (match_nodes a g); simpl; auto.
    unfold merge_node. destruct (match_nodes (Pat (Some l) ps) g); simpl; auto.
    intros H. apply in_app_or in H. destruct H as [H|[<-|[]]]; auto.
Qed.

Lemma run_node_origin qs g n :
  In n (nodes (run qs g)) ->
  In n (nodes g) \/ exists q, In q qs /\ creates q = Some (nlabel n, nprops n).
Proof.
  revert g. induction qs as [|q qs IH]; intros g H; [now left|].
  unfold run in H. simpl in H. apply IH in H. destruct H as [H|(q' & Hq' & Hc)].
  - apply exec_node_origin in H. destruct H as [H|H]; [now left|].
    right. exists q. split; [now left|assumption].
  - right. exists q'. split; [now right|assumption].
Qed.

Lemma exec_keeps_nodes g q n :
  deletes q = false -> In n (nodes g) -> In n (nodes (exec g q)).
Proof.
  destruct q as [|l ps|l ps|a t b|a l ps t]; simpl; intros Hd H;
    try discriminate; auto.
  - apply in_or_app. now left.
  - unfold merge_node. destruct (match_nodes (Pat (Some l) ps) g); simpl; auto.
    apply in_or_app. now left.
  - destruct (match_nodes a g); simpl; auto.
    unfold merge_node. destruct (match_nodes (Pat (Some l) ps) g); simpl; auto.
    apply in_or_app. now left.
Qed.

Lemma run_keeps_nodes qs g n :
  forallb (fun q => negb (deletes q)) qs = true ->
  In n (nodes g) -> In n (nodes (run qs g)).
Proof.
  revert g. induction qs as [|q qs IH]; intros g Hd H; [assumption|].
  simpl in Hd. apply andb_prop in Hd. destruct Hd as [Hq Hd].
  unfold run. simpl. apply IH; [assumption|].
  apply exec_keeps_nodes; [|assumption]. now apply negb_true_iff.
Qed.

Lemma filter_none {A} (f : A -> bool) (l : list A) :
  (forall x, In x l -> f x = false) -> List.filter f l = [].
Proof.
  induction l as [|x l IH]; intros H; [reflexivity|]. simpl.
  rewrite (H x) by now left. apply IH. intros y Hy. apply H. now right.
Qed.
End OriginFacts.

(** ** What the loaders send *)

Section LoaderFacts.
Import Model Cypher.

Lemma hierarchy_creates_nothing packages q :
  In q (GraphUpsertV2._create_package_hierarchy packages) -> creates q = None.
Proof.
  unfold GraphUpsertV2._create_package_hierarchy. intros H. split_in. reflexivity.
Qed.

Lemma load_file_creates entry q l ps :
  In q (GraphUpsertV2.load_file entry) -> creates q = Some (l, ps) ->
  In l ["File"; "Import"; "Class"; "Field"; "Method"; "Parameter"; "Interface"].
Proof.
  destruct entry as [file_path file_info].
  unfold GraphUpsertV2.load_file, GraphUpsertV2.load_class,
    GraphUpsertV2.load_interface, GraphUpsertV2.load_methods,
    GraphUpsertV2.load_parameters, GraphUpsertV2._create_file,
    GraphUpsertV2._create_import, GraphUpsertV2._create_file_imports_relationship,
    GraphUpsertV2._create_class, GraphUpsertV2._create_field,
    GraphUpsertV2._create_interface, GraphUpsertV2._create_method,
    GraphUpsertV2._create_parameter, GraphUpsertV2._create_extends_relationship,
    GraphUpsertV2._create_implements_relationship.
  intros H Hc. split_in; simpl in Hc; try discriminate Hc;
    injection Hc as <- _; simpl; tauto.
Qed.

Lemma load_dependencies_creates_nothing entry q :
  In q (GraphUpsertV2.load_dependencies entry) -> creates q = None.
Proof.
  destruct entry as [file_path file_info].
  unfold GraphUpsertV2.load_dependencies,
    GraphUpsertV2._create_file_depends_on_relationship.
  intros H. split_in. reflexivity.
Qed.

(** The only statements of a load that can create a Package node are the
    merges of the declared packages. *)
Lemma package_creators project_data q ps :
  In q (GraphUpsertV2.load_project project_data) ->
  creates q = Some ("Package", ps) ->
  exists name,
    In name (GraphUpsertV2.declared_packages (files project_data))
    /\ ps = [("name", name)].
Proof.
  unfold GraphUpsertV2.load_project. intros H Hc.
  apply in_app_or in H. destruct H as [H|H].
  { destruct H as [<-|[]]. discriminate Hc. }
  apply in_app_or in H. destruct H as [H|H].
  { destruct H as [<-|[]]. discriminate Hc. }
  apply in_app_or in H. destruct H as [H|H].
  { apply in_flat_map in H. destruct H as (name & Hname & [<-|[]]).
    exists name. split; [assumption|]. now injection Hc as <-. }
  apply in_app_or in H. destruct H as [H|H].
  { apply hierarchy_creates_nothing in H. congruence. }
  apply in_app_or in H. destruct H as [H|H].
  - apply in_flat_map in H. destruct H as (entry & _ & H).
    apply (load_file_creates _ _ _ _ H) in Hc. simpl in Hc.
    exfalso. intuition discriminate.
  - apply in_flat_map in H. destruct H as (entry & _ & H).
    apply load_dependencies_creates_nothing in H. congruence.
Qed.

(** Package nodes exist for declared packages only. *)
Lemma package_nodes_are_declared project_data g n :
  In n (nodes (GraphUpsertV2.loaded project_data g)) ->
  nlabel n = "Package" ->
  exists name,
    In name (GraphUpsertV2.declared_packages (files project_data))
    /\ nprops n = [("name", name)].
Proof.
  intros Hn Hl. unfold GraphUpsertV2.loaded in Hn.
  assert (Hfirst : GraphUpsertV2.load_project project_data
                   = DetachDeleteAll :: tl (GraphUpsertV2.load_project project_data))
    by reflexivity.
  rewrite Hfirst in Hn.
  change (In n (nodes (run (tl (GraphUpsertV2.load_project project_data))
                           (exec g DetachDeleteAll)))) in Hn.
  apply run_node_origin in Hn. destruct Hn as [Hn|(q & Hq & Hc)]; [destruct Hn|].
  rewrite Hl in Hc. apply (package_creators project_data q); [|assumption].
  rewrite Hfirst. now right.
Qed.

(** X1. A dotted prefix that is no file's package has no node after the
    load, so no statement of the chain can match it. *)
Lemma undeclared_package_has_no_node project_data g name :
  ~ In name (GraphUpsertV2.declared_packages (files project_data)) ->
  match_nodes (GraphUpsertV2.by_name "Package" name)
              (GraphUpsertV2.loaded project_data g) = [].
Proof.
  intros Hout. unfold match_nodes. rewrite filter_none; [reflexivity|].
  intros n Hn. destruct (matches (GraphUpsertV2.by_name "Package" name) n) eqn:Hm;
    [|reflexivity].
  exfalso. unfold matches in Hm. simpl in Hm.
  apply andb_prop in Hm. destruct Hm as [Hl Hp].
  apply String.eqb_eq in Hl.
  destruct (package_nodes_are_declared _ _ _ Hn Hl) as (name' & Hd & Hps).
  rewrite Hps in Hp. unfold prop_get in Hp. simpl in Hp.
  rewrite andb_true_r in Hp. apply bool_decide_eq_true in Hp.
  injection Hp as ->. contradiction.
Qed.
End LoaderFacts.

(** ** Error records in the later phases *)

Section FailureFacts.
Import Model Cypher.

Lemma flat_map_parsed_only {B} (f : string * file_info -> list B) fs :
  (forall entry, has_error (snd entry) = true -> f entry = []) ->
  flat_map f fs = flat_map f (parsed_only fs).
Proof.
  intros Hf. induction fs as [|entry fs IH]; [reflexivity|]. simpl.
  destruct (has_error (snd entry)) eqn:He; simpl.
  - now rewrite (Hf entry He).
  - now rewrite IH.
Qed.

(** X3. The index is built from the parsed records alone. *)
Lemma index_skips_failed fs :
  JavaAstV2.build_class_map fs = JavaAstV2.build_class_map (parsed_only fs).
Proof.
  unfold JavaAstV2.build_class_map. generalize (∅ : gmap string string).
  induction fs as [|[p fi] fs IH]; intros m; [reflexivity|]. simpl.
  destruct (has_error fi) eqn:He; simpl; [apply IH|].
  rewrite He. apply IH.
Qed.

(** The resolver hands an error record on as it found it. *)
Lemma resolver_keeps_failed fs p a b :
  In (p, Failed a b) fs -> In (p, Failed a b) (JavaAstV2.analyze_relationships fs).
Proof.
  intros Hin. unfold JavaAstV2.analyze_relationships. cbv zeta.
  apply in_map_iff. exists (p, Failed a b). split; [reflexivity|assumption].
Qed.

(** X2. [graph.py] sends the same statements as if the error records were
    not in the mapping. *)
Lemma graph_loader_skips_failed project_data :
  Graph.load_project project_data
  = Graph.load_project (ProjectStructure (project_path project_data)
                                         (parsed_only (files project_data))).
Proof.
  unfold Graph.load_project. simpl.
  assert (Hp : Graph.declared_packages (files project_data)
               = Graph.declared_packages (parsed_only (files project_data))).
  { unfold Graph.declared_packages. apply flat_map_parsed_only.
    intros [p fi] He. simpl in *. now rewrite He. }
  rewrite <- Hp.
  rewrite <- (flat_map_parsed_only Graph.load_file),
          <- (flat_map_parsed_only Graph.load_imports); [reflexivity| |];
    intros [p fi] He; simpl in *; now rewrite He.
Qed.

(** [graph_upsert_v2.py] sends, for an error record, the statements of a
    file without package, imports or types. *)
Lemma upsert_loader_statements_for_failed p a b :
  GraphUpsertV2.load_file (p, Failed a b)
  = [Merge "File" [("name", PyStr.basename p); ("path", p)];
     MatchMergeRel (Pat (Some "Project") []) "CONTAINS" (GraphUpsertV2.by_path p)].
Proof. reflexivity. Qed.

Lemma load_file_deletes_nothing entry :
  forallb (fun q => negb (deletes q)) (GraphUpsertV2.load_file entry) = true.
Proof.
  apply forallb_forall. intros q H. destruct entry as [file_path file_info].
  unfold GraphUpsertV2.load_file, GraphUpsertV2.load_class,
    GraphUpsertV2.load_interface, GraphUpsertV2.load_methods,
    GraphUpsertV2.load_parameters, GraphUpsertV2._create_file,
    GraphUpsertV2._create_import, GraphUpsertV2._create_file_imports_relationship,
    GraphUpsertV2._create_class, GraphUpsertV2._create_field,
    GraphUpsertV2._create_interface, GraphUpsertV2._create_method,
    GraphUpsertV2._create_parameter, GraphUpsertV2._create_extends_relationship,
    GraphUpsertV2._create_implements_relationship in H.
  split_in; reflexivity.
Qed.

Lemma load_dependencies_deletes_nothing entry :
  forallb (fun q => negb (deletes q)) (GraphUpsertV2.load_dependencies entry) = true.
Proof.
  apply forallb_forall. intros q H. destruct entry as [file_path file_info].
  unfold GraphUpsertV2.load_dependencies,
    GraphUpsertV2._create_file_depends_on_relationship in H.
  split_in; reflexivity.
Qed.

Lemma forallb_flat_map {A B} (f : B -> bool) (h : A -> list B) (l : list A) :
  (forall x, forallb f (h x) = true) -> forallb f (flat_map h l) = true.
Proof.
  intros Hh. induction l as [|x l IH]; [reflexivity|]. simpl.
  now rewrite forallb_app, Hh, IH.
Qed.

(** X4. Whatever the store held and whatever else the project has, after a
    load by [graph_upsert_v2.py] some File node carries the path of each
    error record. *)
Lemma failed_file_gets_a_node project_data g p a b :
  In (p, Failed a b) (files project_data) ->
  exists n,
    In n (nodes (GraphUpsertV2.loaded project_data g))
    /\ matches (Pat (Some "File") [("name", PyStr.basename p); ("path", p)]) n = true.
Proof.
  intros Hin. apply in_split in Hin. destruct Hin as (pre & post & Hfs).
  set (merge_file := Merge "File" [("name", PyStr.basename p); ("path", p)]).
  assert (Hsplit : exists before after,
             GraphUpsertV2.load_project project_data
             = before ++ [merge_file] ++ after
             /\ forallb (fun q => negb (deletes q)) after = true).
  { exists (GraphUpsertV2._clear_database
            ++ GraphUpsertV2._create_project
                 (PyStr.basename (project_path project_data))
                 (project_path project_data)
            ++ flat_map GraphUpsertV2._create_package
                 (GraphUpsertV2.declared_packages (files project_data))
            ++ GraphUpsertV2._create_package_hierarchy
                 (list_to_set (GraphUpsertV2.declared_packages (files project_data)))
            ++ flat_map GraphUpsertV2.load_file pre),
           ((MatchMergeRel (Pat (Some "Project") []) "CONTAINS"
                           (GraphUpsertV2.by_path p)
             :: flat_map GraphUpsertV2.load_file post)
            ++ flat_map GraphUpsertV2.load_dependencies (files project_data)).
    split.
    - unfold GraphUpsertV2.load_project. rewrite Hfs at 3.
      rewrite (flat_map_app GraphUpsertV2.load_file).
      change (flat_map GraphUpsertV2.load_file ((p, Failed a b) :: post))
        with (GraphUpsertV2.load_file (p, Failed a b)
              ++ flat_map GraphUpsertV2.load_file post).
      rewrite upsert_loader_statements_for_failed.
      rewrite <- !app_assoc. reflexivity.
    - rewrite forallb_app. apply andb_true_intro. split.
      + simpl. apply forallb_flat_map, load_file_deletes_nothing.
      + apply forallb_flat_map, load_dependencies_deletes_nothing. }
  destruct Hsplit as (before & after & Hsplit & Hafter).
  unfold GraphUpsertV2.loaded. rewrite Hsplit, !run_app.
  set (g0 := run before g).
  set (pat := Pat (Some "File") [("name", PyStr.basename p); ("path", p)]).
  assert (Hn : exists n, In n (nodes (run [merge_file] g0)) /\ matches pat n = true).
  { unfold run. simpl.
    pose proof (merge_node_count "File" [("name", PyStr.basename p); ("path", p)] g0)
      as Hc.
    fold pat in Hc.
    destruct (nodes_with pat (merge_node "File" [("name", PyStr.basename p);
                                                 ("path", p)] g0))
      as [|n ns] eqn:Hw.
    - simpl in Hc. exfalso.
      assert (Hnd : List.NoDup (map fst [("name", PyStr.basename p); ("path", p)])).
      { simpl. repeat (constructor; [simpl; intuition discriminate|]). constructor. }
      specialize (Hc Hnd). lia.
    - exists n. assert (Hin : In n (nodes_with pat
                  (merge_node "File" [("name", PyStr.basename p); ("path", p)] g0)))
        by (rewrite Hw; now left).
      unfold nodes_with in Hin. apply filter_In in Hin. exact Hin. }
  destruct Hn as (n & Hn & Hm). exists n. split; [|assumption].
  now apply run_keeps_nodes.
Qed.
End FailureFacts.

(** ** The first resolver *)

Section FirstResolverFacts.
Import Model.






End FirstResolverFacts.




(** [java_ast.py] does not index interfaces: the import of [com.x.I] gets a
    record without a file there, and a resolved one from the heuristic
    resolver. *)
Example interface_import_in_both_resolvers :
  JavaAst.file_dependencies
    (JavaAst.build_class_map [Samples.I_java; Samples.K_java])
    (Model.Parsed Samples.K_record)
  = [Model.Dependency "import" "com.x.I" None]
  /\ JavaAstV2.file_dependencies
       (JavaAstV2.build_class_map [Samples.I_java; Samples.K_java])
       (Model.Parsed Samples.K_record)
     = [Model.Dependency "import" "com.x.I" (Some "com/x/I.java")].
Proof. split; vm_compute; reflexivity. Qed.

Lemma undeclared_package_has_no_node_witness :
  Cypher.match_nodes (GraphUpsertV2.by_name "Package" "a.b")
    (GraphUpsertV2.loaded (Samples.project [Samples.C_java]) Cypher.empty)
  = [].
Proof.
  apply undeclared_package_has_no_node.
  simpl. intuition discriminate.
Defined.

Lemma failed_file_gets_a_node_witness :
  exists n,
    In n (Cypher.nodes (GraphUpsertV2.loaded (Samples.project [Samples.Bad_java])
                                             Cypher.empty))
    /\ Cypher.matches (Cypher.Pat (Some "File")
                         [("name", PyStr.basename "Bad.java"); ("path", "Bad.java")])
                      n = true.
Proof.
  apply (failed_file_gets_a_node (Samples.project [Samples.Bad_java]) Cypher.empty
                                 "Bad.java" "/src/demo/Bad.java" "JavaSyntaxError").
  left. reflexivity.
Defined.

(** ** More on the index and the resolver *)

Section IndexFacts.
Import Model JavaAstV2.

Lemma index_step_lookup (m : gmap string string) p fi k :
  index_step m (p, fi) !! k
  = if has_error fi then m !! k
    else if in_dec string_dec k (registered_names fi) then Some p else m !! k.
Proof.
  unfold index_step. destruct (has_error fi); [reflexivity|].
  apply register_lookup.
Qed.

Lemma build_class_map_snoc fs entry :
  build_class_map (fs ++ [entry]) = index_step (build_class_map fs) entry.
Proof. unfold build_class_map. now rewrite fold_left_app. Qed.

Lemma index_sound fs k p :
  build_class_map fs !! k = Some p ->
  exists fi, In (p, fi) fs /\ has_error fi = false /\ In k (registered_names fi).
Proof.
  induction fs as [|[p0 fi0] fs IH] using rev_ind.
  - unfold build_class_map. simpl. rewrite lookup_empty. discriminate.
  - rewrite build_class_map_snoc, index_step_lookup.
    destruct (has_error fi0) eqn:He.
    + intros H. destruct (IH H) as (fi & Hin & Hr).
      exists fi. split; [apply in_or_app; now left|assumption].
    + destruct (in_dec string_dec k (registered_names fi0)) as [Hk|Hk].
      * intros [= <-]. exists fi0. split; [apply in_or_app; right; now left|auto].
      * intros H. destruct (IH H) as (fi & Hin & Hr).
        exists fi. split; [apply in_or_app; now left|assumption].
Qed.

Lemma index_complete fs k p fi :
  In (p, fi) fs -> has_error fi = false -> In k (registered_names fi) ->
  is_Some (build_class_map fs !! k).
Proof.
  induction fs as [|[p0 fi0] fs IH] using rev_ind; [intros []|].
  intros Hin He Hk. rewrite build_class_map_snoc, index_step_lookup.
  apply in_app_or in Hin. destruct Hin as [Hin|[[= -> ->]|[]]].
  - destruct (has_error fi0); [now apply IH|].
    destruct (in_dec string_dec k (registered_names fi0)); [eauto|now apply IH].
  - rewrite He. destruct (in_dec string_dec k (registered_names fi)); [eauto|].
    contradiction.
Qed.

Lemma dependency_file_is_lookup cm fi d :
  In d (file_dependencies cm fi) -> dep_file d = cm !! dep_target d.
Proof.
  unfold file_dependencies, import_dependencies, class_dependencies.
  intros H. split_in; try reflexivity.
  apply in_map_iff in H. destruct H as (i & <- & _). reflexivity.
Qed.

Lemma analyzed_entry fs p fi :
  In (p, fi) (analyze_relationships fs) ->
  (exists r, In (p, Parsed r) fs
             /\ fi = Parsed (set_dependencies r
                               (file_dependencies (build_class_map fs) (Parsed r))))
  \/ (exists a b, In (p, Failed a b) fs /\ fi = Failed a b).
Proof.
  unfold analyze_relationships. cbv zeta. intros H.
  apply in_map_iff in H. destruct H as ([p0 [r|a b]] & [= <- <-] & Hin).
  - left. eauto.
  - right. eauto.
Qed.

Lemma index_step_analyzed cm (m : gmap string string) p fi :
  index_step m (p, match fi with
                   | Failed _ _ => fi
                   | Parsed r => Parsed (set_dependencies r (file_dependencies cm fi))
                   end)
  = index_step m (p, fi).
Proof. now destruct fi. Qed.

Lemma build_class_map_analyzed fs :
  build_class_map (analyze_relationships fs) = build_class_map fs.
Proof.
  unfold analyze_relationships. cbv zeta.
  generalize (build_class_map fs) at 1. intros cm.
  unfold build_class_map. generalize (∅ : gmap string string).
  induction fs as [|[p fi] fs IH]; intros m; [reflexivity|].
  simpl. rewrite <- IH. f_equal. now destruct fi.
Qed.
End IndexFacts.

(** X5. The index holds exactly the names the parsed records register: a
    name maps to a path only if that path is the key of a record without
    error that registers the name, and every name a record without error
    registers is in the index. *)
Theorem index_sound_and_complete (fs : Model.files_map) (k : string) :
  (forall p, JavaAstV2.build_class_map fs !! k = Some p ->
             exists fi, In (p, fi) fs /\ Model.has_error fi = false
                        /\ In k (JavaAstV2.registered_names fi))
  /\ ((exists p fi, In (p, fi) fs /\ Model.has_error fi = false
                    /\ In k (JavaAstV2.registered_names fi))
      -> is_Some (JavaAstV2.build_class_map fs !! k)).
Proof.
  split.
  - intros p. apply index_sound.
  - intros (p & fi & Hin & He & Hk). eapply index_complete; eauto.
Qed.

(** X6. A file pointer of a dependency record is never dangling: it is what
    the index holds for the raw target, and so the key of a record without
    error that declares a type of that name. *)
Theorem resolved_pointer_names_a_parsed_file (fs : Model.files_map)
  (p : string) (fi : Model.file_info) (d : Model.dependency) (f : string) :
  In (p, fi) (JavaAstV2.analyze_relationships fs) ->
  In d (Model.get_dependencies fi) ->
  Model.dep_file d = Some f ->
  JavaAstV2.build_class_map fs !! Model.dep_target d = Some f
  /\ exists fi', In (f, fi') fs /\ Model.has_error fi' = false
                 /\ In (Model.dep_target d) (JavaAstV2.registered_names fi').
Proof.
  intros Hin Hd Hf.
  assert (Hcm : JavaAstV2.build_class_map fs !! Model.dep_target d = Some f).
  { apply analyzed_entry in Hin. destruct Hin as [(r & _ & ->)|(a & b & _ & ->)].
    - simpl in Hd. apply dependency_file_is_lookup in Hd. congruence.
    - destruct Hd. }
  split; [exact Hcm|]. now apply index_sound.
Qed.

Lemma resolved_pointer_names_a_parsed_file_witness :
  JavaAstV2.build_class_map [Samples.A_java; Samples.B_java] !! "I" = Some "B.java"
  /\ exists fi', In ("B.java", fi') [Samples.A_java; Samples.B_java]
                 /\ Model.has_error fi' = false
                 /\ In "I" (JavaAstV2.registered_names fi').
Proof.
  apply (resolved_pointer_names_a_parsed_file
           [Samples.A_java; Samples.B_java] "A.java"
           (snd (hd Samples.A_java
                    (JavaAstV2.analyze_relationships [Samples.A_java; Samples.B_java])))
           (Model.Dependency "implements" "I" (Some "B.java")) "B.java").
  - vm_compute. left. reflexivity.
  - vm_compute. left. reflexivity.
  - reflexivity.
Defined.

(** X7. Running the resolver on its own output changes nothing, and the
    resolver keeps the keys of the mapping and their order: the index is
    computed from declarations only, never from earlier dependency lists. *)
Theorem analyze_relationships_idempotent (fs : Model.files_map) :
  JavaAstV2.analyze_relationships (JavaAstV2.analyze_relationships fs)
  = JavaAstV2.analyze_relationships fs
  /\ map fst (JavaAstV2.analyze_relationships fs) = map fst fs.
Proof.
  split.
  - unfold JavaAstV2.analyze_relationships at 1. cbv zeta.
    rewrite build_class_map_analyzed.
    unfold JavaAstV2.analyze_relationships. cbv zeta.
    rewrite map_map. apply map_ext. intros [p [r|a b]]; reflexivity.
  - unfold JavaAstV2.analyze_relationships. cbv zeta.
    rewrite map_map. apply map_ext. intros [p [r|a b]]; reflexivity.
Qed.

(** ** The store only grows after the reset *)

Section GrowthFacts.
Import Cypher.

Lemma keeps_app qs1 qs2 : keeps (qs1 ++ qs2) <-> keeps qs1 /\ keeps qs2.
Proof. unfold keeps. rewrite forallb_app, andb_true_iff. tauto. Qed.

Lemma keeps_cons q qs : keeps (q :: qs) <-> deletes q = false /\ keeps qs.
Proof. unfold keeps. simpl. rewrite andb_true_iff, negb_true_iff. tauto. Qed.

Lemma keeps_flat_map {A} (h : A -> list query) (l : list A) :
  (forall x, keeps (h x)) -> keeps (flat_map h l).
Proof. intros H. now apply forallb_flat_map. Qed.

Lemma exec_keeps_rels g q r :
  deletes q = false -> In r (rels g) -> In r (rels (exec g q)).
Proof.
  destruct q as [|l ps|l ps|a t b|a l ps t]; simpl; intros Hd H;
    try discriminate; auto.
  - unfold merge_node. destruct (match_nodes (Pat (Some l) ps) g); simpl; auto.
  - now apply fold_add_rel_keeps.
  - destruct (match_nodes a g); simpl; auto.
    apply fold_add_rel_keeps.
    unfold merge_node. destruct (match_nodes (Pat (Some l) ps) g); simpl; auto.
Qed.

Lemma run_keeps_rels qs g r :
  keeps qs -> In r (rels g) -> In r (rels (run qs g)).
Proof.
  revert g. induction qs as [|q qs IH]; intros g Hd H; [assumption|].
  apply keeps_cons in Hd. destruct Hd as [Hq Hd].
  unfold run. simpl. apply IH; [assumption|]. now apply exec_keeps_rels.
Qed.

Lemma present_kept qs g p : keeps qs -> present p g -> present p (run qs g).
Proof.
  intros Hk (n & Hn & Hm). exists n. split; [|assumption].
  now apply run_keeps_nodes.
Qed.

Lemma linked_kept qs g a t b : keeps qs -> linked a t b g -> linked a t b (run qs g).
Proof.
  intros Hk (x & y & Hx & Hmx & Hy & Hmy & Hr). exists x, y.
  repeat split; try assumption;
    [now apply run_keeps_nodes|now apply run_keeps_nodes|now apply run_keeps_rels].
Qed.

Lemma matches_weaker p l ps n :
  weaker p l ps -> matches (Pat (Some l) ps) n = true -> matches p n = true.
Proof.
  intros [Hl Hps] Hm. unfold matches in *. simpl in Hm.
  apply andb_prop in Hm. destruct Hm as [Hlab Hall].
  apply andb_true_intro. split.
  - destruct Hl as [->| ->]; [reflexivity|exact Hlab].
  - apply forallb_forall. intros kv Hkv.
    rewrite forallb_forall in Hall. apply Hall, Hps, Hkv.
Qed.

Lemma merge_node_present l ps g :
  List.NoDup (map fst ps) -> present (Pat (Some l) ps) (merge_node l ps g).
Proof.
  intros Hnd. pose proof (merge_node_count l ps g Hnd) as Hc.
  destruct (nodes_with (Pat (Some l) ps) (merge_node l ps g)) as [|n ns] eqn:Hw.
  - simpl in Hc. lia.
  - exists n. assert (Hin : In n (nodes_with (Pat (Some l) ps) (merge_node l ps g)))
      by (rewrite Hw; now left).
    unfold nodes_with in Hin. now apply filter_In in Hin.
Qed.

Lemma create_node_present l ps g :
  List.NoDup (map fst ps) -> present (Pat (Some l) ps) (create_node l ps g).
Proof.
  intros Hnd. exists (Node (next_id g) l ps). split.
  - simpl. apply in_or_app. right. now left.
  - now apply matches_own_pattern.
Qed.

Lemma exec_makes g q p : makes q p -> present p (exec g q).
Proof.
  intros (l & ps & Hq & Hnd & Hw).
  assert (H : present (Pat (Some l) ps) (exec g q)).
  { destruct Hq as [-> | ->]; simpl;
      [now apply merge_node_present|now apply create_node_present]. }
  destruct H as (n & Hn & Hm). exists n. split; [assumption|].
  eapply matches_weaker; eassumption.
Qed.

Lemma makes_keeps q p : makes q p -> deletes q = false.
Proof. intros (l & ps & [-> | ->] & _); reflexivity. Qed.

(** A node-making statement anywhere in a sequence that deletes nothing
    leaves its node in the final store. *)
Lemma run_makes qs g q p :
  keeps qs -> In q qs -> makes q p -> present p (run qs g).
Proof.
  intros Hk Hin Hm. apply in_split in Hin. destruct Hin as (a & b & ->).
  apply keeps_app in Hk. destruct Hk as [_ Hk]. apply keeps_cons in Hk.
  rewrite run_app. change (q :: b) with ([q] ++ b). rewrite run_app.
  apply present_kept; [tauto|]. unfold run. simpl. now apply exec_makes.
Qed.

Lemma exec_links g a t b :
  present a g -> present b g -> linked a t b (exec g (MatchMergeRel a t b)).
Proof.
  intros (x & Hx & Hmx) (y & Hy & Hmy). exists x, y. simpl.
  repeat split; try assumption.
  apply fold_add_rel_adds, in_rows; unfold match_nodes;
    apply in_map, filter_In; split; assumption.
Qed.

Lemma sent_before_both qa qb q qs :
  sent_before qa q qs -> sent_before qb q qs ->
  exists a b, qs = a ++ q :: b /\ In qa a /\ In qb a.
Proof.
  intros (a1 & b1 & H1 & Ha) (a2 & b2 & H2 & Hb).
  assert (Heq : a1 ++ q :: b1 = a2 ++ q :: b2) by congruence.
  apply app_eq_app in Heq. destruct Heq as (l & [[-> Hl]|[-> Hl]]).
  - exists (a2 ++ l), b1. split; [assumption|]. split; [assumption|].
    apply in_or_app. now left.
  - exists (a1 ++ l), b2. split; [assumption|]. split; [|assumption].
    apply in_or_app. now left.
Qed.

(** A relationship statement sent after the statements that make its two
    ends leaves the relationship in the final store. *)
Lemma run_links qs g qa qb a t b :
  keeps qs ->
  sent_before qa (MatchMergeRel a t b) qs -> makes qa a ->
  sent_before qb (MatchMergeRel a t b) qs -> makes qb b ->
  linked a t b (run qs g).
Proof.
  intros Hk Ha Hma Hb Hmb.
  destruct (sent_before_both _ _ _ _ Ha Hb) as (pre & post & -> & Hina & Hinb).
  apply keeps_app in Hk. destruct Hk as [Hpre Hk]. apply keeps_cons in Hk.
  rewrite run_app. change (MatchMergeRel a t b :: post)
    with ([MatchMergeRel a t b] ++ post). rewrite run_app.
  apply linked_kept; [tauto|].
  change (run [MatchMergeRel a t b] (run pre g))
    with (exec (run pre g) (MatchMergeRel a t b)).
  apply exec_links;
    [apply (run_makes pre g qa)|apply (run_makes pre g qb)]; assumption.
Qed.

Lemma sent_before_app_l qa q l1 l2 :
  sent_before qa q l1 -> sent_before qa q (l1 ++ l2).
Proof.
  intros (a & b & -> & Hin). exists a, (b ++ l2). split; [|assumption].
  now rewrite <- app_assoc.
Qed.

Lemma sent_before_app_r qa q l1 l2 :
  sent_before qa q l2 -> sent_before qa q (l1 ++ l2).
Proof.
  intros (a & b & -> & Hin). exists (l1 ++ a), b. split.
  - now rewrite <- app_assoc.
  - apply in_or_app. now right.
Qed.

Lemma sent_before_cross qa q l1 l2 :
  In qa l1 -> In q l2 -> sent_before qa q (l1 ++ l2).
Proof.
  intros Ha Hq. apply in_split in Hq. destruct Hq as (a & b & ->).
  exists (l1 ++ a), b. split.
  - now rewrite <- app_assoc.
  - apply in_or_app. now left.
Qed.

Lemma sent_before_flat_map {A} (h : A -> list query) (l : list A) x qa q :
  In x l -> sent_before qa q (h x) -> sent_before qa q (flat_map h l).
Proof.
  intros Hx Hs. apply in_split in Hx. destruct Hx as (l1 & l2 & ->).
  rewrite flat_map_app. apply sent_before_app_r. simpl.
  now apply sent_before_app_l.
Qed.

Lemma sent_before_pair qa q l : sent_before qa q (qa :: q :: l).
Proof. exists [qa], l. split; [reflexivity|now left]. Qed.
End GrowthFacts.

(** ** What a load leaves in the store *)

Ltac keys_distinct :=
  simpl; repeat (constructor; [simpl; intuition discriminate|]); constructor.

Ltac solve_makes :=
  do 2 eexists; split; [first [left; reflexivity|right; reflexivity]|];
  split; [keys_distinct|];
  split; [simpl; auto|intros kv Hkv; simpl in *; tauto].

Section LoadFacts.
Import Model Cypher GraphUpsertV2.

Lemma loaded_statements project_data g :
  loaded project_data g = run (statements project_data) (exec g DetachDeleteAll).
Proof. reflexivity. Qed.

Lemma hierarchy_keeps packages : keeps (_create_package_hierarchy packages).
Proof.
  apply forallb_forall. intros q H. unfold _create_package_hierarchy in H.
  split_in. reflexivity.
Qed.

Lemma statements_parts project_data :
  statements project_data
  = _create_project (PyStr.basename (project_path project_data))
                    (project_path project_data)
    ++ flat_map _create_package (declared_packages (files project_data))
    ++ _create_package_hierarchy
         (list_to_set (declared_packages (files project_data)))
    ++ flat_map load_file (files project_data)
    ++ flat_map load_dependencies (files project_data).
Proof. reflexivity. Qed.

Lemma statements_keep project_data : keeps (statements project_data).
Proof.
  rewrite statements_parts.
  apply keeps_app; split; [reflexivity|].
  apply keeps_app; split; [apply keeps_flat_map; intros name; reflexivity|].
  apply keeps_app; split; [apply hierarchy_keeps|].
  apply keeps_app; split.
  - apply keeps_flat_map, load_file_deletes_nothing.
  - apply keeps_flat_map, load_dependencies_deletes_nothing.
Qed.

Lemma in_statements_file project_data entry q :
  In entry (files project_data) -> In q (load_file entry) ->
  In q (flat_map load_file (files project_data)).
Proof. intros He Hq. apply in_flat_map. eauto. Qed.

Lemma sent_in_file project_data entry qa q :
  In entry (files project_data) -> sent_before qa q (load_file entry) ->
  sent_before qa q (statements project_data).
Proof.
  intros He Hs. rewrite statements_parts.
  do 3 apply sent_before_app_r. apply sent_before_app_l.
  eapply sent_before_flat_map; eassumption.
Qed.

Lemma sent_after_project project_data q :
  In q (flat_map load_file (files project_data)) ->
  sent_before (Create "Project"
                 [("name", PyStr.basename (project_path project_data));
                  ("path", project_path project_data)])
              q (statements project_data).
Proof.
  intros Hq. rewrite statements_parts. apply sent_before_cross; [now left|].
  apply in_or_app; right. apply in_or_app; right. apply in_or_app; now left.
Qed.

Lemma declared_package_in fs p fi :
  In (p, fi) fs -> PyStr.truthy (get_package fi) = true ->
  In (default "" (get_package fi)) (declared_packages fs).
Proof.
  intros Hin Ht. unfold declared_packages. apply in_flat_map.
  exists (p, fi). split; [assumption|]. rewrite Ht. now left.
Qed.

Lemma sent_after_package project_data p fi q :
  In (p, fi) (files project_data) -> PyStr.truthy (get_package fi) = true ->
  In q (flat_map load_file (files project_data)) ->
  sent_before (Merge "Package" [("name", default "" (get_package fi))])
              q (statements project_data).
Proof.
  intros Hin Ht Hq. rewrite statements_parts. apply sent_before_app_r.
  apply sent_before_cross.
  - apply in_flat_map. exists (default "" (get_package fi)).
    split; [eapply declared_package_in; eassumption|now left].
  - apply in_or_app; right. apply in_or_app; now left.
Qed.

(** The first statement of [load_file] merges the File node. *)
Lemma load_file_head p fi :
  exists rest,
    load_file (p, fi)
    = Merge "File" [("name", PyStr.basename p); ("path", p)] :: rest.
Proof. unfold load_file, _create_file. simpl. eauto. Qed.

Lemma sent_after_file p fi q :
  In q (tl (load_file (p, fi))) ->
  sent_before (Merge "File" [("name", PyStr.basename p); ("path", p)])
              q (load_file (p, fi)).
Proof.
  destruct (load_file_head p fi) as (rest & ->). simpl. intros Hq.
  change (Merge "File" [("name", PyStr.basename p); ("path", p)] :: rest)
    with ([Merge "File" [("name", PyStr.basename p); ("path", p)]] ++ rest).
  apply sent_before_cross; [now left|assumption].
Qed.

Lemma load_file_tail p fi :
  tl (load_file (p, fi))
  = (if PyStr.truthy (get_package fi)
     then [MatchMergeRel (by_name "Package" (default "" (get_package fi)))
                         "CONTAINS" (by_path p)]
     else [])
    ++ [MatchMergeRel (Pat (Some "Project") []) "CONTAINS" (by_path p)]
    ++ flat_map (fun import_stmt =>
         _create_import import_stmt
         ++ _create_file_imports_relationship p import_stmt)
         (get_imports fi)
    ++ flat_map (load_class (get_package fi) p) (get_classes fi)
    ++ flat_map (load_interface (get_package fi) p) (get_interfaces fi).
Proof.
  unfold load_file, _create_file. simpl. now rewrite <- !app_assoc.
Qed.

Lemma in_load_file_class p fi c q :
  In c (get_classes fi) -> In q (load_class (get_package fi) p c) ->
  In q (tl (load_file (p, fi))).
Proof.
  intros Hc Hq. rewrite load_file_tail.
  do 3 (apply in_or_app; right). apply in_or_app; left.
  apply in_flat_map. eauto.
Qed.

Lemma in_load_file_interface p fi i q :
  In i (get_interfaces fi) -> In q (load_interface (get_package fi) p i) ->
  In q (tl (load_file (p, fi))).
Proof.
  intros Hi Hq. rewrite load_file_tail.
  do 4 (apply in_or_app; right). apply in_flat_map. eauto.
Qed.

Lemma in_tl {A} (x : A) l : In x (tl l) -> In x l.
Proof. destruct l; simpl; auto. Qed.

Lemma sent_in_class p fi c qa q :
  In c (get_classes fi) -> sent_before qa q (load_class (get_package fi) p c) ->
  sent_before qa q (load_file (p, fi)).
Proof.
  intros Hc Hs. unfold load_file.
  do 2 apply sent_before_app_r. apply sent_before_app_l.
  eapply sent_before_flat_map; eassumption.
Qed.

Lemma sent_in_interface p fi i qa q :
  In i (get_interfaces fi) ->
  sent_before qa q (load_interface (get_package fi) p i) ->
  sent_before qa q (load_file (p, fi)).
Proof.
  intros Hi Hs. unfold load_file.
  do 3 apply sent_before_app_r.
  eapply sent_before_flat_map; eassumption.
Qed.
End LoadFacts.

Section ContainmentFacts.
Import Model Cypher GraphUpsertV2.

Lemma in_file_statements project_data p fi q :
  In (p, fi) (files project_data) -> In q (tl (load_file (p, fi))) ->
  In q (flat_map load_file (files project_data)).
Proof.
  intros He Hq. eapply in_statements_file; [eassumption|]. now apply in_tl.
Qed.

Lemma in_statements project_data q :
  In q (flat_map load_file (files project_data)) -> In q (statements project_data).
Proof.
  intros Hq. rewrite statements_parts.
  do 3 (apply in_or_app; right). apply in_or_app. now left.
Qed.

Lemma file_merge_sent project_data p fi q :
  In (p, fi) (files project_data) -> In q (tl (load_file (p, fi))) ->
  sent_before (Merge "File" [("name", PyStr.basename p); ("path", p)])
              q (statements project_data).
Proof.
  intros He Hq. eapply sent_in_file; [eassumption|]. now apply sent_after_file.
Qed.

(** The statements of one class, seen from its first one. *)
Lemma load_class_parts pkg p c :
  load_class pkg p c
  = [Merge "Class" [("name", class_name c);
                    ("fullName", full_name pkg (class_name c));
                    ("extends", PyStr.or_empty (class_extends c))]]
    ++ ((if PyStr.truthy pkg
         then [MatchMergeRel (by_name "Package" (default "" pkg)) "CONTAINS"
                 (by_full_name (Some "Class") (full_name pkg (class_name c)))]
         else [])
        ++ [MatchMergeRel (by_path p) "CONTAINS"
              (by_full_name (Some "Class") (full_name pkg (class_name c)))])
    ++ flat_map (fun field_info =>
         _create_field (FieldProperties (field_name field_info)
                          (field_type field_info)
                          (full_name pkg (class_name c)))
                       (full_name pkg (class_name c))) (class_fields c)
    ++ load_methods (full_name pkg (class_name c)) (class_methods c)
    ++ (if PyStr.truthy (class_extends c)
        then _create_extends_relationship (full_name pkg (class_name c))
                                          (default "" (class_extends c))
        else [])
    ++ flat_map (_create_implements_relationship (full_name pkg (class_name c)))
                (class_implements c).
Proof.
  unfold load_class, _create_class. cbv zeta. simpl cp_name. simpl cp_fullName.
  simpl cp_extends. now rewrite <- !app_assoc.
Qed.

Lemma load_interface_parts pkg p i :
  load_interface pkg p i
  = [Merge "Interface" [("name", interface_name i);
                        ("fullName", full_name pkg (interface_name i))]]
    ++ ((if PyStr.truthy pkg
         then [MatchMergeRel (by_name "Package" (default "" pkg)) "CONTAINS"
                 (by_full_name (Some "Interface")
                               (full_name pkg (interface_name i)))]
         else [])
        ++ [MatchMergeRel (by_path p) "CONTAINS"
              (by_full_name (Some "Interface") (full_name pkg (interface_name i)))])
    ++ load_methods (full_name pkg (interface_name i)) (interface_methods i)
    ++ flat_map (_create_extends_relationship (full_name pkg (interface_name i)))
                (interface_extends i).
Proof.
  unfold load_interface, _create_interface. cbv zeta. simpl ip_name.
  simpl ip_fullName. now rewrite <- !app_assoc.
Qed.

Lemma type_merge_sent project_data p fi qs q qa :
  In (p, fi) (files project_data) ->
  In qs (map (load_class (get_package fi) p) (get_classes fi)
         ++ map (load_interface (get_package fi) p) (get_interfaces fi)) ->
  sent_before qa q qs ->
  sent_before qa q (statements project_data).
Proof.
  intros He Hqs Hs. eapply sent_in_file; [eassumption|].
  apply in_app_or in Hqs. destruct Hqs as [Hqs|Hqs];
    apply in_map_iff in Hqs; destruct Hqs as (x & <- & Hx).
  - eapply sent_in_class; eassumption.
  - eapply sent_in_interface; eassumption.
Qed.

Lemma in_type_statements project_data p fi qs q :
  In (p, fi) (files project_data) ->
  In qs (map (load_class (get_package fi) p) (get_classes fi)
         ++ map (load_interface (get_package fi) p) (get_interfaces fi)) ->
  In q qs ->
  In q (tl (load_file (p, fi))).
Proof.
  intros He Hqs Hq.
  apply in_app_or in Hqs. destruct Hqs as [Hqs|Hqs];
    apply in_map_iff in Hqs; destruct Hqs as (x & <- & Hx).
  - eapply in_load_file_class; eassumption.
  - eapply in_load_file_interface; eassumption.
Qed.
End ContainmentFacts.

(** X8. Every entry of the files mapping, parsed or not, has its File node
    after a load, the Project node contains it, and so does the Package node
    of its package when it has one, whatever the store held before and
    wherever the entry stands in the mapping. *)
Theorem files_are_contained (project_data : Model.project_structure)
  (g : Cypher.store) (p : string) (fi : Model.file_info) :
  In (p, fi) (Model.files project_data) ->
  Cypher.present (Cypher.Pat (Some "File") [("name", PyStr.basename p); ("path", p)])
                 (GraphUpsertV2.loaded project_data g)
  /\ Cypher.linked (Cypher.Pat (Some "Project") []) "CONTAINS"
                   (GraphUpsertV2.by_path p)
                   (GraphUpsertV2.loaded project_data g)
  /\ (PyStr.truthy (Model.get_package fi) = true ->
      Cypher.linked
        (GraphUpsertV2.by_name "Package" (default "" (Model.get_package fi)))
        "CONTAINS" (GraphUpsertV2.by_path p)
        (GraphUpsertV2.loaded project_data g)).
Proof.
  intros He. rewrite loaded_statements.
  pose proof (statements_keep project_data) as Hk.
  split; [|split].
  - eapply run_makes; [exact Hk| |].
    + apply in_statements. eapply in_statements_file; [eassumption|].
      destruct (load_file_head p fi) as (rest & ->). now left.
    + solve_makes.
  - assert (Hq : In (Cypher.MatchMergeRel (Cypher.Pat (Some "Project") [])
                       "CONTAINS" (GraphUpsertV2.by_path p))
                    (tl (GraphUpsertV2.load_file (p, fi)))).
    { rewrite load_file_tail. apply in_or_app; right. now left. }
    eapply run_links; [exact Hk| | | |].
    + apply sent_after_project. eapply in_file_statements; eassumption.
    + solve_makes.
    + eapply file_merge_sent; eassumption.
    + solve_makes.
  - intros Ht.
    assert (Hq : In (Cypher.MatchMergeRel
                       (GraphUpsertV2.by_name "Package"
                          (default "" (Model.get_package fi)))
                       "CONTAINS" (GraphUpsertV2.by_path p))
                    (tl (GraphUpsertV2.load_file (p, fi)))).
    { rewrite load_file_tail, Ht. now left. }
    eapply run_links; [exact Hk| | | |].
    + eapply sent_after_package; [eassumption|assumption|].
      eapply in_file_statements; eassumption.
    + solve_makes.
    + eapply file_merge_sent; eassumption.
    + solve_makes.
Qed.

Lemma files_are_contained_witness :
  Cypher.linked (GraphUpsertV2.by_name "Package" "p") "CONTAINS"
                (GraphUpsertV2.by_path "A.java")
                (GraphUpsertV2.loaded
                   (Samples.project [Samples.A_java; Samples.B_java]) Cypher.empty).
Proof.
  assert (He : In (hd Samples.A_java
                      (JavaAstV2.analyze_relationships
                         [Samples.A_java; Samples.B_java]))
                  (Model.files (Samples.project [Samples.A_java; Samples.B_java])))
    by (left; reflexivity).
  destruct (files_are_contained _ Cypher.empty _ _ He) as (_ & _ & H).
  apply H. reflexivity.
Defined.

(** X9. Every class and every interface of every entry has its node after a
    load, and its file contains it, and so does the Package node of its
    package when the file has one, whatever the order of the files: only
    the inheritance relationships depend on that order. *)
Theorem types_are_contained (project_data : Model.project_structure)
  (g : Cypher.store) (p : string) (fi : Model.file_info) :
  In (p, fi) (Model.files project_data) ->
  let G := GraphUpsertV2.loaded project_data g in
  let pkg := Model.get_package fi in
  (forall c, In c (Model.get_classes fi) ->
     let full := Model.full_name pkg (Model.class_name c) in
     Cypher.present (Cypher.Pat (Some "Class")
                       [("name", Model.class_name c); ("fullName", full);
                        ("extends", PyStr.or_empty (Model.class_extends c))]) G
     /\ Cypher.linked (GraphUpsertV2.by_path p) "CONTAINS"
                      (GraphUpsertV2.by_full_name (Some "Class") full) G
     /\ (PyStr.truthy pkg = true ->
         Cypher.linked (GraphUpsertV2.by_name "Package" (default "" pkg)) "CONTAINS"
                       (GraphUpsertV2.by_full_name (Some "Class") full) G))
  /\ (forall i, In i (Model.get_interfaces fi) ->
        let full := Model.full_name pkg (Model.interface_name i) in
        Cypher.present (Cypher.Pat (Some "Interface")
                          [("name", Model.interface_name i); ("fullName", full)]) G
        /\ Cypher.linked (GraphUpsertV2.by_path p) "CONTAINS"
                         (GraphUpsertV2.by_full_name (Some "Interface") full) G
        /\ (PyStr.truthy pkg = true ->
            Cypher.linked (GraphUpsertV2.by_name "Package" (default "" pkg))
                          "CONTAINS"
                          (GraphUpsertV2.by_full_name (Some "Interface") full) G)).
Proof.
  intros He G pkg. unfold G. rewrite loaded_statements.
  pose proof (statements_keep project_data) as Hk.
  split.
  - intros c Hc. cbv zeta.
    assert (Hqs : In (GraphUpsertV2.load_class pkg p c)
                     (map (GraphUpsertV2.load_class pkg p) (Model.get_classes fi)
                      ++ map (GraphUpsertV2.load_interface pkg p)
                             (Model.get_interfaces fi)))
      by (apply in_or_app; left; now apply in_map).
    split; [|split].
    + eapply run_makes; [exact Hk| |].
      * apply in_statements. eapply in_file_statements; [eassumption|].
        eapply in_type_statements; [eassumption|exact Hqs|].
        rewrite load_class_parts. now left.
      * solve_makes.
    + eapply run_links; [exact Hk| | | |].
      * eapply file_merge_sent; [eassumption|].
        eapply in_type_statements; [eassumption|exact Hqs|].
        rewrite load_class_parts. apply in_or_app; right.
        apply in_or_app; left. apply in_or_app; right. now left.
      * solve_makes.
      * eapply type_merge_sent; [eassumption|exact Hqs|].
        rewrite load_class_parts. rewrite app_assoc. apply sent_before_app_l.
        apply sent_before_cross; [now left|]. apply in_or_app; right. now left.
      * solve_makes.
    + intros Ht. eapply run_links; [exact Hk| | | |].
      * eapply sent_after_package; [eassumption|exact Ht|].
        eapply in_file_statements; [eassumption|].
        eapply in_type_statements; [eassumption|exact Hqs|].
        rewrite load_class_parts. fold pkg. rewrite Ht.
        apply in_or_app; right. apply in_or_app; left. now left.
      * solve_makes.
      * eapply type_merge_sent; [eassumption|exact Hqs|].
        rewrite load_class_parts. fold pkg. rewrite Ht.
        rewrite app_assoc. apply sent_before_app_l.
        apply sent_before_cross; [now left|]. now left.
      * solve_makes.
  - intros i Hi. cbv zeta.
    assert (Hqs : In (GraphUpsertV2.load_interface pkg p i)
                     (map (GraphUpsertV2.load_class pkg p) (Model.get_classes fi)
                      ++ map (GraphUpsertV2.load_interface pkg p)
                             (Model.get_interfaces fi)))
      by (apply in_or_app; right; now apply in_map).
    split; [|split].
    + eapply run_makes; [exact Hk| |].
      * apply in_statements. eapply in_file_statements; [eassumption|].
        eapply in_type_statements; [eassumption|exact Hqs|].
        rewrite load_interface_parts. now left.
      * solve_makes.
    + eapply run_links; [exact Hk| | | |].
      * eapply file_merge_sent; [eassumption|].
        eapply in_type_statements; [eassumption|exact Hqs|].
        rewrite load_interface_parts. apply in_or_app; right.
        apply in_or_app; left. apply in_or_app; right. now left.
      * solve_makes.
      * eapply type_merge_sent; [eassumption|exact Hqs|].
        rewrite load_interface_parts. rewrite app_assoc. apply sent_before_app_l.
        apply sent_before_cross; [now left|]. apply in_or_app; right. now left.
      * solve_makes.
    + intros Ht. eapply run_links; [exact Hk| | | |].
      * eapply sent_after_package; [eassumption|exact Ht|].
        eapply in_file_statements; [eassumption|].
        eapply in_type_statements; [eassumption|exact Hqs|].
        rewrite load_interface_parts. fold pkg. rewrite Ht.
        apply in_or_app; right. apply in_or_app; left. now left.
      * solve_makes.
      * eapply type_merge_sent; [eassumption|exact Hqs|].
        rewrite load_interface_parts. fold pkg. rewrite Ht.
        rewrite app_assoc. apply sent_before_app_l.
        apply sent_before_cross; [now left|]. now left.
      * solve_makes.
Qed.

Lemma types_are_contained_witness :
  Cypher.linked (GraphUpsertV2.by_path "A.java") "CONTAINS"
                (GraphUpsertV2.by_full_name (Some "Class") "p.A")
                (GraphUpsertV2.loaded
                   (Samples.project [Samples.A_java; Samples.B_java]) Cypher.empty).
Proof.
  assert (He : In (hd Samples.A_java
                      (JavaAstV2.analyze_relationships
                         [Samples.A_java; Samples.B_java]))
                  (Model.files (Samples.project [Samples.A_java; Samples.B_java])))
    by (left; reflexivity).
  destruct (types_are_contained _ Cypher.empty _ _ He) as (H & _).
  apply (H (Model.ClassInfo "A" None ["I"] [] [])). left. reflexivity.
Defined.

Section MemberLinkFacts.
Import Model Cypher GraphUpsertV2.

Lemma load_methods_unfold full m :
  load_methods full [m]
  = Merge "Method" (method_node_props (build_method_properties full m))
    :: MatchMergeRel (by_full_name None full) "DECLARES"
         (by_id "Method" (method_id (build_method_properties full m)))
    :: load_parameters (method_id (build_method_properties full m)) (parameters m).
Proof. unfold load_methods. simpl. now rewrite app_nil_r. Qed.

Lemma sent_in_methods full ms m qa q :
  In m ms -> sent_before qa q (load_methods full [m]) ->
  sent_before qa q (load_methods full ms).
Proof.
  intros Hm Hs. unfold load_methods in *. simpl in Hs. rewrite app_nil_r in Hs.
  eapply sent_before_flat_map; [exact Hm|exact Hs].
Qed.

Lemma in_methods full ms m q :
  In m ms -> In q (load_methods full [m]) -> In q (load_methods full ms).
Proof.
  intros Hm Hq. unfold load_methods in *. simpl in Hq. rewrite app_nil_r in Hq.
  apply in_flat_map. eauto.
Qed.

Lemma declares_in_methods full m :
  In (MatchMergeRel (by_full_name None full) "DECLARES"
        (by_id "Method" (method_id (build_method_properties full m))))
     (load_methods full [m]).
Proof. rewrite load_methods_unfold. right. now left. Qed.

Lemma parameter_statements mid pi ps :
  In pi ps ->
  sent_before
    (Merge "Parameter" [("name", param_name pi);
                        ("type", PyStr.or_empty (param_type pi));
                        ("id", mid +:+ "." +:+ param_name pi);
                        ("method_id", mid)])
    (MatchMergeRel (by_id "Method" mid) "HAS_PARAMETER"
                   (by_id "Parameter" (mid +:+ "." +:+ param_name pi)))
    (load_parameters mid ps).
Proof.
  intros Hpi. unfold load_parameters.
  eapply sent_before_flat_map; [exact Hpi|]. apply sent_before_pair.
Qed.

Lemma in_parameter_statements mid pi ps :
  In pi ps ->
  In (MatchMergeRel (by_id "Method" mid) "HAS_PARAMETER"
                    (by_id "Parameter" (mid +:+ "." +:+ param_name pi)))
     (load_parameters mid ps).
Proof.
  intros Hpi. unfold load_parameters. apply in_flat_map. exists pi.
  split; [assumption|]. right. now left.
Qed.

(** Methods and parameters, given that the owner's node is made by [owner]
    and that [qs], the statements of the owner, hold those of its methods
    after [owner]. *)
Lemma methods_are_linked qs g owner full ms :
  keeps qs ->
  makes owner (by_full_name None full) ->
  (forall q, In q (load_methods full ms) -> sent_before owner q qs) ->
  (forall qa q, sent_before qa q (load_methods full ms) -> sent_before qa q qs) ->
  methods_linked full ms (run qs g).
Proof.
  intros Hk Hown Hafter Hlift m Hm. cbv zeta. split.
  - eapply run_links; [exact Hk| |exact Hown| |].
    + apply Hafter. eapply in_methods; [exact Hm|]. apply declares_in_methods.
    + apply Hlift. eapply sent_in_methods; [exact Hm|].
      rewrite load_methods_unfold. apply sent_before_pair.
    + unfold method_node_props. solve_makes.
  - intros pi Hpi. eapply run_links; [exact Hk| | | |].
    + apply Hlift. eapply sent_in_methods; [exact Hm|].
      rewrite load_methods_unfold.
      change (?a :: ?b :: ?c) with ([a; b] ++ c).
      apply sent_before_cross; [now left|].
      now apply in_parameter_statements.
    + unfold method_node_props. solve_makes.
    + apply Hlift. eapply sent_in_methods; [exact Hm|].
      rewrite load_methods_unfold.
      change (?a :: ?b :: ?c) with ([a; b] ++ c).
      apply sent_before_app_r. now apply parameter_statements.
    + solve_makes.
Qed.
End MemberLinkFacts.

(** X10. Every member of every type of every entry is linked to its owner
    after a load: each field of a class by HAS_FIELD, each method of a class
    or interface by DECLARES, each parameter to its method by HAS_PARAMETER,
    whatever the order of the files. *)
Theorem members_are_linked (project_data : Model.project_structure)
  (g : Cypher.store) (p : string) (fi : Model.file_info) :
  In (p, fi) (Model.files project_data) ->
  let G := GraphUpsertV2.loaded project_data g in
  let pkg := Model.get_package fi in
  (forall c, In c (Model.get_classes fi) ->
     let full := Model.full_name pkg (Model.class_name c) in
     (forall f, In f (Model.class_fields c) ->
        Cypher.linked (GraphUpsertV2.by_full_name (Some "Class") full) "HAS_FIELD"
                      (GraphUpsertV2.by_id "Field"
                         (full +:+ "." +:+ Model.field_name f)) G)
     /\ GraphUpsertV2.methods_linked full (Model.class_methods c) G)
  /\ (forall i, In i (Model.get_interfaces fi) ->
        GraphUpsertV2.methods_linked
          (Model.full_name pkg (Model.interface_name i))
          (Model.interface_methods i) G).
Proof.
  intros He G pkg. unfold G. rewrite loaded_statements.
  pose proof (statements_keep project_data) as Hk.
  split.
  - intros c Hc. cbv zeta.
    assert (Hqs : In (GraphUpsertV2.load_class pkg p c)
                     (map (GraphUpsertV2.load_class pkg p) (Model.get_classes fi)
                      ++ map (GraphUpsertV2.load_interface pkg p)
                             (Model.get_interfaces fi)))
      by (apply in_or_app; left; now apply in_map).
    split.
    + intros f Hf. eapply run_links; [exact Hk| | | |].
      * eapply type_merge_sent; [eassumption|exact Hqs|].
        rewrite load_class_parts. apply sent_before_cross; [now left|].
        apply in_or_app; right. apply in_or_app; left.
        apply in_flat_map. exists f. split; [exact Hf|]. right. now left.
      * solve_makes.
      * eapply type_merge_sent; [eassumption|exact Hqs|].
        rewrite load_class_parts. do 2 apply sent_before_app_r.
        apply sent_before_app_l.
        eapply sent_before_flat_map; [exact Hf|]. apply sent_before_pair.
      * solve_makes.
    + apply (methods_are_linked _ _
               (Cypher.Merge "Class"
                  [("name", Model.class_name c);
                   ("fullName", Model.full_name pkg (Model.class_name c));
                   ("extends", PyStr.or_empty (Model.class_extends c))]));
        [exact Hk| | |].
      * solve_makes.
      * intros q Hq. eapply type_merge_sent; [eassumption|exact Hqs|].
        rewrite load_class_parts. apply sent_before_cross; [now left|].
        do 2 (apply in_or_app; right). apply in_or_app; left. exact Hq.
      * intros qa q Hs. eapply type_merge_sent; [eassumption|exact Hqs|].
        rewrite load_class_parts. do 3 apply sent_before_app_r.
        apply sent_before_app_l. exact Hs.
  - intros i Hi.
    assert (Hqs : In (GraphUpsertV2.load_interface pkg p i)
                     (map (GraphUpsertV2.load_class pkg p) (Model.get_classes fi)
                      ++ map (GraphUpsertV2.load_interface pkg p)
                             (Model.get_interfaces fi)))
      by (apply in_or_app; right; now apply in_map).
    apply (methods_are_linked _ _
             (Cypher.Merge "Interface"
                [("name", Model.interface_name i);
                 ("fullName", Model.full_name pkg (Model.interface_name i))]));
      [exact Hk| | |].
    + solve_makes.
    + intros q Hq. eapply type_merge_sent; [eassumption|exact Hqs|].
      rewrite load_interface_parts. apply sent_before_cross; [now left|].
      apply in_or_app; right. apply in_or_app; left. exact Hq.
    + intros qa q Hs. eapply type_merge_sent; [eassumption|exact Hqs|].
      rewrite load_interface_parts. do 2 apply sent_before_app_r.
      apply sent_before_app_l. exact Hs.
Qed.

Lemma members_are_linked_witness :
  Cypher.linked (GraphUpsertV2.by_id "Method" "p.Over.f") "HAS_PARAMETER"
                (GraphUpsertV2.by_id "Parameter" "p.Over.f.x")
                (GraphUpsertV2.loaded (Samples.project [Samples.Over_java])
                                      Cypher.empty).
Proof.
  assert (He : In (hd Samples.Over_java
                      (JavaAstV2.analyze_relationships [Samples.Over_java]))
                  (Model.files (Samples.project [Samples.Over_java])))
    by (left; reflexivity).
  destruct (members_are_linked _ Cypher.empty _ _ He) as (H & _).
  destruct (H (Model.ClassInfo "Over" None [] [Samples.f_int; Samples.f_void] []))
    as (_ & Hm); [left; reflexivity|].
  destruct (Hm Samples.f_void) as (_ & Hp); [right; left; reflexivity|].
  apply (Hp (Model.ParamInfo "x" (Some "int"))). left. reflexivity.
Defined.

(** X11. Every import string of every entry has its Import node after a
    load, resolved or not, and the file is linked to it by IMPORTS. *)
Theorem imports_are_linked (project_data : Model.project_structure)
  (g : Cypher.store) (p : string) (fi : Model.file_info) (imp : string) :
  In (p, fi) (Model.files project_data) ->
  In imp (Model.get_imports fi) ->
  Cypher.present (GraphUpsertV2.by_name "Import" imp)
                 (GraphUpsertV2.loaded project_data g)
  /\ Cypher.linked (GraphUpsertV2.by_path p) "IMPORTS"
                   (GraphUpsertV2.by_name "Import" imp)
                   (GraphUpsertV2.loaded project_data g).
Proof.
  intros He Himp. rewrite loaded_statements.
  pose proof (statements_keep project_data) as Hk.
  assert (Hin : forall q,
             In q (GraphUpsertV2._create_import imp
                   ++ GraphUpsertV2._create_file_imports_relationship p imp) ->
             In q (tl (GraphUpsertV2.load_file (p, fi)))).
  { intros q Hq. rewrite load_file_tail. do 2 (apply in_or_app; right).
    apply in_or_app; left. apply in_flat_map. eauto. }
  split.
  - eapply run_makes; [exact Hk| |].
    + apply in_statements. eapply in_file_statements; [eassumption|].
      apply Hin. now left.
    + solve_makes.
  - eapply run_links; [exact Hk| | | |].
    + eapply file_merge_sent; [eassumption|]. apply Hin. right. now left.
    + solve_makes.
    + eapply sent_in_file; [eassumption|].
      unfold GraphUpsertV2.load_file. apply sent_before_app_r.
      apply sent_before_app_l.
      eapply sent_before_flat_map; [exact Himp|]. apply sent_before_pair.
    + solve_makes.
Qed.

Lemma imports_are_linked_witness :
  Cypher.linked (GraphUpsertV2.by_path "L.java") "IMPORTS"
                (GraphUpsertV2.by_name "Import" "java.util.List")
                (GraphUpsertV2.loaded (Samples.project [Samples.L_java])
                                      Cypher.empty).
Proof.
  assert (He : In (hd Samples.L_java
                      (JavaAstV2.analyze_relationships [Samples.L_java]))
                  (Model.files (Samples.project [Samples.L_java])))
    by (left; reflexivity).
  apply (imports_are_linked _ Cypher.empty _ _ "java.util.List" He).
  left. reflexivity.
Defined.

(** ** File dependencies in the graph *)

Section DependsFacts.
Import Model Cypher GraphUpsertV2.

Lemma fold_add_rel_origin new rs r :
  In r (fold_left add_rel new rs) -> In r rs \/ In r new.
Proof.
  revert rs. induction new as [|r0 new IH]; intros rs H; [now left|].
  simpl in H. apply IH in H. destruct H as [H|H]; [|right; now right].
  unfold add_rel in H. destruct (decide (r0 ∈ rs)); [now left|].
  apply in_app_or in H. destruct H as [H|[<-|[]]]; [now left|right; now left].
Qed.

Lemma rows_type xs ys t r : In r (rows xs ys t) -> rtype r = t.
Proof.
  unfold rows. intros H. apply in_flat_map in H. destruct H as (x & _ & H).
  apply in_map_iff in H. destruct H as (y & <- & _). reflexivity.
Qed.

Lemma merge_rels_origin xs ys t g r :
  In r (rels (merge_rels xs ys t g)) -> In r (rels g) \/ rtype r = t.
Proof.
  simpl. intros H. apply fold_add_rel_origin in H.
  destruct H as [H|H]; [now left|right; eapply rows_type; eassumption].
Qed.

Lemma exec_rel_origin g q r :
  In r (rels (exec g q)) -> In r (rels g) \/ links q = Some (rtype r).
Proof.
  destruct q as [|l ps|l ps|a t b|a l ps t]; simpl.
  - intros [].
  - auto.
  - unfold merge_node. destruct (match_nodes (Pat (Some l) ps) g); simpl; auto.
  - intros H. apply fold_add_rel_origin in H. destruct H as [H|H]; [now left|].
    right. f_equal. symmetry. eapply rows_type; eassumption.
  - destruct (match_nodes a g) eqn:Hm; [auto|].
    intros H. apply merge_rels_origin in H. destruct H as [H|H].
    + left. unfold merge_node in H.
      destruct (match_nodes (Pat (Some l) ps) g); exact H.
    + right. now rewrite H.
Qed.

Lemma run_rel_origin qs g r :
  In r (rels (run qs g)) ->
  In r (rels g) \/ exists q, In q qs /\ links q = Some (rtype r).
Proof.
  revert g. induction qs as [|q qs IH]; intros g H; [now left|].
  unfold run in H. simpl in H. apply IH in H. destruct H as [H|(q' & Hq' & Hc)].
  - apply exec_rel_origin in H. destruct H as [H|H]; [now left|].
    right. exists q. split; [now left|assumption].
  - right. exists q'. split; [now right|assumption].
Qed.

Lemma load_file_links entry q t :
  In q (load_file entry) -> links q = Some t ->
  In t ["CONTAINS"; "IMPORTS"; "HAS_FIELD"; "DECLARES"; "HAS_PARAMETER";
        "EXTENDS"; "IMPLEMENTS"].
Proof.
  destruct entry as [file_path file_info].
  unfold load_file, load_class, load_interface, load_methods, load_parameters,
    _create_file, _create_import, _create_file_imports_relationship,
    _create_class, _create_field, _create_interface, _create_method,
    _create_parameter, _create_extends_relationship,
    _create_implements_relationship.
  intros H Hc. split_in; simpl in Hc; try discriminate Hc;
    injection Hc as <-; simpl; tauto.
Qed.

Lemma load_dependencies_spec p fi q :
  In q (load_dependencies (p, fi)) ->
  exists d, In d (get_dependencies fi) /\ dep_type d = "import"
            /\ PyStr.truthy (dep_file d) = true
            /\ q = MatchMergeRel (by_path p) "DEPENDS_ON"
                   (by_path (default "" (dep_file d))).
Proof.
  unfold load_dependencies. intros H. apply in_flat_map in H.
  destruct H as (d & Hd & H). exists d.
  destruct (String.eqb (dep_type d) "import") eqn:Hty; simpl in H; [|destruct H].
  destruct (PyStr.truthy (dep_file d)) eqn:Ht; simpl in H; [|destruct H].
  destruct H as [<-|[]]. apply String.eqb_eq in Hty. auto.
Qed.

Lemma in_load_dependencies p fi d :
  In d (get_dependencies fi) -> dep_type d = "import" ->
  PyStr.truthy (dep_file d) = true ->
  In (MatchMergeRel (by_path p) "DEPENDS_ON" (by_path (default "" (dep_file d))))
     (load_dependencies (p, fi)).
Proof.
  intros Hd Hty Ht. unfold load_dependencies. apply in_flat_map. exists d.
  split; [assumption|]. rewrite Hty, Ht. now left.
Qed.

Lemma file_merge_before_dependencies project_data p fi q :
  In (p, fi) (files project_data) ->
  In q (flat_map load_dependencies (files project_data)) ->
  sent_before (Merge "File" [("name", PyStr.basename p); ("path", p)])
              q (statements project_data).
Proof.
  intros He Hq. rewrite statements_parts. do 3 apply sent_before_app_r.
  apply sent_before_cross; [|assumption].
  eapply in_statements_file; [eassumption|].
  destruct (load_file_head p fi) as (rest & ->). now left.
Qed.

Lemma in_rows_inv xs ys t r :
  In r (rows xs ys t) -> exists x y, In x xs /\ In y ys /\ r = Rel x t y.
Proof.
  unfold rows. intros H. apply in_flat_map in H. destruct H as (x & Hx & H).
  apply in_map_iff in H. destruct H as (y & <- & Hy). exists x, y. auto.
Qed.

Lemma in_match_nodes p g i :
  In i (match_nodes p g) ->
  exists n, In n (nodes g) /\ matches p n = true /\ nid n = i.
Proof.
  unfold match_nodes. intros H. apply in_map_iff in H.
  destruct H as (n & <- & Hn). apply filter_In in Hn. exists n. tauto.
Qed.

Lemma merge_rels_ends xs ys t g r :
  In r (rels (merge_rels xs ys t g)) ->
  In r (rels g) \/ exists x y, In x xs /\ In y ys /\ r = Rel x t y.
Proof.
  unfold merge_rels. simpl. intros H. apply fold_add_rel_origin in H.
  destruct H as [H|H]; [now left|right; now apply in_rows_inv].
Qed.

(** A relationship a statement adds goes from a node matching the first
    pattern of the statement to a node matching the second. *)
Lemma exec_rel_ends g q r :
  In r (rels (exec g q)) ->
  In r (rels g)
  \/ exists a t b x y,
       ends q = Some (a, t, b)
       /\ In x (nodes (exec g q)) /\ matches a x = true
       /\ In y (nodes (exec g q)) /\ matches b y = true
       /\ r = Rel (nid x) t (nid y).
Proof.
  destruct q as [|l ps|l ps|a t b|a l ps t].
  - intros [].
  - simpl. auto.
  - simpl. unfold merge_node.
    destruct (match_nodes (Pat (Some l) ps) g); simpl; auto.
  - intros H. apply merge_rels_ends in H. destruct H as [H|(i & j & Hi & Hj & ->)];
      [now left|right].
    apply in_match_nodes in Hi. destruct Hi as (x & Hx & Hmx & <-).
    apply in_match_nodes in Hj. destruct Hj as (y & Hy & Hmy & <-).
    exists a, t, b, x, y. repeat split; assumption.
  - assert (He : match_nodes a g = [] \/
                 exec g (MatchMergeNodeRel a l ps t)
                 = merge_rels (match_nodes a g)
                     (match_nodes (Pat (Some l) ps) (merge_node l ps g)) t
                     (merge_node l ps g)).
    { unfold exec. destruct (match_nodes a g); [now left|now right]. }
    destruct He as [He|He].
    + unfold exec. rewrite He. auto.
    + rewrite He. intros H. apply merge_rels_ends in H.
      destruct H as [H|(i & j & Hi & Hj & ->)].
      * left. unfold merge_node in H.
        destruct (match_nodes (Pat (Some l) ps) g); exact H.
      * right. apply in_match_nodes in Hi. destruct Hi as (x & Hx & Hmx & <-).
        apply in_match_nodes in Hj. destruct Hj as (y & Hy & Hmy & <-).
        exists a, t, (Pat (Some l) ps), x, y. repeat split; try assumption.
        now apply (exec_keeps_nodes g (Merge l ps)).
Qed.

Lemma run_rel_ends qs g r :
  keeps qs ->
  In r (rels (run qs g)) ->
  In r (rels g)
  \/ exists q a t b x y,
       In q qs /\ ends q = Some (a, t, b)
       /\ In x (nodes (run qs g)) /\ matches a x = true
       /\ In y (nodes (run qs g)) /\ matches b y = true
       /\ r = Rel (nid x) t (nid y).
Proof.
  revert g. induction qs as [|q qs IH]; intros g Hk H; [now left|].
  apply keeps_cons in Hk. destruct Hk as [Hq Hk].
  change (run (q :: qs) g) with (run qs (exec g q)) in *.
  apply IH in H; [|assumption].
  destruct H as [H|(q' & a & t & b & x & y & Hq' & He & Hx & Hmx & Hy & Hmy & ->)].
  - apply exec_rel_ends in H.
    destruct H as [H|(a & t & b & x & y & He & Hx & Hmx & Hy & Hmy & ->)];
      [now left|right].
    exists q, a, t, b, x, y.
    repeat split; try assumption; [now left| |]; now apply run_keeps_nodes.
  - right. exists q', a, t, b, x, y.
    repeat split; try assumption. now right.
Qed.
End DependsFacts.

(** The relationship statement of a resolved import is sent after both File
    nodes are merged. *)
Lemma depends_statement_links (project_data : Model.project_structure)
  (g : Cypher.store) (p f : string) (fi fi' : Model.file_info) :
  In (p, fi) (Model.files project_data) ->
  In (f, fi') (Model.files project_data) ->
  In (Cypher.MatchMergeRel (GraphUpsertV2.by_path p) "DEPENDS_ON"
                           (GraphUpsertV2.by_path f))
     (flat_map GraphUpsertV2.load_dependencies (Model.files project_data)) ->
  Cypher.linked (GraphUpsertV2.by_path p) "DEPENDS_ON" (GraphUpsertV2.by_path f)
                (GraphUpsertV2.loaded project_data g).
Proof.
  intros He He' Hq. rewrite loaded_statements.
  eapply run_links; [apply statements_keep| | | |].
  - apply (file_merge_before_dependencies _ p fi); assumption.
  - solve_makes.
  - apply (file_merge_before_dependencies _ f fi'); assumption.
  - solve_makes.
Qed.

(** X12. A dependency record of type "import" that carries a non-empty file
    pointer naming an entry of the mapping gives, after a load, a DEPENDS_ON
    relationship from the File node of the importing entry to the File node
    of the entry pointed at: the pass over the dependencies is sent after
    every file is merged. *)
Theorem import_dependency_is_loaded (project_data : Model.project_structure)
  (g : Cypher.store) (p : string) (fi : Model.file_info)
  (d : Model.dependency) (f : string) (fi' : Model.file_info) :
  In (p, fi) (Model.files project_data) ->
  In d (Model.get_dependencies fi) ->
  Model.dep_type d = "import" ->
  Model.dep_file d = Some f -> f <> "" ->
  In (f, fi') (Model.files project_data) ->
  Cypher.linked (GraphUpsertV2.by_path p) "DEPENDS_ON" (GraphUpsertV2.by_path f)
                (GraphUpsertV2.loaded project_data g).
Proof.
  intros He Hd Hty Hf Hne He'.
  assert (Ht : PyStr.truthy (Model.dep_file d) = true).
  { rewrite Hf. simpl. apply negb_true_iff, String.eqb_neq, Hne. }
  apply (depends_statement_links _ g p f fi fi'); [assumption|assumption|].
  apply in_flat_map. exists (p, fi). split; [assumption|].
  replace f with (default "" (Model.dep_file d)) by now rewrite Hf.
  now apply in_load_dependencies.
Qed.

Lemma import_dependency_is_loaded_witness :
  Cypher.linked (GraphUpsertV2.by_path "com/z/G.java") "DEPENDS_ON"
                (GraphUpsertV2.by_path "com/x/Y.java")
                (GraphUpsertV2.loaded
                   (Samples.project [Samples.Y_java; Samples.G_java]) Cypher.empty).
Proof.
  apply (import_dependency_is_loaded
           (Samples.project [Samples.Y_java; Samples.G_java]) Cypher.empty
           "com/z/G.java"
           (snd (nth 1 (JavaAstV2.analyze_relationships
                          [Samples.Y_java; Samples.G_java]) Samples.G_java))
           (Model.Dependency "import" "com.x.Y" (Some "com/x/Y.java"))
           "com/x/Y.java"
           (snd (hd Samples.Y_java
                    (JavaAstV2.analyze_relationships
                       [Samples.Y_java; Samples.G_java])))).
  - right. left. reflexivity.
  - vm_compute. left. reflexivity.
  - reflexivity.
  - reflexivity.
  - discriminate.
  - left. reflexivity.
Defined.

(** X13. Extraction to graph, end to end: when a parsed file F with a
    non-empty key declares a type of qualified name [fq], no later file
    registers that name, and a parsed file G imports [fq], then after
    resolving and loading the File node of G depends on the File node of F. *)
Theorem exact_import_gives_depends_on (root : string) (pre post : Model.files_map)
  (pF : string) (F : Model.file_record) (pG : string) (G : Model.file_record)
  (t fq : string) (g : Cypher.store) :
  let fs := pre ++ (pF, Model.Parsed F) :: post in
  pF <> "" ->
  In t (Model.declared_types (Model.Parsed F)) ->
  fq = Model.full_name (Model.package F) t ->
  (forall p' fi, In (p', fi) post -> ~ In fq (JavaAstV2.registered_names fi)) ->
  In (pG, Model.Parsed G) fs ->
  In fq (Model.imports G) ->
  Cypher.linked (GraphUpsertV2.by_path pG) "DEPENDS_ON" (GraphUpsertV2.by_path pF)
    (GraphUpsertV2.loaded
       (Model.ProjectStructure root (JavaAstV2.analyze_relationships fs)) g).
Proof.
  intros fs Hne Ht -> Hpost HG Himp.
  assert (Hcm : JavaAstV2.build_class_map fs !! Model.full_name (Model.package F) t
                = Some pF).
  { apply build_class_map_last; [|assumption].
    now apply (declared_type_registered (Model.Parsed F)). }
  assert (Hd : In (Model.Dependency "import"
                     (Model.full_name (Model.package F) t) (Some pF))
                  (JavaAstV2.file_dependencies (JavaAstV2.build_class_map fs)
                                               (Model.Parsed G))).
  { rewrite <- Hcm. apply import_dependency_in; [assumption|].
    right. rewrite Hcm. eauto. }
  assert (Htr : PyStr.truthy (Some pF) = true).
  { simpl. apply negb_true_iff, String.eqb_neq, Hne. }
  eapply (depends_statement_links _ g pG pF).
  - simpl. apply analyze_relationships_parsed. exact HG.
  - simpl. apply (analyze_relationships_parsed fs pF F).
    unfold fs. apply in_or_app. right. now left.
  - simpl. apply in_flat_map.
    exists (pG, Model.Parsed
                  (Model.set_dependencies G
                     (JavaAstV2.file_dependencies (JavaAstV2.build_class_map fs)
                                                  (Model.Parsed G)))).
    split; [apply analyze_relationships_parsed; exact HG|].
    apply (in_load_dependencies pG
             (Model.Parsed
                (Model.set_dependencies G
                   (JavaAstV2.file_dependencies (JavaAstV2.build_class_map fs)
                                                (Model.Parsed G))))
             (Model.Dependency "import" (Model.full_name (Model.package F) t)
                               (Some pF)));
      [exact Hd|reflexivity|exact Htr].
Qed.

Lemma exact_import_gives_depends_on_witness :
  Cypher.linked (GraphUpsertV2.by_path "com/z/G.java") "DEPENDS_ON"
                (GraphUpsertV2.by_path "com/x/Y.java")
                (GraphUpsertV2.loaded
                   (Model.ProjectStructure "/src/app"
                      (JavaAstV2.analyze_relationships
                         ([] ++ Samples.Y_java :: [Samples.G_java])))
                   Cypher.empty).
Proof.
  apply (exact_import_gives_depends_on "/src/app" [] [Samples.G_java]
           "com/x/Y.java"
           (Model.FileRecord "com/x/Y.java" (Some "com.x") []
              [Model.ClassInfo "Y" None [] [] []] [] None)
           "com/z/G.java"
           (Model.FileRecord "com/z/G.java" (Some "com.z")
              ["com.x.Y"; "java.util.List"]
              [Model.ClassInfo "G" None [] [] []] [] None)
           "Y" "com.x.Y" Cypher.empty).
  - discriminate.
  - simpl. now left.
  - reflexivity.
  - intros p' fi [[= <- <-]|[]]. vm_compute. intuition discriminate.
  - right. now left.
  - simpl. now left.
Defined.

(** X14. DEPENDS_ON comes from resolved imports only: every DEPENDS_ON
    relationship in the store after a load goes from a File node carrying
    the path of an entry to a File node carrying the file pointer of one of
    that entry's dependency records, and this record has type "import" and a
    non-empty file pointer.  Resolved extends and implements records give
    none: a model without an import record that carries a file ends with no
    DEPENDS_ON relationship, whatever its other records are. *)
Theorem depends_on_only_from_imports (project_data : Model.project_structure)
  (g : Cypher.store) :
  (forall r,
     In r (Cypher.rels (GraphUpsertV2.loaded project_data g)) ->
     Cypher.rtype r = "DEPENDS_ON" ->
     exists p fi d x y,
       In (p, fi) (Model.files project_data)
       /\ In d (Model.get_dependencies fi)
       /\ Model.dep_type d = "import"
       /\ PyStr.truthy (Model.dep_file d) = true
       /\ In x (Cypher.nodes (GraphUpsertV2.loaded project_data g))
       /\ Cypher.matches (GraphUpsertV2.by_path p) x = true
       /\ In y (Cypher.nodes (GraphUpsertV2.loaded project_data g))
       /\ Cypher.matches
            (GraphUpsertV2.by_path (default "" (Model.dep_file d))) y = true
       /\ r = Cypher.Rel (Cypher.nid x) "DEPENDS_ON" (Cypher.nid y))
  /\ ((forall p fi d,
         In (p, fi) (Model.files project_data) ->
         In d (Model.get_dependencies fi) ->
         Model.dep_type d = "import" ->
         PyStr.truthy (Model.dep_file d) = false) ->
      List.filter (fun r => String.eqb (Cypher.rtype r) "DEPENDS_ON")
                  (Cypher.rels (GraphUpsertV2.loaded project_data g)) = []).
Proof.
  assert (Hmain : forall r,
     In r (Cypher.rels (GraphUpsertV2.loaded project_data g)) ->
     Cypher.rtype r = "DEPENDS_ON" ->
     exists p fi d x y,
       In (p, fi) (Model.files project_data)
       /\ In d (Model.get_dependencies fi)
       /\ Model.dep_type d = "import"
       /\ PyStr.truthy (Model.dep_file d) = true
       /\ In x (Cypher.nodes (GraphUpsertV2.loaded project_data g))
       /\ Cypher.matches (GraphUpsertV2.by_path p) x = true
       /\ In y (Cypher.nodes (GraphUpsertV2.loaded project_data g))
       /\ Cypher.matches
            (GraphUpsertV2.by_path (default "" (Model.dep_file d))) y = true
       /\ r = Cypher.Rel (Cypher.nid x) "DEPENDS_ON" (Cypher.nid y)).
  { intros r Hr Hty. rewrite loaded_statements in Hr |- *.
    apply run_rel_ends in Hr; [|apply statements_keep].
    destruct Hr
      as [[]|(q & a & t & b & x & y & Hq & He & Hx & Hmx & Hy & Hmy & ->)].
    simpl in Hty. subst t.
    assert (Hl : Cypher.links q = Some "DEPENDS_ON")
      by (destruct q; simpl in He |- *; try discriminate He;
          now injection He as _ -> _).
    rewrite statements_parts in Hq.
    apply in_app_or in Hq. destruct Hq as [Hq|Hq].
    { destruct Hq as [<-|[]]. discriminate Hl. }
    apply in_app_or in Hq. destruct Hq as [Hq|Hq].
    { apply in_flat_map in Hq. destruct Hq as (name & _ & [<-|[]]).
      discriminate Hl. }
    apply in_app_or in Hq. destruct Hq as [Hq|Hq].
    { unfold GraphUpsertV2._create_package_hierarchy in Hq. split_in.
      discriminate Hl. }
    apply in_app_or in Hq. destruct Hq as [Hq|Hq].
    - apply in_flat_map in Hq. destruct Hq as (entry & _ & Hq).
      apply (load_file_links _ _ _ Hq) in Hl. simpl in Hl.
      exfalso. intuition discriminate.
    - apply in_flat_map in Hq. destruct Hq as ([p fi] & Hentry & Hq).
      apply load_dependencies_spec in Hq.
      destruct Hq as (d & Hd & Hdt & Ht & ->).
      injection He as <- <-.
      exists p, fi, d, x, y. repeat split; assumption. }
  split; [exact Hmain|].
  intros Hnone. apply filter_none. intros r Hr.
  destruct (String.eqb (Cypher.rtype r) "DEPENDS_ON") eqn:Hty; [|reflexivity].
  apply String.eqb_eq in Hty.
  destruct (Hmain r Hr Hty) as (p & fi & d & _ & _ & He & Hd & Hdt & Ht & _).
  rewrite (Hnone p fi d He Hd Hdt) in Ht. discriminate Ht.
Qed.

Lemma depends_on_only_from_imports_witness :
  exists p fi d x y,
    In (p, fi) (Model.files (Samples.project [Samples.Y_java; Samples.G_java]))
    /\ In d (Model.get_dependencies fi)
    /\ Model.dep_type d = "import"
    /\ PyStr.truthy (Model.dep_file d) = true
    /\ In x (Cypher.nodes (GraphUpsertV2.loaded
                             (Samples.project [Samples.Y_java; Samples.G_java])
                             Cypher.empty))
    /\ Cypher.matches (GraphUpsertV2.by_path p) x = true
    /\ In y (Cypher.nodes (GraphUpsertV2.loaded
                             (Samples.project [Samples.Y_java; Samples.G_java])
                             Cypher.empty))
    /\ Cypher.matches
         (GraphUpsertV2.by_path (default "" (Model.dep_file d))) y = true
    /\ Cypher.Rel 5 "DEPENDS_ON" 3
       = Cypher.Rel (Cypher.nid x) "DEPENDS_ON" (Cypher.nid y).
Proof.
  apply (proj1 (depends_on_only_from_imports
                  (Samples.project [Samples.Y_java; Samples.G_java])
                  Cypher.empty)
               (Cypher.Rel 5 "DEPENDS_ON" 3)).
  - vm_compute. intuition.
  - reflexivity.
Defined.

(** ** The shape of the loaded graph *)

Section ShapeFacts.
Import Model Cypher GraphUpsertV2.

Lemma statement_creates project_data q l ps :
  In q (statements project_data) -> creates q = Some (l, ps) ->
  In l ["Project"; "Package"; "File"; "Import"; "Class"; "Field"; "Method";
        "Parameter"; "Interface"].
Proof.
  rewrite statements_parts. intros Hq Hc.
  apply in_app_or in Hq. destruct Hq as [Hq|Hq].
  { destruct Hq as [<-|[]]. injection Hc as <- _. simpl. tauto. }
  apply in_app_or in Hq. destruct Hq as [Hq|Hq].
  { apply in_flat_map in Hq. destruct Hq as (name & _ & [<-|[]]).
    injection Hc as <- _. simpl. tauto. }
  apply in_app_or in Hq. destruct Hq as [Hq|Hq].
  { apply hierarchy_creates_nothing in Hq. congruence. }
  apply in_app_or in Hq. destruct Hq as [Hq|Hq].
  - apply in_flat_map in Hq. destruct Hq as (entry & _ & Hq).
    pose proof (load_file_creates _ _ _ _ Hq Hc) as H. simpl in *. tauto.
  - apply in_flat_map in Hq. destruct Hq as (entry & _ & Hq).
    apply load_dependencies_creates_nothing in Hq. congruence.
Qed.

Lemma statement_links project_data q t :
  In q (statements project_data) -> links q = Some t ->
  In t ["CONTAINS"; "IMPORTS"; "HAS_FIELD"; "DECLARES"; "HAS_PARAMETER";
        "EXTENDS"; "IMPLEMENTS"; "DEPENDS_ON"].
Proof.
  rewrite statements_parts. intros Hq Hc.
  apply in_app_or in Hq. destruct Hq as [Hq|Hq].
  { destruct Hq as [<-|[]]. discriminate Hc. }
  apply in_app_or in Hq. destruct Hq as [Hq|Hq].
  { apply in_flat_map in Hq. destruct Hq as (name & _ & [<-|[]]). discriminate Hc. }
  apply in_app_or in Hq. destruct Hq as [Hq|Hq].
  { unfold _create_package_hierarchy in Hq. split_in.
    injection Hc as <-. now left. }
  apply in_app_or in Hq. destruct Hq as [Hq|Hq].
  - apply in_flat_map in Hq. destruct Hq as (entry & _ & Hq).
    pose proof (load_file_links _ _ _ Hq Hc) as H. simpl in *. tauto.
  - apply in_flat_map in Hq. destruct Hq as ([p fi] & _ & Hq).
    apply load_dependencies_spec in Hq. destruct Hq as (d & _ & _ & _ & ->).
    injection Hc as <-. simpl. tauto.
Qed.

(** Statements that make no node of label [L] leave the nodes of that label
    as they are. *)
Lemma exec_other_label g q L :
  deletes q = false ->
  (forall l ps, creates q = Some (l, ps) -> l <> L) ->
  nodes_with (Pat (Some L) []) (exec g q) = nodes_with (Pat (Some L) []) g.
Proof.
  intros Hd Hc.
  assert (Hnew : forall l ps i, l <> L ->
             nodes_with (Pat (Some L) []) (Store (nodes g ++ [Node i l ps])
                                                  (rels g) (S (next_id g)))
             = nodes_with (Pat (Some L) []) g).
  { intros l ps i Hl. unfold nodes_with. simpl. rewrite List.filter_app. simpl.
    unfold matches at 2. simpl. rewrite andb_true_r.
    destruct (String.eqb l L) eqn:He; [apply String.eqb_eq in He; contradiction|].
    apply app_nil_r. }
  destruct q as [|l ps|l ps|a t b|a l ps t]; simpl in *; try discriminate.
  - apply Hnew. now apply (Hc l ps).
  - unfold merge_node. destruct (match_nodes (Pat (Some l) ps) g); [|reflexivity].
    apply Hnew. now apply (Hc l ps).
  - reflexivity.
  - destruct (match_nodes a g); [reflexivity|].
    change (nodes_with (Pat (Some L) []) (merge_node l ps g)
            = nodes_with (Pat (Some L) []) g).
    unfold merge_node. destruct (match_nodes (Pat (Some l) ps) g); [|reflexivity].
    apply Hnew. now apply (Hc l ps).
Qed.

Lemma run_other_label qs g L :
  keeps qs ->
  (forall q l ps, In q qs -> creates q = Some (l, ps) -> l <> L) ->
  nodes_with (Pat (Some L) []) (run qs g) = nodes_with (Pat (Some L) []) g.
Proof.
  revert g. induction qs as [|q qs IH]; intros g Hk Hc; [reflexivity|].
  apply keeps_cons in Hk. destruct Hk as [Hq Hk].
  unfold run. simpl. fold (run qs (exec g q)).
  rewrite IH; [|assumption|intros q' l ps Hin; apply Hc; now right].
  apply exec_other_label; [assumption|]. intros l ps. apply Hc. now left.
Qed.
End ShapeFacts.

(** X15. The loaded graph stays inside the schema: every node has one of the
    nine labels and every relationship one of the eight types, whatever the
    project model and whatever the store held before. *)
Theorem loaded_graph_in_schema (project_data : Model.project_structure)
  (g : Cypher.store) :
  Forall (fun n => In (Cypher.nlabel n)
                      ["Project"; "Package"; "File"; "Import"; "Class"; "Field";
                       "Method"; "Parameter"; "Interface"])
         (Cypher.nodes (GraphUpsertV2.loaded project_data g))
  /\ Forall (fun r => In (Cypher.rtype r)
                         ["CONTAINS"; "IMPORTS"; "HAS_FIELD"; "DECLARES";
                          "HAS_PARAMETER"; "EXTENDS"; "IMPLEMENTS"; "DEPENDS_ON"])
            (Cypher.rels (GraphUpsertV2.loaded project_data g)).
Proof.
  rewrite loaded_statements. split; apply List.Forall_forall.
  - intros n Hn. apply run_node_origin in Hn.
    destruct Hn as [[]|(q & Hq & Hc)]. eapply statement_creates; eassumption.
  - intros r Hr. apply run_rel_origin in Hr.
    destruct Hr as [[]|(q & Hq & Hc)]. eapply statement_links; eassumption.
Qed.

(** X16. After a load the store holds exactly one Project node, named after
    the last component of the project path, whatever it held before: the
    node is created, not merged, right after the reset. *)
Theorem one_project_node (project_data : Model.project_structure)
  (g : Cypher.store) :
  Cypher.nodes_with (Cypher.Pat (Some "Project") [])
                    (GraphUpsertV2.loaded project_data g)
  = [Cypher.Node (Cypher.next_id g) "Project"
       [("name", PyStr.basename (Model.project_path project_data));
        ("path", Model.project_path project_data)]].
Proof.
  rewrite loaded_statements, statements_parts.
  unfold GraphUpsertV2._create_project. simpl app.
  change (?q :: ?rest) with ([q] ++ rest). rewrite run_app.
  rewrite run_other_label.
  - reflexivity.
  - pose proof (statements_keep project_data) as Hk.
    rewrite statements_parts in Hk. apply keeps_app in Hk. tauto.
  - intros q l ps Hq Hc ->.
    apply in_app_or in Hq. destruct Hq as [Hq|Hq].
    { apply in_flat_map in Hq. destruct Hq as (name & _ & [<-|[]]).
      discriminate Hc. }
    apply in_app_or in Hq. destruct Hq as [Hq|Hq].
    { apply hierarchy_creates_nothing in Hq. congruence. }
    apply in_app_or in Hq. destruct Hq as [Hq|Hq].
    + apply in_flat_map in Hq. destruct Hq as (entry & _ & Hq).
      pose proof (load_file_creates _ _ _ _ Hq Hc) as H. simpl in H.
      intuition discriminate.
    + apply in_flat_map in Hq. destruct Hq as (entry & _ & Hq).
      apply load_dependencies_creates_nothing in Hq. congruence.
Qed.

(** ** One node per property map *)

Section UniqueFacts.
Import Model Cypher GraphUpsertV2.

Lemma no_match_no_tag l ps g :
  List.NoDup (map fst ps) ->
  match_nodes (Pat (Some l) ps) g = [] ->
  ~ In (l, ps) (map tag (nodes g)).
Proof.
  intros Hnd Hm Hin. apply in_map_iff in Hin. destruct Hin as (n & Htag & Hn).
  assert (Hmatch : matches (Pat (Some l) ps) n = true).
  { destruct n as [i l' ps']. unfold tag in Htag. simpl in Htag.
    injection Htag as -> ->. now apply matches_own_pattern. }
  assert (Hi : In (nid n) (match_nodes (Pat (Some l) ps) g)).
  { unfold match_nodes. apply in_map, filter_In. split; assumption. }
  rewrite Hm in Hi. destruct Hi.
Qed.

Lemma NoDup_snoc {A} (l : list A) (x : A) :
  List.NoDup l -> ~ In x l -> List.NoDup (l ++ [x]).
Proof.
  intros Hl Hx. apply NoDup_rev in Hl.
  rewrite <- (rev_involutive (l ++ [x])). apply NoDup_rev.
  rewrite rev_app_distr. simpl. constructor; [|assumption].
  now rewrite <- in_rev.
Qed.

Lemma merge_node_tags l ps g :
  List.NoDup (map fst ps) ->
  List.NoDup (map tag (nodes g)) ->
  List.NoDup (map tag (nodes (merge_node l ps g))).
Proof.
  intros Hnd Hg. unfold merge_node.
  destruct (match_nodes (Pat (Some l) ps) g) eqn:Hm; [|assumption].
  simpl. rewrite map_app. simpl. apply NoDup_snoc; [assumption|].
  now apply no_match_no_tag.
Qed.

(** A sequence of merges and relationship statements keeps the nodes
    distinct by label and property map. *)
Lemma run_tags qs g :
  (forall q, In q qs ->
     exists l ps, (q = Merge l ps /\ List.NoDup (map fst ps))
                  \/ exists a t b, q = MatchMergeRel a t b) ->
  List.NoDup (map tag (nodes g)) ->
  List.NoDup (map tag (nodes (run qs g))).
Proof.
  revert g. induction qs as [|q qs IH]; intros g Hq Hg; [assumption|].
  unfold run. simpl. fold (run qs (exec g q)).
  apply IH; [intros q' Hin; apply Hq; now right|].
  destruct (Hq q) as (l & ps & [[-> Hnd]|(a & t & b & ->)]); [now left| |].
  - simpl. now apply merge_node_tags.
  - exact Hg.
Qed.

Lemma merges_only project_data q :
  In q (tl (statements project_data)) ->
  exists l ps, (q = Merge l ps /\ List.NoDup (map fst ps))
               \/ exists a t b, q = MatchMergeRel a t b.
Proof.
  rewrite statements_parts. unfold _create_project. simpl tl. intros Hq.
  apply in_app_or in Hq. destruct Hq as [Hq|Hq].
  { apply in_flat_map in Hq. destruct Hq as (name & _ & [<-|[]]).
    do 2 eexists. left. split; [reflexivity|keys_distinct]. }
  apply in_app_or in Hq. destruct Hq as [Hq|Hq].
  { unfold _create_package_hierarchy in Hq. split_in.
    exists "", []. right. eauto. }
  apply in_app_or in Hq. destruct Hq as [Hq|Hq].
  - apply in_flat_map in Hq. destruct Hq as ([file_path file_info] & _ & Hq).
    unfold load_file, load_class, load_interface, load_methods, load_parameters,
      _create_file, _create_import, _create_file_imports_relationship,
      _create_class, _create_field, _create_interface, _create_method,
      _create_parameter, _create_extends_relationship,
      _create_implements_relationship, method_node_props in Hq.
    split_in;
      first [ do 2 eexists; left; split; [reflexivity|keys_distinct]
            | exists "", []; right; eauto ].
  - apply in_flat_map in Hq. destruct Hq as ([p fi] & _ & Hq).
    apply load_dependencies_spec in Hq. destruct Hq as (d & _ & _ & _ & ->).
    exists "", []. right. eauto.
Qed.

Lemma loaded_tags project_data g :
  List.NoDup (map tag (nodes (loaded project_data g))).
Proof.
  rewrite loaded_statements.
  assert (Hs : statements project_data
               = [Create "Project"
                    [("name", PyStr.basename (project_path project_data));
                     ("path", project_path project_data)]]
                 ++ tl (statements project_data)) by reflexivity.
  rewrite Hs, run_app. apply run_tags; [apply merges_only|].
  simpl. constructor; [intros []|constructor].
Qed.

Lemma at_most_one {A B} (f : A -> B) (P : A -> bool) (c : B) (l : list A) :
  List.NoDup (map f l) ->
  (forall x, In x l -> P x = true -> f x = c) ->
  length (List.filter P l) <= 1.
Proof.
  induction l as [|x l IH]; intros Hnd Hc; [simpl; lia|].
  simpl in Hnd. inversion Hnd as [|? ? Hx Hnd']; subst.
  simpl. destruct (P x) eqn:Hp.
  - assert (Hnone : List.filter P l = []).
    { apply filter_none. intros y Hy. destruct (P y) eqn:Hpy; [|reflexivity].
      exfalso. apply Hx.
      assert (Hfx : f x = c) by (apply Hc; [now left|assumption]).
      assert (Hfy : f y = c) by (apply Hc; [now right|assumption]).
      rewrite Hfx, <- Hfy. now apply in_map. }
    rewrite Hnone. simpl. lia.
  - apply IH; [assumption|]. intros y Hy. apply Hc. now right.
Qed.

Lemma present_count p g : present p g -> 1 <= length (nodes_with p g).
Proof.
  intros (n & Hn & Hm).
  assert (Hin : In n (nodes_with p g)) by (apply filter_In; split; assumption).
  destruct (nodes_with p g); [destruct Hin|simpl; lia].
Qed.

(** Where the File, Package and Import nodes of a load come from. *)
Lemma keyed_node_origin project_data g n :
  In n (nodes (loaded project_data g)) ->
  (nlabel n = "File" -> exists p, nprops n = [("name", PyStr.basename p); ("path", p)])
  /\ (nlabel n = "Import" -> exists imp, nprops n = [("name", imp)])
  /\ (nlabel n = "Package" -> exists name, nprops n = [("name", name)])
  /\ (nlabel n = "Method" ->
      exists parent mi,
        nprops n = method_node_props (build_method_properties parent mi)).
Proof.
  intros Hn. rewrite loaded_statements in Hn. apply run_node_origin in Hn.
  destruct Hn as [[]|(q & Hq & Hc)]. rewrite statements_parts in Hq.
  destruct n as [i l ps]. simpl in Hc. simpl nlabel. simpl nprops.
  apply in_app_or in Hq. destruct Hq as [Hq|Hq].
  { destruct Hq as [<-|[]]. injection Hc as <- <-.
    repeat split; intros; discriminate. }
  apply in_app_or in Hq. destruct Hq as [Hq|Hq].
  { apply in_flat_map in Hq. destruct Hq as (name & _ & [<-|[]]).
    injection Hc as <- <-. repeat split; intros; try discriminate; eauto. }
  apply in_app_or in Hq. destruct Hq as [Hq|Hq].
  { apply hierarchy_creates_nothing in Hq. congruence. }
  apply in_app_or in Hq. destruct Hq as [Hq|Hq].
  - apply in_flat_map in Hq. destruct Hq as ([file_path file_info] & _ & Hq).
    unfold load_file, load_class, load_interface, load_methods, load_parameters,
      _create_file, _create_import, _create_file_imports_relationship,
      _create_class, _create_field, _create_interface, _create_method,
      _create_parameter, _create_extends_relationship,
      _create_implements_relationship in Hq.
    split_in; simpl in Hc; try discriminate Hc; injection Hc as <- <-;
      repeat split; intros; try discriminate; eauto.
  - apply in_flat_map in Hq. destruct Hq as (entry & _ & Hq).
    apply load_dependencies_creates_nothing in Hq. congruence.
Qed.

Lemma exactly_one p l ps g :
  List.NoDup (map tag (nodes g)) ->
  present p g ->
  (forall n, In n (nodes g) -> matches p n = true -> tag n = (l, ps)) ->
  length (nodes_with p g) = 1.
Proof.
  intros Hnd Hp Hall. apply Nat.le_antisymm; [|now apply present_count].
  unfold nodes_with. eapply at_most_one; eassumption.
Qed.

Lemma matches_label l ps n : matches (Pat (Some l) ps) n = true -> nlabel n = l.
Proof.
  unfold matches. simpl. intros H. apply andb_prop in H.
  now apply String.eqb_eq.
Qed.

Lemma matches_prop l k v n :
  matches (Pat (Some l) [(k, v)]) n = true -> prop_get k (nprops n) = Some v.
Proof.
  unfold matches. simpl. intros H. apply andb_prop in H. destruct H as [_ H].
  rewrite andb_true_r in H. now apply bool_decide_eq_true in H.
Qed.
End UniqueFacts.

(** X17. The loaded graph never holds two nodes with the same label and the
    same property map: every node but the Project node is merged on all the
    properties its statement lists, and the Project node is created once. *)
Theorem no_duplicate_nodes (project_data : Model.project_structure)
  (g : Cypher.store) (l : string) (ps : Cypher.props) :
  length (List.filter (fun n => bool_decide (Cypher.tag n = (l, ps)))
                      (Cypher.nodes (GraphUpsertV2.loaded project_data g)))
  <= 1.
Proof.
  apply (at_most_one Cypher.tag _ (l, ps)).
  - apply loaded_tags.
  - intros n _ Hn. now apply bool_decide_eq_true in Hn.
Qed.

(** X18. Files, packages and imports are keyed: after a load there is
    exactly one File node with the path of each entry, exactly one Package
    node for the package of each entry that has one, and exactly one Import
    node for each import string, however many entries share the package or
    the import. *)
Theorem one_node_per_key (project_data : Model.project_structure)
  (g : Cypher.store) (p : string) (fi : Model.file_info) :
  In (p, fi) (Model.files project_data) ->
  let G := GraphUpsertV2.loaded project_data g in
  length (Cypher.nodes_with (GraphUpsertV2.by_path p) G) = 1
  /\ (PyStr.truthy (Model.get_package fi) = true ->
      length (Cypher.nodes_with
                (GraphUpsertV2.by_name "Package" (default "" (Model.get_package fi)))
                G) = 1)
  /\ (forall imp, In imp (Model.get_imports fi) ->
        length (Cypher.nodes_with (GraphUpsertV2.by_name "Import" imp) G) = 1).
Proof.
  intros He G. unfold G.
  pose proof (loaded_tags project_data g) as Hnd.
  pose proof (statements_keep project_data) as Hk.
  split; [|split].
  - apply (exactly_one _ "File" [("name", PyStr.basename p); ("path", p)]);
      [exact Hnd| |].
    + rewrite loaded_statements. eapply run_makes; [exact Hk| |].
      * apply in_statements. eapply in_statements_file; [eassumption|].
        destruct (load_file_head p fi) as (rest & ->). now left.
      * solve_makes.
    + intros n Hn Hm. unfold Cypher.tag.
      pose proof (matches_label _ _ _ Hm) as Hl.
      apply matches_prop in Hm.
      destruct (keyed_node_origin _ _ _ Hn) as (Hf & _).
      destruct (Hf Hl) as (p' & Hp'). rewrite Hp' in Hm |- *.
      unfold Cypher.prop_get in Hm. simpl in Hm. injection Hm as ->.
      now rewrite Hl.
  - intros Ht.
    apply (exactly_one _ "Package" [("name", default "" (Model.get_package fi))]);
      [exact Hnd| |].
    + rewrite loaded_statements. eapply run_makes; [exact Hk| |].
      * rewrite statements_parts. apply in_or_app; right. apply in_or_app; left.
        apply in_flat_map. exists (default "" (Model.get_package fi)).
        split; [eapply declared_package_in; eassumption|now left].
      * solve_makes.
    + intros n Hn Hm. unfold Cypher.tag.
      pose proof (matches_label _ _ _ Hm) as Hl.
      apply matches_prop in Hm.
      destruct (keyed_node_origin _ _ _ Hn) as (_ & _ & Hf & _).
      destruct (Hf Hl) as (name & Hp'). rewrite Hp' in Hm |- *.
      unfold Cypher.prop_get in Hm. simpl in Hm. injection Hm as ->.
      now rewrite Hl.
  - intros imp Himp.
    apply (exactly_one _ "Import" [("name", imp)]); [exact Hnd| |].
    + rewrite loaded_statements. eapply run_makes; [exact Hk| |].
      * apply in_statements. eapply in_file_statements; [eassumption|].
        rewrite load_file_tail. do 2 (apply in_or_app; right).
        apply in_or_app; left. apply in_flat_map. exists imp.
        split; [assumption|now left].
      * solve_makes.
    + intros n Hn Hm. unfold Cypher.tag.
      pose proof (matches_label _ _ _ Hm) as Hl.
      apply matches_prop in Hm.
      destruct (keyed_node_origin _ _ _ Hn) as (_ & Hf & _).
      destruct (Hf Hl) as (imp' & Hp'). rewrite Hp' in Hm |- *.
      unfold Cypher.prop_get in Hm. simpl in Hm. injection Hm as ->.
      now rewrite Hl.
Qed.

Lemma one_node_per_key_witness :
  length (Cypher.nodes_with (GraphUpsertV2.by_name "Package" "p")
            (GraphUpsertV2.loaded
               (Samples.project [Samples.A_java; Samples.B_java]) Cypher.empty))
  = 1.
Proof.
  assert (He : In (hd Samples.A_java
                      (JavaAstV2.analyze_relationships
                         [Samples.A_java; Samples.B_java]))
                  (Model.files (Samples.project [Samples.A_java; Samples.B_java])))
    by (left; reflexivity).
  destruct (one_node_per_key _ Cypher.empty _ _ He) as (_ & H & _).
  apply H. reflexivity.
Defined.

(** X19. Every Method node of the loaded graph carries the seven properties
    name, id, returnType, documentation, description, body and parent_name,
    its id is the parent's name, a dot and the method's name, and its
    returnType is never empty. *)
Theorem method_nodes_are_complete (project_data : Model.project_structure)
  (g : Cypher.store) (n : Cypher.node) :
  In n (Cypher.nodes (GraphUpsertV2.loaded project_data g)) ->
  Cypher.nlabel n = "Method" ->
  exists name rt doc desc body parent,
    Cypher.nprops n
    = [("name", name); ("id", parent +:+ "." +:+ name); ("returnType", rt);
       ("documentation", doc); ("description", desc); ("body", body);
       ("parent_name", parent)]
    /\ rt <> "".
Proof.
  intros Hn Hl.
  destruct (keyed_node_origin _ _ _ Hn) as (_ & _ & _ & Hm).
  destruct (Hm Hl) as (parent & mi & ->).
  do 6 eexists. split; [reflexivity|]. apply returnType_never_empty.
Qed.

Lemma method_nodes_are_complete_witness :
  exists name rt doc desc body parent,
    [("name", "f"); ("id", "p.Over.f"); ("returnType", "void");
     ("documentation", ""); ("description", ""); ("body", "");
     ("parent_name", "p.Over")]
    = [("name", name); ("id", parent +:+ "." +:+ name); ("returnType", rt);
       ("documentation", doc); ("description", desc); ("body", body);
       ("parent_name", parent)]
    /\ rt <> "".
Proof.
  apply (method_nodes_are_complete (Samples.project [Samples.Over_java])
           Cypher.empty
           (Cypher.Node 5 "Method"
              [("name", "f"); ("id", "p.Over.f"); ("returnType", "void");
               ("documentation", ""); ("description", ""); ("body", "");
               ("parent_name", "p.Over")])).
  - vm_compute. intuition.
  - reflexivity.
Defined.

(** ** Dependency records *)

(** X20. Every dependency record the resolver stores comes from the entry's
    own declarations and has one of three types: an "import" record names
    one of the entry's imports, an "extends" record the non-empty extends
    target of one of its classes, an "implements" record an implements
    target of one of its classes. The extends targets of interfaces give no
    record. *)
Theorem dependency_records_shape (fs : Model.files_map) (p : string)
  (fi : Model.file_info) (d : Model.dependency) :
  In (p, fi) (JavaAstV2.analyze_relationships fs) ->
  In d (Model.get_dependencies fi) ->
  (Model.dep_type d = "import" /\ In (Model.dep_target d) (Model.get_imports fi))
  \/ (Model.dep_type d = "extends"
      /\ exists c, In c (Model.get_classes fi)
                   /\ Model.class_extends c = Some (Model.dep_target d)
                   /\ Model.dep_target d <> "")
  \/ (Model.dep_type d = "implements"
      /\ exists c, In c (Model.get_classes fi)
                   /\ In (Model.dep_target d) (Model.class_implements c)).
Proof.
  intros Hin Hd. apply analyzed_entry in Hin.
  destruct Hin as [(r & _ & ->)|(a & b & _ & ->)]; [|destruct Hd].
  simpl in Hd.
  change (Model.get_imports (Model.Parsed (Model.set_dependencies r _)))
    with (Model.get_imports (Model.Parsed r)).
  change (Model.get_classes (Model.Parsed (Model.set_dependencies r _)))
    with (Model.get_classes (Model.Parsed r)).
  unfold JavaAstV2.file_dependencies in Hd. apply in_app_or in Hd.
  destruct Hd as [Hd|Hd]; apply in_flat_map in Hd.
  - destruct Hd as (imp & Himp & Hd). left.
    unfold JavaAstV2.import_dependencies in Hd.
    destruct (_ || _); [|destruct Hd]. destruct Hd as [<-|[]]. auto.
  - destruct Hd as (c & Hc & Hd). right.
    unfold JavaAstV2.class_dependencies in Hd. apply in_app_or in Hd.
    destruct Hd as [Hd|Hd].
    + left. destruct (Model.class_extends c) as [e|] eqn:He; simpl in Hd;
        [|destruct Hd].
      destruct (String.eqb e "") eqn:Hne; simpl in Hd; [destruct Hd|].
      destruct Hd as [<-|[]]. split; [reflexivity|]. exists c. simpl.
      split; [assumption|]. split; [assumption|]. now apply String.eqb_neq.
    + right. apply in_map_iff in Hd. destruct Hd as (i & <- & Hi). eauto.
Qed.

Lemma dependency_records_shape_witness :
  let fi := snd (hd Samples.A_java
                    (JavaAstV2.analyze_relationships
                       [Samples.A_java; Samples.B_java])) in
  let d := Model.Dependency "implements" "I" (Some "B.java") in
  (Model.dep_type d = "import" /\ In (Model.dep_target d) (Model.get_imports fi))
  \/ (Model.dep_type d = "extends"
      /\ exists c, In c (Model.get_classes fi)
                   /\ Model.class_extends c = Some (Model.dep_target d)
                   /\ Model.dep_target d <> "")
  \/ (Model.dep_type d = "implements"
      /\ exists c, In c (Model.get_classes fi)
                   /\ In (Model.dep_target d) (Model.class_implements c)).
Proof.
  apply (dependency_records_shape [Samples.A_java; Samples.B_java] "A.java").
  - left. reflexivity.
  - vm_compute. left. reflexivity.
Defined.

(** ** The package chain *)

Section ChainFacts.
Import Model Cypher GraphUpsertV2.

Lemma in_sorted_packages l name :
  In name (PyStr.sorted (elements (list_to_set l : gset string))) <-> In name l.
Proof.
  unfold PyStr.sorted. rewrite <- !list_elem_of_In.
  rewrite merge_sort_Permutation, elem_of_elements, elem_of_list_to_set.
  reflexivity.
Qed.

Lemma declared_packages_truthy fs name :
  In name (declared_packages fs) -> PyStr.truthy (Some name) = true.
Proof.
  unfold declared_packages. intros H. apply in_flat_map in H.
  destruct H as ([p fi] & _ & H).
  destruct (get_package fi) as [s|] eqn:Hp; simpl in H; [|destruct H].
  destruct (String.eqb s "") eqn:He; simpl in H; [destruct H|].
  destruct H as [<-|[]]. simpl. now rewrite He.
Qed.
End ChainFacts.

(** X21. What the package chain does guarantee: for a declared package and
    a position in its dotted name, when the prefix up to that position and
    the next longer prefix are both some file's package, the Package node
    of the shorter contains the Package node of the longer after a load. *)
Theorem declared_prefixes_are_chained (project_data : Model.project_structure)
  (g : Cypher.store) (package : string) (i : nat) :
  let declared := GraphUpsertV2.declared_packages (Model.files project_data) in
  let parts := PyStr.split "."%char package in
  let parent_package := PyStr.join "." (firstn i parts) in
  let child_package := PyStr.join "." (firstn (i + 1) parts) in
  In package declared ->
  1 <= i < length parts ->
  In parent_package declared ->
  In child_package declared ->
  Cypher.linked (GraphUpsertV2.by_name "Package" parent_package) "CONTAINS"
                (GraphUpsertV2.by_name "Package" child_package)
                (GraphUpsertV2.loaded project_data g).
Proof.
  intros declared parts parent_package child_package Hpkg Hi Hparent Hchild.
  rewrite loaded_statements.
  assert (Hq : In (Cypher.MatchMergeRel
                     (GraphUpsertV2.by_name "Package" parent_package) "CONTAINS"
                     (GraphUpsertV2.by_name "Package" child_package))
                  (GraphUpsertV2._create_package_hierarchy (list_to_set declared))).
  { unfold GraphUpsertV2._create_package_hierarchy. apply in_flat_map.
    exists package. split; [now apply in_sorted_packages|].
    apply in_flat_map. exists i. split; [apply in_seq; fold parts; lia|].
    fold parts. fold parent_package. fold child_package.
    rewrite (declared_packages_truthy _ _ Hparent),
            (declared_packages_truthy _ _ Hchild). now left. }
  assert (Hsent : forall name, In name declared ->
             Cypher.sent_before
               (Cypher.Merge "Package" [("name", name)])
               (Cypher.MatchMergeRel
                  (GraphUpsertV2.by_name "Package" parent_package) "CONTAINS"
                  (GraphUpsertV2.by_name "Package" child_package))
               (GraphUpsertV2.statements project_data)).
  { intros name Hname. rewrite statements_parts. apply sent_before_app_r.
    rewrite app_assoc. apply sent_before_app_l. apply sent_before_cross.
    - apply in_flat_map. exists name. split; [exact Hname|now left].
    - exact Hq. }
  eapply run_links; [apply statements_keep| | | |].
  - apply (Hsent parent_package Hparent).
  - solve_makes.
  - apply (Hsent child_package Hchild).
  - solve_makes.
Qed.

Lemma declared_prefixes_are_chained_witness :
  Cypher.linked (GraphUpsertV2.by_name "Package" "a.b") "CONTAINS"
                (GraphUpsertV2.by_name "Package" "a.b.c")
                (GraphUpsertV2.loaded
                   (Samples.project [Samples.C_java; Samples.P2_java; Samples.P1_java])
                   Cypher.empty).
Proof.
  apply (declared_prefixes_are_chained
           (Samples.project [Samples.C_java; Samples.P2_java; Samples.P1_java])
           Cypher.empty "a.b.c" 2).
  - left. reflexivity.
  - simpl. lia.
  - right. left. reflexivity.
  - left. reflexivity.
Defined.

(** ** Strings and discovered files *)

Section StringFacts.

Lemma append_cons (x : ascii) (a b : string) :
  String x a +:+ b = String x (a +:+ b).
Proof. reflexivity. Qed.

Lemma append_nil_l (b : string) : "" +:+ b = b.
Proof. reflexivity. Qed.

Lemma length_append (a b : string) :
  String.length (a +:+ b) = String.length a + String.length b.
Proof. induction a as [|c a IH]; rewrite ?append_cons, ?append_nil_l; simpl; [reflexivity|f_equal; exact IH]. Qed.

Lemma append_nil_r (a : string) : a +:+ "" = a.
Proof. induction a as [|c a IH]; rewrite ?append_cons, ?append_nil_l; simpl; [reflexivity|f_equal; exact IH]. Qed.

Lemma append_assoc (a b c : string) : (a +:+ b) +:+ c = a +:+ (b +:+ c).
Proof. induction a as [|x a IH]; rewrite ?append_cons, ?append_nil_l; simpl; [reflexivity|f_equal; exact IH]. Qed.

Lemma substring_all (s : string) : substring 0 (String.length s) s = s.
Proof. induction s as [|c s IH]; simpl; [reflexivity|f_equal; exact IH]. Qed.

Lemma substring_skip (a b : string) (m : nat) :
  substring (String.length a) m (a +:+ b) = substring 0 m b.
Proof. induction a as [|c a IH]; rewrite ?append_cons, ?append_nil_l; simpl; [reflexivity|exact IH]. Qed.

Lemma substring_cut (s : string) (n : nat) :
  n <= String.length s ->
  s = substring 0 n s +:+ substring n (String.length s - n) s.
Proof.
  revert n. induction s as [|c s IH]; intros n Hn.
  - simpl in Hn. assert (n = 0) as -> by lia. reflexivity.
  - destruct n as [|n].
    + simpl. rewrite append_nil_l. f_equal. now rewrite substring_all.
    + simpl in Hn. simpl. rewrite append_cons. f_equal. apply IH. lia.
Qed.

Lemma endswith_intro (pre t : string) : PyStr.endswith (pre +:+ t) t = true.
Proof.
  unfold PyStr.endswith. rewrite length_append. apply andb_true_intro. split.
  - apply Nat.leb_le. lia.
  - replace (String.length pre + String.length t - String.length t)
      with (String.length pre) by lia.
    rewrite substring_skip, substring_all. apply String.eqb_refl.
Qed.

Lemma endswith_elim (s t : string) :
  PyStr.endswith s t = true -> exists pre, s = pre +:+ t.
Proof.
  unfold PyStr.endswith. intros H. apply andb_prop in H. destruct H as [Hle He].
  apply Nat.leb_le in Hle. apply String.eqb_eq in He.
  exists (substring 0 (String.length s - String.length t) s).
  pose proof (substring_cut s (String.length s - String.length t)) as Hcut.
  replace (String.length s - (String.length s - String.length t))
    with (String.length t) in Hcut by lia.
  rewrite He in Hcut. apply Hcut. lia.
Qed.

Lemma endswith_append (a b t : string) :
  PyStr.endswith b t = true -> PyStr.endswith (a +:+ b) t = true.
Proof.
  intros H. apply endswith_elim in H. destruct H as (pre & ->).
  rewrite <- append_assoc. apply endswith_intro.
Qed.

Lemma split_no_separator c (s : string) :
  PyStr.contains c s = false -> PyStr.split c s = [s].
Proof.
  induction s as [|a s IH]; simpl; [reflexivity|].
  intros H. apply orb_false_elim in H. destruct H as [Ha Hs].
  rewrite Ha, (IH Hs). reflexivity.
Qed.

Lemma split_nonempty c (s : string) : PyStr.split c s <> [].
Proof.
  destruct s as [|a s]; simpl; [discriminate|].
  destruct (Ascii.eqb a c); [discriminate|].
  destruct (PyStr.split c s); discriminate.
Qed.

Lemma last_cons_nonempty {A} (x : A) (l : list A) (d : A) :
  l <> [] -> List.last (x :: l) d = List.last l d.
Proof. destruct l; [contradiction|reflexivity]. Qed.

(** What follows the last separator is the last piece. *)
Lemma last_split_append c (a b : string) :
  PyStr.contains c b = false ->
  List.last (PyStr.split c (a +:+ String c b)) "" = b.
Proof.
  intros Hb. induction a as [|x a IH]; rewrite ?append_cons, ?append_nil_l; simpl.
  - rewrite Ascii.eqb_refl, (split_no_separator c b Hb). reflexivity.
  - destruct (Ascii.eqb x c).
    + rewrite last_cons_nonempty by apply split_nonempty. exact IH.
    + destruct (PyStr.split c (a +:+ String c b)) as [|h t] eqn:Hs.
      * exfalso. eapply split_nonempty. exact Hs.
      * destruct t as [|h' t'].
        -- simpl in IH. subst h. exfalso.
           assert (Hlen : length (PyStr.split c (a +:+ String c b)) >= 2).
           { clear. induction a as [|y a IHa]; rewrite ?append_cons, ?append_nil_l; simpl.
             - rewrite Ascii.eqb_refl. simpl.
               destruct (PyStr.split c b) eqn:Hb; [exfalso; eapply split_nonempty; eauto|].
               simpl. lia.
             - destruct (Ascii.eqb y c); [simpl; lia|].
               destruct (PyStr.split c (a +:+ String c b)); simpl in *; lia. }
           rewrite Hs in Hlen. simpl in Hlen. lia.
        -- exact IH.
Qed.

End StringFacts.

(** X22. [find_java_files] returns exactly the joined paths of the file
    names ending in ".java" that the walk lists: every returned path ends in
    ".java" and is the join of a walked directory with one of its file
    names bearing that suffix, and every such file name of every walked
    directory is returned. *)
Theorem find_java_files_sound_and_complete (walk : JavaAstV2.walk_result) :
  (forall path, In path (JavaAstV2.find_java_files walk) ->
     PyStr.endswith path ".java" = true
     /\ exists root dirs files file,
          In (root, dirs, files) walk /\ In file files
          /\ PyStr.endswith file ".java" = true
          /\ path = PyStr.os_path_join root file)
  /\ (forall root dirs files file,
        In (root, dirs, files) walk -> In file files ->
        PyStr.endswith file ".java" = true ->
        In (PyStr.os_path_join root file) (JavaAstV2.find_java_files walk)).
Proof.
  split.
  - intros path Hp.
    unfold JavaAstV2.find_java_files in Hp. apply in_flat_map in Hp.
    destruct Hp as ([[root dirs] files] & Hw & Hp).
    apply in_map_iff in Hp. destruct Hp as (file & <- & Hf).
    apply filter_In in Hf. destruct Hf as [Hin Hf]. split.
    + unfold PyStr.os_path_join.
      destruct (PyStr.startswith file "/"); [exact Hf|].
      destruct (String.eqb root "" || PyStr.endswith root "/").
      * now apply endswith_append.
      * apply endswith_append. now apply (endswith_append "/").
    + exists root, dirs, files, file. auto.
  - intros root dirs files file Hw Hf He.
    unfold JavaAstV2.find_java_files. apply in_flat_map.
    exists (root, dirs, files). split; [assumption|].
    apply in_map, filter_In. split; assumption.
Qed.

(** X23. Joining a directory and a file name and taking the basename gives
    the file name back, for every directory string (empty, with or without
    a trailing slash) and every name without a slash: the File node that the
    loaders name with [os.path.basename] of a discovered path carries the
    name the walk listed. *)
Theorem basename_of_joined_path (root file : string) :
  PyStr.contains "/"%char file = false ->
  PyStr.basename (PyStr.os_path_join root file) = file.
Proof.
  intros Hf. unfold PyStr.os_path_join, PyStr.startswith.
  destruct file as [|x file'] eqn:Hfile.
  - simpl. destruct (String.eqb root "" || PyStr.endswith root "/") eqn:Hr.
    + rewrite append_nil_r. unfold PyStr.basename.
      apply orb_prop in Hr. destruct Hr as [Hr|Hr].
      * apply String.eqb_eq in Hr. now subst.
      * apply endswith_elim in Hr. destruct Hr as (pre & ->).
        now apply (last_split_append "/"%char pre "").
    + unfold PyStr.basename. now apply (last_split_append "/"%char root "").
  - simpl in Hf. apply orb_false_elim in Hf. destruct Hf as [Hx Hf'].
    assert (Hp : String.prefix "/" (String x file') = false).
    { change (String.prefix "/" (String x file')) with
        (if Ascii.ascii_dec "/"%char x then String.prefix "" file' else false).
      destruct (Ascii.ascii_dec "/"%char x) as [<-|Hne]; [|reflexivity].
      now rewrite Ascii.eqb_refl in Hx. }
    rewrite Hp.
    assert (Hc : PyStr.contains "/"%char (String x file') = false)
      by (simpl; now rewrite Hx, Hf').
    destruct (String.eqb root "" || PyStr.endswith root "/") eqn:Hr.
    + unfold PyStr.basename. apply orb_prop in Hr. destruct Hr as [Hr|Hr].
      * apply String.eqb_eq in Hr. subst root. rewrite append_nil_l.
        now rewrite (split_no_separator _ _ Hc).
      * apply endswith_elim in Hr. destruct Hr as (pre & ->).
        rewrite append_assoc. now apply (last_split_append "/"%char pre).
    + unfold PyStr.basename. now apply (last_split_append "/"%char root).
Qed.

Lemma basename_of_joined_path_witness :
  PyStr.contains "/"%char "A.java" = false
  /\ PyStr.basename (PyStr.os_path_join "src/main/p" "A.java") = "A.java".
Proof.
  split; [reflexivity|]. apply (basename_of_joined_path "src/main/p" "A.java").
  reflexivity.
Defined.

(** ** The first loader's schema *)

Section FirstLoaderFacts.
Import Model Cypher.

Lemma first_loader_file_creates entry q l ps :
  In q (Graph.load_file entry) -> creates q = Some (l, ps) ->
  In l ["File"; "Class"; "Method"; "Interface"].
Proof.
  destruct entry as [file_path file_info].
  unfold Graph.load_file, Graph.load_class, Graph.load_interface,
    Graph._create_file, Graph._create_class, Graph._create_interface,
    Graph._create_method, GraphUpsertV2._create_extends_relationship,
    GraphUpsertV2._create_implements_relationship.
  intros H Hc. split_in; simpl in Hc; try discriminate Hc;
    injection Hc as <- _; simpl; tauto.
Qed.

Lemma first_loader_file_links entry q t :
  In q (Graph.load_file entry) -> links q = Some t ->
  In t ["CONTAINS"; "DECLARES"; "EXTENDS"; "IMPLEMENTS"].
Proof.
  destruct entry as [file_path file_info].
  unfold Graph.load_file, Graph.load_class, Graph.load_interface,
    Graph._create_file, Graph._create_class, Graph._create_interface,
    Graph._create_method, GraphUpsertV2._create_extends_relationship,
    GraphUpsertV2._create_implements_relationship.
  intros H Hc. split_in; simpl in Hc; try discriminate Hc;
    injection Hc as <-; simpl; tauto.
Qed.

Lemma first_loader_imports_spec entry q :
  In q (Graph.load_imports entry) ->
  exists target,
    q = MatchMergeNodeRel (GraphUpsertV2.by_path (fst entry))
                          "Import" [("name", target)] "IMPORTS".
Proof.
  destruct entry as [file_path file_info].
  unfold Graph.load_imports, Graph._create_import_relationship.
  intros H. split_in. eexists. reflexivity.
Qed.

Lemma first_loader_parts project_data g :
  Graph.loaded project_data g
  = run (GraphUpsertV2._create_project
           (PyStr.basename (project_path project_data))
           (project_path project_data)
         ++ flat_map GraphUpsertV2._create_package
              (Graph.declared_packages (files project_data))
         ++ GraphUpsertV2._create_package_hierarchy
              (list_to_set (Graph.declared_packages (files project_data)))
         ++ flat_map Graph.load_file (files project_data)
         ++ flat_map Graph.load_imports (files project_data))
        (exec g DetachDeleteAll).
Proof. reflexivity. Qed.
End FirstLoaderFacts.

(** X24. The graph left by the first loader ([graph.py]) has a smaller
    schema than the one of the second: its nodes are Project, Package, File,
    Import, Class, Method and Interface nodes and its relationships are
    CONTAINS, IMPORTS, DECLARES, EXTENDS and IMPLEMENTS ones.  It stores no
    field, no parameter and no DEPENDS_ON relationship, whatever the project
    model holds and whatever the store held before. *)
Theorem first_loader_graph_in_schema (project_data : Model.project_structure)
  (g : Cypher.store) :
  Forall (fun n => In (Cypher.nlabel n)
                      ["Project"; "Package"; "File"; "Import"; "Class";
                       "Method"; "Interface"])
         (Cypher.nodes (Graph.loaded project_data g))
  /\ Forall (fun r => In (Cypher.rtype r)
                         ["CONTAINS"; "IMPORTS"; "DECLARES"; "EXTENDS";
                          "IMPLEMENTS"])
            (Cypher.rels (Graph.loaded project_data g)).
Proof.
  rewrite first_loader_parts. split; apply List.Forall_forall.
  - intros n Hn. apply run_node_origin in Hn.
    destruct Hn as [[]|(q & Hq & Hc)].
    apply in_app_or in Hq. destruct Hq as [Hq|Hq].
    { destruct Hq as [<-|[]]. injection Hc as <- _. simpl. tauto. }
    apply in_app_or in Hq. destruct Hq as [Hq|Hq].
    { apply in_flat_map in Hq. destruct Hq as (name & _ & [<-|[]]).
      injection Hc as <- _. simpl. tauto. }
    apply in_app_or in Hq. destruct Hq as [Hq|Hq].
    { apply hierarchy_creates_nothing in Hq. congruence. }
    apply in_app_or in Hq. destruct Hq as [Hq|Hq].
    + apply in_flat_map in Hq. destruct Hq as (entry & _ & Hq).
      pose proof (first_loader_file_creates _ _ _ _ Hq Hc) as H.
      simpl in *. tauto.
    + apply in_flat_map in Hq. destruct Hq as (entry & _ & Hq).
      apply first_loader_imports_spec in Hq. destruct Hq as (target & ->).
      injection Hc as <- _. simpl. tauto.
  - intros r Hr. apply run_rel_origin in Hr.
    destruct Hr as [[]|(q & Hq & Hc)].
    apply in_app_or in Hq. destruct Hq as [Hq|Hq].
    { destruct Hq as [<-|[]]. discriminate Hc. }
    apply in_app_or in Hq. destruct Hq as [Hq|Hq].
    { apply in_flat_map in Hq. destruct Hq as (name & _ & [<-|[]]).
      discriminate Hc. }
    apply in_app_or in Hq. destruct Hq as [Hq|Hq].
    { unfold GraphUpsertV2._create_package_hierarchy in Hq. split_in.
      injection Hc as <-. now left. }
    apply in_app_or in Hq. destruct Hq as [Hq|Hq].
    + apply in_flat_map in Hq. destruct Hq as (entry & _ & Hq).
      pose proof (first_loader_file_links _ _ _ Hq Hc) as H.
      simpl in *. tauto.
    + apply in_flat_map in Hq. destruct Hq as (entry & _ & Hq).
      apply first_loader_imports_spec in Hq. destruct Hq as (target & ->).
      injection Hc as <-. simpl. tauto.
Qed.

(** ** Parameters from a syntax tree *)

Section ParameterFacts.
Import Analyzer.

Lemma flat_map_at_most_one {A B} (f : A -> list B) (l : list A) :
  (forall x, In x l -> length (f x) <= 1) ->
  length (flat_map f l) <= length l.
Proof.
  induction l as [|x l IH]; intros H; simpl; [lia|].
  rewrite length_app.
  pose proof (H x (or_introl eq_refl)).
  assert (length (flat_map f l) <= length l)
    by (apply IH; intros y Hy; apply H; now right).
  lia.
Qed.

Lemma flat_map_drops {A B} (f : A -> list B) (l : list A) (c : A) :
  (forall x, In x l -> length (f x) <= 1) ->
  In c l -> f c = [] ->
  length (flat_map f l) < length l.
Proof.
  induction l as [|x l IH]; intros H Hc Hf; [destruct Hc|]. simpl.
  rewrite length_app.
  assert (Hl : length (flat_map f l) <= length l)
    by (apply flat_map_at_most_one; intros y Hy; apply H; now right).
  destruct Hc as [->|Hc].
  - rewrite Hf. simpl. lia.
  - pose proof (H x (or_introl eq_refl)).
    assert (length (flat_map f l) < length l)
      by (apply IH; [intros y Hy; apply H; now right|assumption|assumption]).
    lia.
Qed.

Lemma truthy_text (s : string) : PyStr.truthy (Some s) = true -> s <> "".
Proof. intros H ->. discriminate H. Qed.
End ParameterFacts.

(** X25. [extract_method_parameters] keeps a formal parameter only when it
    finds both a name and a type node of one of the three kinds it looks
    for: every parameter it extracts, from any method node, has a non-empty
    name and a non-empty type; and when some formal parameter has no child
    of type type_identifier, array_type or primitive_type the list holds
    fewer parameters than the method declares. *)
Theorem untyped_parameter_is_dropped (method_node : Analyzer.ts_node) :
  Forall (fun p => Analyzer.param_name p <> "" /\ Analyzer.param_type p <> "")
         (Analyzer.extract_method_parameters method_node)
  /\ (forall formal_parameters child,
        Analyzer.first_child ["formal_parameters"] method_node
          = Some formal_parameters ->
        In child (Analyzer.children_of_type "formal_parameter"
                                            formal_parameters) ->
        Analyzer.first_child
          ["type_identifier"; "array_type"; "primitive_type"] child = None ->
        length (Analyzer.extract_method_parameters method_node)
        < length (Analyzer.children_of_type "formal_parameter"
                                            formal_parameters)).
Proof.
  split.
  - apply List.Forall_forall. intros p Hp.
    unfold Analyzer.extract_method_parameters in Hp.
    destruct (Analyzer.first_child ["formal_parameters"] method_node)
      as [formal_parameters|]; [|destruct Hp].
    apply in_flat_map in Hp. destruct Hp as (c & _ & Hp).
    destruct (Analyzer.first_child ["identifier"] c) as [n|]; [|destruct Hp].
    destruct (Analyzer.first_child
                ["type_identifier"; "array_type"; "primitive_type"] c) as [t|];
      [|destruct Hp].
    destruct (PyStr.truthy (Some (Analyzer.get_node_text n))) eqn:Hn;
      [|destruct Hp].
    destruct (PyStr.truthy (Some (Analyzer.get_node_text t))) eqn:Ht;
      [|destruct Hp].
    destruct Hp as [<-|[]]. simpl. split; now apply truthy_text.
  - intros formal_parameters child Hfp Hc Hty.
    unfold Analyzer.extract_method_parameters. rewrite Hfp.
    apply (flat_map_drops _ _ child); [|assumption|].
    + intros c _.
      destruct (Analyzer.first_child ["identifier"] c) as [n|]; [|simpl; lia].
      destruct (Analyzer.first_child
                  ["type_identifier"; "array_type"; "primitive_type"] c) as [t|];
        [|simpl; lia].
      destruct (PyStr.truthy (Some (Analyzer.get_node_text n))
                && PyStr.truthy (Some (Analyzer.get_node_text t)));
        simpl; lia.
    + rewrite Hty. now destruct (Analyzer.first_child ["identifier"] child).
Qed.

Lemma untyped_parameter_is_dropped_witness :
  length (Analyzer.extract_method_parameters Samples.add_all_method)
  < length (Analyzer.children_of_type "formal_parameter"
                                      Samples.items_parameters).
Proof.
  apply (proj2 (untyped_parameter_is_dropped Samples.add_all_method)
           Samples.items_parameters Samples.items_parameter).
  - reflexivity.
  - left. reflexivity.
  - reflexivity.
Defined.

(** ** Imports in the first loader *)

Section FirstLoaderImportFacts.
Import Model Cypher.

Lemma exec_merge_node_rel g a l ps t :
  List.NoDup (map fst ps) -> present a g ->
  linked a t (Pat (Some l) ps) (exec g (MatchMergeNodeRel a l ps t)).
Proof.
  intros Hnd (x & Hx & Hmx).
  assert (Hxs : In (nid x) (match_nodes a g))
    by (unfold match_nodes; apply in_map, filter_In; split; assumption).
  destruct (merge_node_present l ps g Hnd) as (y & Hy & Hmy).
  assert (Hx' : In x (nodes (merge_node l ps g)))
    by now apply (exec_keeps_nodes g (Merge l ps)).
  assert (Hys : In (nid y) (match_nodes (Pat (Some l) ps) (merge_node l ps g)))
    by (unfold match_nodes; apply in_map, filter_In; split; assumption).
  assert (He : exec g (MatchMergeNodeRel a l ps t)
               = merge_rels (match_nodes a g)
                   (match_nodes (Pat (Some l) ps) (merge_node l ps g)) t
                   (merge_node l ps g)).
  { unfold exec. destruct (match_nodes a g); [destruct Hxs|reflexivity]. }
  rewrite He. exists x, y. unfold merge_rels.
  split; [exact Hx'|]. split; [exact Hmx|]. split; [exact Hy|].
  split; [exact Hmy|].
  change (In (Rel (nid x) t (nid y))
            (fold_left add_rel
               (rows (match_nodes a g)
                  (match_nodes (Pat (Some l) ps) (merge_node l ps g)) t)
               (rels (merge_node l ps g)))).
  apply fold_add_rel_adds, in_rows; assumption.
Qed.

Lemma first_loader_keeps project_data :
  keeps (GraphUpsertV2._create_project
           (PyStr.basename (project_path project_data))
           (project_path project_data)
         ++ flat_map GraphUpsertV2._create_package
              (Graph.declared_packages (files project_data))
         ++ GraphUpsertV2._create_package_hierarchy
              (list_to_set (Graph.declared_packages (files project_data)))
         ++ flat_map Graph.load_file (files project_data)
         ++ flat_map Graph.load_imports (files project_data)).
Proof.
  apply forallb_forall. intros q Hq. apply negb_true_iff.
  apply in_app_or in Hq. destruct Hq as [Hq|Hq].
  { destruct Hq as [<-|[]]. reflexivity. }
  apply in_app_or in Hq. destruct Hq as [Hq|Hq].
  { apply in_flat_map in Hq. destruct Hq as (name & _ & [<-|[]]). reflexivity. }
  apply in_app_or in Hq. destruct Hq as [Hq|Hq].
  { unfold GraphUpsertV2._create_package_hierarchy in Hq. split_in. reflexivity. }
  apply in_app_or in Hq. destruct Hq as [Hq|Hq].
  - apply in_flat_map in Hq. destruct Hq as ([file_path file_info] & _ & Hq).
    unfold Graph.load_file, Graph.load_class, Graph.load_interface,
      Graph._create_file, Graph._create_class, Graph._create_interface,
      Graph._create_method, GraphUpsertV2._create_extends_relationship,
      GraphUpsertV2._create_implements_relationship in Hq.
    split_in; reflexivity.
  - apply in_flat_map in Hq. destruct Hq as (entry & _ & Hq).
    apply first_loader_imports_spec in Hq. destruct Hq as (target & ->).
    reflexivity.
Qed.

(** The statement sent for an import record, and the record behind every
    statement of the import pass. *)
Lemma in_first_loader_imports p r d :
  In d (default [] (dependencies r)) -> dep_type d = "import" ->
  In (MatchMergeNodeRel (GraphUpsertV2.by_path p) "Import"
                        [("name", dep_target d)] "IMPORTS")
     (Graph.load_imports (p, Parsed r)).
Proof.
  intros Hd Hty. unfold Graph.load_imports. simpl.
  apply in_flat_map. exists d. split; [assumption|].
  rewrite Hty. simpl. now left.
Qed.

Lemma first_loader_imports_origin entry q :
  In q (Graph.load_imports entry) ->
  exists r d,
    snd entry = Parsed r /\ In d (default [] (dependencies r))
    /\ dep_type d = "import"
    /\ q = MatchMergeNodeRel (GraphUpsertV2.by_path (fst entry)) "Import"
                             [("name", dep_target d)] "IMPORTS".
Proof.
  destruct entry as [p [r|p' e]]; simpl; [|intros []].
  intros H. apply in_flat_map in H. destruct H as (d & Hd & H).
  destruct (String.eqb (dep_type d) "import") eqn:Hty; [|destruct H].
  destruct H as [<-|[]]. apply String.eqb_eq in Hty. exists r, d. auto.
Qed.

Lemma in_first_loader_file_merge p r :
  In (Merge "File" [("name", PyStr.basename p); ("path", p)])
     (Graph.load_file (p, Parsed r)).
Proof. unfold Graph.load_file, Graph._create_file. simpl. now left. Qed.
End FirstLoaderImportFacts.

(** X26. In the first loader ([graph.py]) the Import nodes come from the
    dependency records, not from the import lists: for every record of type
    'import' stored for a file that parsed, the store after the load holds
    an Import node named after the record's target and the File node of the
    file is linked to it by IMPORTS, whatever the order of the files and
    whatever the store held before. *)
Theorem first_loader_links_import_records
  (project_data : Model.project_structure) (g : Cypher.store)
  (p : string) (r : Model.file_record) (d : Model.dependency) :
  In (p, Model.Parsed r) (Model.files project_data) ->
  In d (default [] (Model.dependencies r)) ->
  Model.dep_type d = "import" ->
  Cypher.present (GraphUpsertV2.by_name "Import" (Model.dep_target d))
                 (Graph.loaded project_data g)
  /\ Cypher.linked (GraphUpsertV2.by_path p) "IMPORTS"
                   (GraphUpsertV2.by_name "Import" (Model.dep_target d))
                   (Graph.loaded project_data g).
Proof.
  intros Hf Hd Hty. rewrite first_loader_parts.
  pose proof (first_loader_keeps project_data) as Hk.
  set (q := Cypher.MatchMergeNodeRel (GraphUpsertV2.by_path p) "Import"
              [("name", Model.dep_target d)] "IMPORTS").
  assert (Hq : In q (flat_map Graph.load_imports (Model.files project_data))).
  { apply in_flat_map. exists (p, Model.Parsed r). split; [assumption|].
    now apply in_first_loader_imports. }
  apply in_split in Hq. destruct Hq as (a & b & Hsplit).
  rewrite Hsplit in Hk |- *. rewrite !app_assoc in Hk |- *.
  match goal with
  | |- context [Cypher.run (?pre ++ q :: b) ?g0] =>
      set (before := pre) in *; set (start := g0)
  end.
  apply keeps_app in Hk. destruct Hk as [Hpre Hk].
  apply keeps_cons in Hk. destruct Hk as [_ Hb].
  assert (Hfile : Cypher.present (GraphUpsertV2.by_path p)
                                 (Cypher.run before start)).
  { apply (run_makes before start
             (Cypher.Merge "File" [("name", PyStr.basename p); ("path", p)]));
      [assumption| |solve_makes].
    unfold before. rewrite <- !app_assoc.
    apply in_or_app. right. apply in_or_app. right. apply in_or_app. right.
    apply in_or_app. left. apply in_flat_map.
    exists (p, Model.Parsed r). split; [assumption|].
    apply in_first_loader_file_merge. }
  assert (Hl : Cypher.linked (GraphUpsertV2.by_path p) "IMPORTS"
                 (GraphUpsertV2.by_name "Import" (Model.dep_target d))
                 (Cypher.run (before ++ q :: b) start)).
  { rewrite run_app. change (q :: b) with ([q] ++ b). rewrite run_app.
    apply linked_kept; [assumption|].
    change (Cypher.run [q] (Cypher.run before start))
      with (Cypher.exec (Cypher.run before start) q).
    apply exec_merge_node_rel; [keys_distinct|assumption]. }
  split; [|exact Hl].
  destruct Hl as (x & y & _ & _ & Hy & Hmy & _). exists y. split; assumption.
Qed.

Lemma first_loader_links_import_records_witness :
  Cypher.present (GraphUpsertV2.by_name "Import" "java.util.List")
    (Graph.loaded
       (Model.ProjectStructure "/src/demo"
          [("G.java",
            Model.Parsed
              (Model.FileRecord "G.java" None ["java.util.List"] [] []
                 (Some [Model.Dependency "import" "java.util.List" None])))])
       Cypher.empty)
  /\ Cypher.linked (GraphUpsertV2.by_path "G.java") "IMPORTS"
       (GraphUpsertV2.by_name "Import" "java.util.List")
       (Graph.loaded
          (Model.ProjectStructure "/src/demo"
             [("G.java",
               Model.Parsed
                 (Model.FileRecord "G.java" None ["java.util.List"] [] []
                    (Some [Model.Dependency "import" "java.util.List" None])))])
          Cypher.empty).
Proof.
  apply (first_loader_links_import_records
           (Model.ProjectStructure "/src/demo"
              [("G.java",
                Model.Parsed
                  (Model.FileRecord "G.java" None ["java.util.List"] [] []
                     (Some [Model.Dependency "import" "java.util.List" None])))])
           Cypher.empty "G.java"
           (Model.FileRecord "G.java" None ["java.util.List"] [] []
              (Some [Model.Dependency "import" "java.util.List" None]))
           (Model.Dependency "import" "java.util.List" None)).
  - left. reflexivity.
  - left. reflexivity.
  - reflexivity.
Defined.

(** X27. Conversely, every Import node in the graph left by the first
    loader is named after the target of a dependency record of type
    'import' of a file that parsed: an import list whose records were never
    computed, and the imports of a file that failed, leave no Import
    node. *)
Theorem first_loader_imports_only_from_records
  (project_data : Model.project_structure) (g : Cypher.store) :
  Forall (fun n =>
            exists p r d,
              In (p, Model.Parsed r) (Model.files project_data)
              /\ In d (default [] (Model.dependencies r))
              /\ Model.dep_type d = "import"
              /\ Cypher.nprops n = [("name", Model.dep_target d)])
         (Cypher.nodes_with (Cypher.Pat (Some "Import") [])
                            (Graph.loaded project_data g)).
Proof.
  apply List.Forall_forall. intros n Hn.
  unfold Cypher.nodes_with in Hn. apply filter_In in Hn.
  destruct Hn as [Hn Hm]. unfold Cypher.matches in Hm. simpl in Hm.
  rewrite andb_true_r in Hm. apply String.eqb_eq in Hm.
  rewrite first_loader_parts in Hn. apply run_node_origin in Hn.
  destruct Hn as [[]|(q & Hq & Hc)]. rewrite Hm in Hc.
  apply in_app_or in Hq. destruct Hq as [Hq|Hq].
  { destruct Hq as [<-|[]]. discriminate Hc. }
  apply in_app_or in Hq. destruct Hq as [Hq|Hq].
  { apply in_flat_map in Hq. destruct Hq as (name & _ & [<-|[]]).
    discriminate Hc. }
  apply in_app_or in Hq. destruct Hq as [Hq|Hq].
  { apply hierarchy_creates_nothing in Hq. congruence. }
  apply in_app_or in Hq. destruct Hq as [Hq|Hq].
  - apply in_flat_map in Hq. destruct Hq as (entry & _ & Hq).
    pose proof (first_loader_file_creates _ _ _ _ Hq Hc) as H.
    simpl in H. intuition discriminate.
  - apply in_flat_map in Hq. destruct Hq as ([p fi] & Hin & Hq).
    apply first_loader_imports_origin in Hq.
    destruct Hq as (r & d & Hfi & Hd & Hty & ->). simpl in Hfi. subst fi.
    exists p, r, d. injection Hc as Hps. auto.
Qed.
